(** * NestJS & Angular documentation service: classifier, analyzer, documentation index

    A shallow embedding of the two adapters of the repository,
    [TsMorphCodeAnalysisRepository] (file classification and rule-based
    analysis) and [WebDocumentationRepository] (documentation index, lazy
    topic content, region extraction), together with the tool handlers that
    aggregate their results.

    Conventions of the embedding.
    - A JavaScript string is a [string]: a sequence of code units, here the
      code units below 256.  The primitives of [Module Str] follow the
      ECMAScript definitions on that range.
    - The two external collaborators are inputs: the remote content service
      (what [axios.get] answers) is a field of the world the documentation
      index runs in, and the syntax tree library (what
      [project.createSourceFile] builds) is an oracle from path and content
      to a tree.
    - Objects mutated in place ([issues], the sections of a source) are
      threaded as state. *)

From Stdlib Require Import String Ascii List Bool Arith Lia.
From Stdlib Require Import DecimalString.
Import ListNotations.

Local Open Scope string_scope.
Local Open Scope list_scope.
Local Open Scope bool_scope.
Local Open Scope nat_scope.

(** String concatenation, apart from the concatenation of lists. *)
Infix "+++" := String.append (at level 60, right associativity).

(* ===================================================================== *)
(** ** String primitives *)
(* ===================================================================== *)

Module Str.

(** [s.startsWith(p)] *)
Fixpoint startsWith (s p : string) {struct p} : bool :=
  match p with
  | EmptyString => true
  | String a p' =>
      match s with
      | EmptyString => false
      | String b s' => Ascii.eqb a b && startsWith s' p'
      end
  end.

(** [s.includes(p)] *)
Fixpoint includes (s p : string) : bool :=
  startsWith s p ||
  match s with
  | EmptyString => false
  | String _ s' => includes s' p
  end.

(** [s.substring(n)] for [0 <= n] *)
Fixpoint drop (n : nat) (s : string) : string :=
  match n, s with
  | S n', String _ s' => drop n' s'
  | _, _ => s
  end.

Fixpoint take (n : nat) (s : string) : string :=
  match n, s with
  | S n', String c s' => String c (take n' s')
  | _, _ => EmptyString
  end.

(** [s.substring(a, b)]: both ends are clamped to the length and swapped
    when [a > b]. *)
Definition substring (a b : nat) (s : string) : string :=
  let lo := Nat.min a b in
  let hi := Nat.max a b in
  take (hi - lo) (drop lo s).

(** [s.endsWith(p)] *)
Definition endsWith (s p : string) : bool :=
  (String.length p <=? String.length s) &&
  String.eqb (drop (String.length s - String.length p) s) p.

(** [s.indexOf(p)], [None] for -1 *)
Fixpoint indexOf (s p : string) : option nat :=
  if startsWith s p then Some 0
  else match s with
       | EmptyString => None
       | String _ s' => option_map S (indexOf s' p)
       end.

(** [s.replace(p, r)] with a string pattern: the first occurrence only. *)
Fixpoint replaceFirst (s p r : string) : string :=
  if startsWith s p then (r ++ drop (String.length p) s)%string
  else match s with
       | EmptyString => EmptyString
       | String c s' => String c (replaceFirst s' p r)
       end.

Definition code (c : ascii) : nat := nat_of_ascii c.

Definition inRange (lo hi : nat) (c : ascii) : bool :=
  (lo <=? code c) && (code c <=? hi).

(** White space and line terminators: the set [\s] of regular expressions
    and the set [trim] strips (tab, LF, VT, FF, CR, space, NBSP). *)
Definition isWhiteSpace (c : ascii) : bool :=
  inRange 9 13 c || (code c =? 32) || (code c =? 160).

Definition isLineTerminator (c : ascii) : bool :=
  (code c =? 10) || (code c =? 13).

Definition isDigit (c : ascii) : bool := inRange 48 57 c.

(** [\w] *)
Definition isWordChar (c : ascii) : bool :=
  inRange 65 90 c || inRange 97 122 c || isDigit c || (code c =? 95).

Definition lowerChar (c : ascii) : ascii :=
  if inRange 65 90 c || ((inRange 192 222 c) && negb (code c =? 215))
  then ascii_of_nat (code c + 32) else c.

(** [toUpperCase] of one code unit, used on [\w] characters only. *)
Definition upperChar (c : ascii) : ascii :=
  if inRange 97 122 c then ascii_of_nat (code c - 32) else c.

Fixpoint mapChars (f : ascii -> ascii) (s : string) : string :=
  match s with
  | EmptyString => EmptyString
  | String c s' => String (f c) (mapChars f s')
  end.

(** [s.toLowerCase()] *)
Definition toLowerCase (s : string) : string := mapChars lowerChar s.

Fixpoint trimStart (s : string) : string :=
  match s with
  | String c s' => if isWhiteSpace c then trimStart s' else s
  | EmptyString => EmptyString
  end.

Fixpoint rev (s : string) : string :=
  match s with
  | EmptyString => EmptyString
  | String c s' => (rev s' ++ String c EmptyString)%string
  end.

Definition trimEnd (s : string) : string := rev (trimStart (rev s)).

(** [s.trim()] *)
Definition trim (s : string) : string := trimEnd (trimStart s).

(** A part of a text: what is left after cutting something off both ends. *)
Definition infix (t s : string) : Prop := exists a b, s = a +++ t +++ b.

(** JavaScript truthiness of a string: non-empty. *)
Definition truthy (s : string) : bool :=
  match s with EmptyString => false | _ => true end.

(** [s.split(sep)] for a one-character separator. *)
Fixpoint split (sep : ascii) (s : string) : list string :=
  match s with
  | EmptyString => [EmptyString]
  | String c s' =>
      if Ascii.eqb c sep then EmptyString :: split sep s'
      else match split sep s' with
           | [] => [String c EmptyString]
           | w :: ws => String c w :: ws
           end
  end.

(** [parts.join(sep)] *)
Fixpoint join (sep : string) (parts : list string) : string :=
  match parts with
  | [] => EmptyString
  | [p] => p
  | p :: ps => (p ++ sep ++ join sep ps)%string
  end.

(** Decimal rendering of a number inside a template literal. *)
Definition ofNat (n : nat) : string :=
  NilZero.string_of_uint (Nat.to_uint n).

End Str.

(* ===================================================================== *)
(** ** Domain entities ([core/domain/entities]) *)
(* ===================================================================== *)

Module Entities.

Inductive CodeLanguage :=
| TYPESCRIPT | JAVASCRIPT | HTML | CSS | SCSS | JSON | YAML | LANG_UNKNOWN.

Inductive CodeFileType :=
| ANGULAR_COMPONENT | ANGULAR_SERVICE | ANGULAR_MODULE | ANGULAR_DIRECTIVE
| ANGULAR_PIPE
| NESTJS_CONTROLLER | NESTJS_SERVICE | NESTJS_MODULE | NESTJS_MIDDLEWARE
| NESTJS_PIPE | NESTJS_GUARD | NESTJS_INTERCEPTOR
| CONFIGURATION | TEST | UNKNOWN.

Inductive IssueSeverity := ERROR | WARNING | INFO.

Definition CodeLanguage_eqb (a b : CodeLanguage) : bool :=
  match a, b with
  | TYPESCRIPT, TYPESCRIPT | JAVASCRIPT, JAVASCRIPT | HTML, HTML
  | CSS, CSS | SCSS, SCSS | JSON, JSON | YAML, YAML
  | LANG_UNKNOWN, LANG_UNKNOWN => true
  | _, _ => false
  end.

Definition CodeFileType_eqb (a b : CodeFileType) : bool :=
  match a, b with
  | ANGULAR_COMPONENT, ANGULAR_COMPONENT | ANGULAR_SERVICE, ANGULAR_SERVICE
  | ANGULAR_MODULE, ANGULAR_MODULE | ANGULAR_DIRECTIVE, ANGULAR_DIRECTIVE
  | ANGULAR_PIPE, ANGULAR_PIPE | NESTJS_CONTROLLER, NESTJS_CONTROLLER
  | NESTJS_SERVICE, NESTJS_SERVICE | NESTJS_MODULE, NESTJS_MODULE
  | NESTJS_MIDDLEWARE, NESTJS_MIDDLEWARE | NESTJS_PIPE, NESTJS_PIPE
  | NESTJS_GUARD, NESTJS_GUARD | NESTJS_INTERCEPTOR, NESTJS_INTERCEPTOR
  | CONFIGURATION, CONFIGURATION | TEST, TEST | UNKNOWN, UNKNOWN => true
  | _, _ => false
  end.

Definition IssueSeverity_eqb (a b : IssueSeverity) : bool :=
  match a, b with
  | ERROR, ERROR | WARNING, WARNING | INFO, INFO => true
  | _, _ => false
  end.

Record CodeFile := mkCodeFile {
  getPath : string;
  getContent : string;
  getLanguage : CodeLanguage;
  getFileType : CodeFileType
}.

Record CodeIssue := mkCodeIssue {
  issueId : string;
  getDescription : string;
  getSeverity : IssueSeverity;
  getLineStart : nat;
  getLineEnd : nat;
  getSuggestedFix : string;
  getRelatedDocumentation : string
}.

Record BestPractice := mkBestPractice {
  practiceId : string;
  practiceTitle : string;
  practiceDescription : string;
  getDocumentationUrl : string;
  getCodeExample : string
}.

Record CodeAnalysisResult := mkCodeAnalysisResult {
  getFile : CodeFile;
  getIssues : list CodeIssue;
  resultBestPractices : list BestPractice
}.

Definition hasIssues (r : CodeAnalysisResult) : bool :=
  0 <? List.length (getIssues r).

Record DocumentationTopic := mkTopic {
  topicId : string;
  topicTitle : string;
  topicUrl : string;
  topicContent : string;
  topicBestPractices : list string;
  topicCodeExamples : list string
}.

Record DocumentationSection := mkSection {
  sectionId : string;
  sectionTitle : string;
  sectionUrl : string;
  getTopics : list DocumentationTopic
}.

Definition addTopic (s : DocumentationSection) (t : DocumentationTopic)
  : DocumentationSection :=
  mkSection (sectionId s) (sectionTitle s) (sectionUrl s) (getTopics s ++ [t]).

Record DocumentationSource := mkSource {
  sourceId : string;
  sourceName : string;
  getBaseUrl : string;
  getVersion : string;
  getSections : list DocumentationSection
}.

Definition addSection (src : DocumentationSource) (s : DocumentationSection)
  : DocumentationSource :=
  mkSource (sourceId src) (sourceName src) (getBaseUrl src) (getVersion src)
           (getSections src ++ [s]).

End Entities.

(* ===================================================================== *)
(** ** File classifier ([detectFileType]) *)
(* ===================================================================== *)

Module Classifier.
Import Entities.
Import Str.

Definition isCode (l : CodeLanguage) : bool :=
  match l with TYPESCRIPT | JAVASCRIPT => true | _ => false end.

(** The extension table, consulted when the language is not set yet. *)
Definition detectLanguage (path : string) (language : CodeLanguage)
  : CodeLanguage :=
  match language with
  | LANG_UNKNOWN =>
      if endsWith path ".ts" then TYPESCRIPT
      else if endsWith path ".js" then JAVASCRIPT
      else if endsWith path ".html" then HTML
      else if endsWith path ".css" then CSS
      else if endsWith path ".scss" then SCSS
      else if endsWith path ".json" then JSON
      else if endsWith path ".yml" || endsWith path ".yaml" then YAML
      else LANG_UNKNOWN
  | l => l
  end.

(** The ordered filename-fragment rules.  [path.match(/.*\.component$/)]
    holds exactly when the path ends with [.component]: the pattern is not
    anchored on the left and [$] is the end of the input. *)
Definition classifyByPath (path : string) : CodeFileType :=
  if includes path ".controller." then NESTJS_CONTROLLER
  else if includes path ".service." || includes path ".provider."
       then NESTJS_SERVICE
  else if includes path ".module." then NESTJS_MODULE
  else if includes path ".middleware." then NESTJS_MIDDLEWARE
  else if includes path ".pipe." then NESTJS_PIPE
  else if includes path ".guard." then NESTJS_GUARD
  else if includes path ".interceptor." || includes path ".filter."
       then NESTJS_INTERCEPTOR
  else if includes path ".component." || endsWith path ".component"
       then ANGULAR_COMPONENT
  else if includes path ".service." || endsWith path ".service"
       then ANGULAR_SERVICE
  else if includes path ".module." || endsWith path ".module"
       then ANGULAR_MODULE
  else if includes path ".directive." || endsWith path ".directive"
       then ANGULAR_DIRECTIVE
  else if includes path ".pipe." || endsWith path ".pipe"
       then ANGULAR_PIPE
  else if includes path ".spec." || includes path ".test." then TEST
  else if includes path "package.json" || includes path "tsconfig.json"
          || includes path "angular.json" || includes path "nest-cli.json"
       then CONFIGURATION
  else UNKNOWN.

(** The content decision table, reached only when the path rules gave
    nothing. *)
Definition classifyByContent (content : string) : CodeFileType :=
  if includes content "@Controller" || includes content "Controller"
  then NESTJS_CONTROLLER
  else if includes content "@Injectable"
          && (includes content "Service" || includes content "Provider"
              || includes content "Repository")
       then NESTJS_SERVICE
  else if includes content "@Module" then NESTJS_MODULE
  else if includes content "@Injectable" && includes content "Pipe"
       then NESTJS_PIPE
  else if includes content "@Injectable" && includes content "Guard"
       then NESTJS_GUARD
  else if includes content "@Injectable"
          && (includes content "Interceptor" || includes content "Filter"
              || includes content "ExceptionFilter")
       then NESTJS_INTERCEPTOR
  else if includes content "@Component" then ANGULAR_COMPONENT
  else if includes content "@Injectable"
          && negb (includes content "@nestjs/")
       then ANGULAR_SERVICE
  else if includes content "@NgModule" then ANGULAR_MODULE
  else if includes content "@Directive" then ANGULAR_DIRECTIVE
  else if includes content "@Pipe" then ANGULAR_PIPE
  else UNKNOWN.

(** The kind of a file of unknown kind: the path rules for a code
    language, then the content table when they gave nothing. *)
Definition detectedKind (path content : string) (language : CodeLanguage)
  : CodeFileType :=
  let fileType := if isCode language then classifyByPath path else UNKNOWN in
  if CodeFileType_eqb fileType UNKNOWN && isCode language
  then classifyByContent content else fileType.

Definition detectFileType (file : CodeFile) : CodeFile :=
  if negb (CodeFileType_eqb (getFileType file) UNKNOWN) then file
  else
    let path := getPath file in
    let content := getContent file in
    let language := detectLanguage path (getLanguage file) in
    mkCodeFile path content language (detectedKind path content language).

(** The framework-specific annotation tokens the content table looks for. *)
Definition annotationTokens : list string :=
  ["@Controller"; "@Injectable"; "@Module"; "@Component"; "@NgModule";
   "@Directive"; "@Pipe"].

Definition hasAnnotationToken (content : string) : bool :=
  existsb (includes content) annotationTokens.

End Classifier.

(* ===================================================================== *)
(** ** Regular expressions

    The fragment of ECMAScript regular expressions the two adapters use,
    with the backtracking semantics of the language: alternatives are tried
    left to right, a greedy star tries one more iteration first, a lazy star
    tries the continuation first, and an iteration of a star that consumes
    nothing is rejected. *)
(* ===================================================================== *)

Module Regex.
Import Str.

Inductive regex :=
| Eps                                 (* the empty pattern *)
| Chr (ok : ascii -> bool)            (* one code unit of a class *)
| Seq (r1 r2 : regex)
| Alt (r1 r2 : regex)                 (* r1|r2 *)
| Star (greedy : bool) (r : regex)    (* r* and r*? *)
| Group (n : nat) (r : regex)         (* capturing group number n *)
| Bos                                 (* ^ *)
| Bol                                 (* ^ under the m flag *)
| Eos                                 (* $ *)
| Eol                                 (* $ under the m flag *)
| WordB                               (* \b *)
| Ahead (r : regex).                  (* (?=r) *)

Record cursor := mkCursor {
  pos : nat;                          (* index of the next code unit *)
  prev : option ascii;                (* the code unit before it *)
  rest : string;                      (* the input from [pos] on *)
  caps : list (nat * string)          (* captures so far, latest first *)
}.

Definition nextChar (c : cursor) : option ascii :=
  match rest c with String a _ => Some a | EmptyString => None end.

Definition isWordAt (o : option ascii) : bool :=
  match o with Some a => isWordChar a | None => false end.

Definition isTerminatorAt (o : option ascii) : bool :=
  match o with Some a => isLineTerminator a | None => false end.

Definition isNone {A} (o : option A) : bool :=
  match o with None => true | Some _ => false end.

Definition orElse {A} (a b : option A) : option A :=
  match a with Some _ => a | None => b end.

(** The iterations of a star: [body] matches one iteration and hands the
    cursor to its continuation.  An iteration moves the cursor forward, so
    the length of the input left bounds their number. *)
Fixpoint starLoop (body : (cursor -> option cursor) -> cursor -> option cursor)
  (greedy : bool) (k : cursor -> option cursor) (fuel : nat) (c : cursor)
  {struct fuel} : option cursor :=
  match fuel with
  | O => k c
  | S fuel' =>
      let again :=
        body
          (fun c' =>
             if pos c' =? pos c then None else starLoop body greedy k fuel' c')
          c in
      if greedy then orElse again (k c) else orElse (k c) again
  end.

(** [rmatch r k c]: match [r] at [c], then hand the cursor to [k]; the first
    success in the order of the language, [None] when there is none. *)
Fixpoint rmatch (r : regex) (k : cursor -> option cursor) (c : cursor)
  {struct r} : option cursor :=
  match r with
  | Eps => k c
  | Chr ok =>
      match rest c with
      | String a s' =>
          if ok a then k (mkCursor (S (pos c)) (Some a) s' (caps c))
          else None
      | EmptyString => None
      end
  | Seq r1 r2 => rmatch r1 (rmatch r2 k) c
  | Alt r1 r2 => orElse (rmatch r1 k c) (rmatch r2 k c)
  | Star greedy r1 =>
      starLoop (rmatch r1) greedy k (S (String.length (rest c))) c
  | Group n r1 =>
      rmatch r1
        (fun c' =>
           k (mkCursor (pos c') (prev c') (rest c')
                ((n, take (pos c' - pos c) (rest c)) :: caps c')))
        c
  | Bos => if isNone (prev c) then k c else None
  | Bol => if isNone (prev c) || isTerminatorAt (prev c) then k c else None
  | Eos => if isNone (nextChar c) then k c else None
  | Eol =>
      if isNone (nextChar c) || isTerminatorAt (nextChar c) then k c
      else None
  | WordB =>
      if xorb (isWordAt (prev c)) (isWordAt (nextChar c)) then k c else None
  | Ahead r1 =>
      match rmatch r1 Some c with
      | Some c' => k (mkCursor (pos c) (prev c) (rest c) (caps c'))
      | None => None
      end
  end.

(** What [exec] reports of a match: its index, the matched text, the
    captures, and the cursor after the match. *)
Record matched := mkMatched {
  index : nat;
  text : string;
  groups : list (nat * string);
  after : cursor
}.

(** Capture [n] of a match; [None] when the group took no part. *)
Fixpoint capture (n : nat) (gs : list (nat * string)) : option string :=
  match gs with
  | [] => None
  | (m, s) :: gs' => if m =? n then Some s else capture n gs'
  end.

(** The leftmost match at or after a position. *)
Fixpoint execFrom (r : regex) (i : nat) (p : option ascii) (s : string)
  {struct s} : option matched :=
  match rmatch r Some (mkCursor i p s []) with
  | Some c => Some (mkMatched i (take (pos c - i) s) (caps c) c)
  | None =>
      match s with
      | EmptyString => None
      | String a s' => execFrom r (S i) (Some a) s'
      end
  end.

(** [r.exec(s)] and [s.match(r)] for a pattern without the g flag. *)
Definition exec (r : regex) (s : string) : option matched :=
  execFrom r 0 None s.

(** [r.test(s)], and the truthiness of [s.match(r)]. *)
Definition test (r : regex) (s : string) : bool :=
  negb (isNone (exec r s)).

(** All matches under the g flag: the search resumes where the last match
    ended, one code unit further after an empty match. *)
Fixpoint matchesFrom (fuel : nat) (r : regex) (i : nat) (p : option ascii)
  (s : string) : list matched :=
  match fuel with
  | O => []
  | S fuel' =>
      match execFrom r i p s with
      | None => []
      | Some m =>
          let c := after m in
          if pos c =? index m then
            match rest c with
            | EmptyString => [m]
            | String a s' => m :: matchesFrom fuel' r (S (pos c)) (Some a) s'
            end
          else m :: matchesFrom fuel' r (pos c) (prev c) (rest c)
      end
  end.

(** [Array.from(s.matchAll(r))] for a pattern with the g flag. *)
Definition matchAll (r : regex) (s : string) : list matched :=
  matchesFrom (S (String.length s)) r 0 None s.

(** [s.match(r)] for a pattern with the g flag ([null] is the empty list). *)
Definition matchTexts (r : regex) (s : string) : list string :=
  map text (matchAll r s).

(** Rebuilds a string from its matches: the text between two matches is
    kept, each match is replaced by [f]. *)
Fixpoint rebuild (f : matched -> string) (from : nat) (s : string)
  (ms : list matched) : string :=
  match ms with
  | [] => drop from s
  | m :: ms' =>
      (substring from (index m) s ++ f m
       ++ rebuild f (index m + String.length (text m)) s ms')%string
  end.

(** [s.replace(r, f)] for a pattern with the g flag. *)
Definition replaceAll (r : regex) (f : matched -> string) (s : string)
  : string :=
  rebuild f 0 s (matchAll r s).

(** [s.replace(r, f)] for a pattern without the g flag. *)
Definition replace (r : regex) (f : matched -> string) (s : string)
  : string :=
  match exec r s with
  | None => s
  | Some m => rebuild f 0 s [m]
  end.

(** *** Pattern constructors *)

Definition isChar (a : ascii) : ascii -> bool := Ascii.eqb a.

Definition oneOf (cs : string) (a : ascii) : bool :=
  includes cs (String a EmptyString).

Definition noneOf (cs : string) (a : ascii) : bool := negb (oneOf cs a).

(** [.]: any code unit but a line terminator *)
Definition dot : regex := Chr (fun a => negb (isLineTerminator a)).

(** [[\s\S]] *)
Definition anyChar : regex := Chr (fun _ => true).

Definition ws : regex := Chr isWhiteSpace.

Fixpoint lit (s : string) : regex :=
  match s with
  | EmptyString => Eps
  | String a s' => Seq (Chr (isChar a)) (lit s')
  end.

(** A literal under the i flag. *)
Fixpoint liti (s : string) : regex :=
  match s with
  | EmptyString => Eps
  | String a s' =>
      Seq (Chr (fun b => Ascii.eqb (lowerChar a) (lowerChar b))) (liti s')
  end.

Definition plus (greedy : bool) (r : regex) : regex :=
  Seq r (Star greedy r).

Definition opt (r : regex) : regex := Alt r Eps.

(** [r{1,3}] *)
Definition upTo3 (r : regex) : regex := Seq r (opt (Seq r (opt r))).

Fixpoint seqs (rs : list regex) : regex :=
  match rs with
  | [] => Eps
  | [r] => r
  | r :: rs' => Seq r (seqs rs')
  end.

Fixpoint alts (rs : list regex) : regex :=
  match rs with
  | [] => Eps
  | [r] => r
  | r :: rs' => Alt r (alts rs')
  end.

(** *** The language of a pattern *)

(** The patterns free of assertions: no anchor, no word boundary, no
    lookahead.  What such a pattern matches does not depend on where in
    the input it is tried. *)
Fixpoint simple (r : regex) : bool :=
  match r with
  | Eps | Chr _ => true
  | Seq r1 r2 | Alt r1 r2 => simple r1 && simple r2
  | Star _ r1 | Group _ r1 => simple r1
  | _ => false
  end.

(** The texts a pattern free of assertions matches. *)
Inductive lang : regex -> string -> Prop :=
| lang_eps : lang Eps EmptyString
| lang_chr (ok : ascii -> bool) (a : ascii) :
    ok a = true -> lang (Chr ok) (String a EmptyString)
| lang_seq (r1 r2 : regex) (u v : string) :
    lang r1 u -> lang r2 v -> lang (Seq r1 r2) (u +++ v)
| lang_alt_l (r1 r2 : regex) (u : string) : lang r1 u -> lang (Alt r1 r2) u
| lang_alt_r (r1 r2 : regex) (u : string) : lang r2 u -> lang (Alt r1 r2) u
| lang_star_nil (greedy : bool) (r : regex) : lang (Star greedy r) EmptyString
| lang_star_cons (greedy : bool) (r : regex) (u v : string) :
    u <> EmptyString -> lang r u -> lang (Star greedy r) v ->
    lang (Star greedy r) (u +++ v)
| lang_group (n : nat) (r : regex) (u : string) :
    lang r u -> lang (Group n r) u.

(** The cursor [c'] is [c] moved over the text [u]. *)
Definition reaches (c : cursor) (u : string) (c' : cursor) : Prop :=
  rest c = u +++ rest c' /\ pos c' = pos c + String.length u.

(** What a successful match says: the matcher moved over a text of the
    language and its continuation succeeded from there. *)
Definition sound (r : regex)
  (body : (cursor -> option cursor) -> cursor -> option cursor) : Prop :=
  forall k c final,
    body k c = Some final ->
    exists u c', lang r u /\ reaches c u c' /\ k c' = Some final.

(** A continuation that succeeds wherever the cursor stands once the text
    [u] is passed, [v] being left. *)
Definition accepts (k : cursor -> option cursor) (c : cursor) (u v : string)
  : Prop :=
  forall c', rest c' = v -> pos c' = pos c + String.length u -> k c' <> None.

(** What a text of the language ahead implies: the matcher succeeds when
    its continuation succeeds behind the text. *)
Definition complete (r : regex)
  (body : (cursor -> option cursor) -> cursor -> option cursor) : Prop :=
  forall u, lang r u ->
  forall k c v, rest c = u +++ v -> accepts k c u v -> body k c <> None.

End Regex.

(* ===================================================================== *)
(** ** Named-region extraction ([extractVisibleRegion])

    The region name is spliced into the source of six patterns.  The
    embedding reads it as a literal, which is what the splice means for a
    name free of pattern syntax ([plainName]). *)
(* ===================================================================== *)

Module Region.
Import Str.
Import Regex.

Definition syntaxCharacters : string := "^$\.*+?()[]{}|".

Fixpoint plainName (name : string) : bool :=
  match name with
  | EmptyString => true
  | String a name' => noneOf syntaxCharacters a && plainName name'
  end.

(** [[\r\n]] *)
Definition lineBreak : regex := Chr isLineTerminator.

Definition marker (keyword regionName : string) : list regex :=
  [ seqs [lit "//"; Star true ws; lit keyword; plus true ws;
          lit regionName; lineBreak];
    seqs [lit "<!--"; Star true ws; lit keyword; plus true ws;
          lit regionName; Star true ws; lit "-->"; lineBreak];
    seqs [lit "/*"; Star true ws; lit keyword; plus true ws;
          lit regionName; Star true ws; lit "*/"; lineBreak] ].

Definition regionStartPatterns (regionName : string) : list regex :=
  marker "#docregion" regionName.

Definition regionEndPatterns (regionName : string) : list regex :=
  marker "#enddocregion" regionName.

(** One turn of the loop that keeps the pattern matching earliest. *)
Definition earlier (s : string) (best : option (nat * regex))
  (pattern : regex) : option (nat * regex) :=
  match exec pattern s with
  | Some m =>
      match best with
      | None => Some (index m, pattern)
      | Some (i, _) => if index m <? i then Some (index m, pattern) else best
      end
  | None => best
  end.

Definition earliest (patterns : list regex) (s : string)
  : option (nat * regex) :=
  fold_left (earlier s) patterns None.

Definition extractVisibleRegion (fileContent regionName : string) : string :=
  if negb (truthy fileContent) || negb (truthy regionName) then fileContent
  else
    match earliest (regionStartPatterns regionName) fileContent with
    | None => fileContent
    | Some (startIndex, startPattern) =>
        let contentAfterStart := drop startIndex fileContent in
        let startMarkerLength :=
          match exec startPattern contentAfterStart with
          | Some m => String.length (text m)
          | None => 0
          end in
        match earliest (regionEndPatterns regionName) contentAfterStart with
        | None => drop startMarkerLength contentAfterStart
        | Some (endRelativeIndex, _) =>
            trim (substring startMarkerLength endRelativeIndex
                    contentAfterStart)
        end
    end.

(** Whether a start marker of the region occurs in a text. *)
Definition hasStartMarker (s regionName : string) : bool :=
  existsb (fun pattern => test pattern s) (regionStartPatterns regionName).

(** What follows the opener of a marker comment and the white space after
    it: the keyword of the marker, when the text starts with a marker. *)
Definition afterOpener (s : string) : option string :=
  if startsWith s "//" then Some (trimStart (drop 2 s))
  else if startsWith s "<!--" then Some (trimStart (drop 4 s))
  else if startsWith s "/*" then Some (trimStart (drop 2 s))
  else None.

(** Whether a text holds at most one start marker of the region: none
    begins after the place where the first one begins. *)
Definition atMostOneStartMarker (s regionName : string) : bool :=
  match earliest (regionStartPatterns regionName) s with
  | None => true
  | Some (startIndex, _) => negb (hasStartMarker (drop (S startIndex) s) regionName)
  end.

End Region.

(* ===================================================================== *)
(** ** State passing *)
(* ===================================================================== *)

Module StateMonad.

(** A computation that reads and updates a state of type [W]. *)
Definition State (W A : Type) : Type := W -> A * W.

Definition ret {W A} (a : A) : State W A := fun w => (a, w).

Definition bind {W A B} (m : State W A) (k : A -> State W B) : State W B :=
  fun w => let (a, w') := m w in k a w'.

(** A [for ... of] loop whose body updates an accumulator. *)
Fixpoint forEach {W A B} (body : B -> A -> State W B) (xs : list A) (acc : B)
  : State W B :=
  match xs with
  | [] => ret acc
  | x :: xs' => bind (body acc x) (forEach body xs')
  end.

(** A [for ... of] loop that produces one value per element. *)
Fixpoint traverse {W A B} (f : A -> State W B) (xs : list A)
  : State W (list B) :=
  match xs with
  | [] => ret []
  | x :: xs' =>
      bind (f x) (fun y => bind (traverse f xs') (fun ys => ret (y :: ys)))
  end.

End StateMonad.

Notation "x <- m ;; k" := (StateMonad.bind m (fun x => k))
  (at level 61, m at next level, right associativity).

(* ===================================================================== *)
(** ** The documentation port ([DocumentationRepository]) *)
(* ===================================================================== *)

Module Ports.
Import Entities StateMonad.

(** The interface the analyzer is constructed with; [W] is the state the
    implementation lives in. *)
Class DocumentationRepository (W : Type) := {
  getDocumentationSources : string -> State W (list DocumentationSource);
  getTopicById : string -> string -> State W (option DocumentationTopic);
  searchTopics : string -> string -> State W (list DocumentationTopic);
  getBestPractices : string -> string -> State W (list string)
}.

End Ports.

(* ===================================================================== *)
(** ** Markdown heuristics of the documentation index *)
(* ===================================================================== *)

Module Markdown.
Import Str Regex.

Definition dquote : ascii := ascii_of_nat 34.
Definition quote : ascii := ascii_of_nat 39.
Definition LF : string := String (ascii_of_nat 10) EmptyString.
Definition CR : string := String (ascii_of_nat 13) EmptyString.

(** [['"]] and [[^'"]] *)
Definition isQuote (a : ascii) : bool :=
  Ascii.eqb a quote || Ascii.eqb a dquote.
Definition anyQuote : regex := Chr isQuote.
Definition notQuote : regex := Chr (fun a => negb (isQuote a)).

Definition upper (m : matched) : string := mapChars upperChar (text m).

Definition dashesToSpaces (s : string) : string :=
  replaceAll (lit "-") (fun _ => " ") s.

(** [name.replace(/-/g, ' ').replace(/^\w/, up).replace(/\b\w/g, up)] *)
Definition sectionTitleOf (name : string) : string :=
  replaceAll (Seq WordB (Chr isWordChar)) upper
    (replace (Seq Bos (Chr isWordChar)) upper (dashesToSpaces name)).

(** [`section-${name.toLowerCase().replace(/\s+/g, '-')}`] *)
Definition sectionIdOf (name : string) : string :=
  "section-" +++ replaceAll (plus true ws) (fun _ => "-") (toLowerCase name).

(** [name.replace('.md', '').replace(/-/g, ' ').replace(/^\w|\s\w/g, up)] *)
Definition topicTitleOf (name : string) : string :=
  replaceAll (Alt (Seq Bos (Chr isWordChar)) (Seq ws (Chr isWordChar))) upper
    (dashesToSpaces (replaceFirst name ".md" EmptyString)).

(** [`topic-${name.toLowerCase().replace(/\s+/g, '-').replace('.md', '')}`] *)
Definition topicIdOf (name : string) : string :=
  "topic-" +++
  replaceFirst
    (replaceAll (plus true ws) (fun _ => "-") (toLowerCase name)) ".md"
    EmptyString.

Definition firstGroup (m : option matched) : option string :=
  match m with
  | Some m' => capture 1 (groups m')
  | None => None
  end.

(** [extractTitleFromMarkdown]; [None] is [null]. *)
Definition extractTitleFromMarkdown (content : string) : option string :=
  let h1 := seqs [Bol; lit "#"; plus true ws; Group 1 (plus true dot); Eol] in
  let decorative :=
    seqs [lit "<docs-decorative-header"; plus true ws; lit "title=";
          Chr (isChar dquote);
          Group 1 (plus true (Chr (fun a => negb (Ascii.eqb a dquote))));
          Chr (isChar dquote)] in
  let h2 := seqs [Bol; lit "##"; plus true ws; Group 1 (plus true dot); Eol] in
  let firstLine := seqs [Bol; Group 1 (plus true dot); Eol] in
  match firstGroup (exec h1 content) with
  | Some t => Some (trim t)
  | None =>
      match firstGroup (exec decorative content) with
      | Some t => Some (trim t)
      | None =>
          match firstGroup (exec h2 content) with
          | Some t => Some (trim t)
          | None => option_map trim (firstGroup (exec firstLine content))
          end
      end
  end.

(** [```(?:typescript|javascript|html|css)] and its three-language form *)
Definition fence (languages : list string) : regex :=
  Seq (lit "```") (alts (map lit languages)).

Definition codeBlock (languages : list string) : regex :=
  seqs [fence languages; Star false anyChar; lit "```"].

(** [block.replace(/^```(?:...)\r?\n/g, '').replace(/```$/g, '').trim()] *)
Definition cleanCode (languages : list string) (block : string) : string :=
  trim
    (replaceAll (Seq (lit "```") Eos) (fun _ => EmptyString)
       (replaceAll (seqs [Bos; fence languages; opt (lit CR); lit LF])
          (fun _ => EmptyString) block)).

Definition docsLanguages : list string :=
  ["typescript"; "javascript"; "html"; "css"].

Definition group (n : nat) (m : matched) : string :=
  match capture n (groups m) with Some s => s | None => EmptyString end.

Definition markModernSyntax (example : string) : string :=
  if includes example "@if" || includes example "@for"
     || includes example "@switch"
  then "// Modern Angular control flow syntax" +++ LF +++ example
  else example.

(** [extractCodeExamples] of the documentation index *)
Definition extractCodeExamples (content : string) : list string :=
  let fenced :=
    filter truthy
      (map (cleanCode docsLanguages)
         (matchTexts (codeBlock docsLanguages) content)) in
  let docsCodeRegex :=
    seqs [lit "<docs-code"; Star true (Chr (noneOf ">")); lit ">";
          Group 1 (Star false anyChar); lit "</docs-code>"] in
  let docsCode :=
    map (fun m => trim (group 1 m))
      (filter (fun m => truthy (group 1 m) && truthy (trim (group 1 m)))
         (matchAll docsCodeRegex content)) in
  let docsCodeHeaderPathRegex :=
    seqs [lit "<docs-code"; Star false (Chr (noneOf ">"));
          lit "header="; anyQuote; Group 1 (plus true notQuote); anyQuote;
          Star false (Chr (noneOf ">"));
          lit "path="; anyQuote; Group 2 (plus true notQuote); anyQuote;
          Star false (Chr (noneOf ">")); lit ">"] in
  let headerPath :=
    map (fun m =>
           "// Header: " +++ group 1 m +++ LF +++
           "// Path reference: " +++ group 2 m +++ LF +++
           "// Actual code would be loaded from this path")
      (matchAll docsCodeHeaderPathRegex content) in
  let visibleRegionRegex :=
    seqs [lit "visibleRegion="; anyQuote; Group 1 (plus true notQuote);
          anyQuote] in
  let visibleRegion :=
    map (fun m =>
           "// Visible region: " +++ group 1 m +++ LF +++
           "// This references a specific section of code in an example file")
      (matchAll visibleRegionRegex content) in
  map markModernSyntax (fenced ++ docsCode ++ headerPath ++ visibleRegion).

End Markdown.

(* ===================================================================== *)
(** ** The documentation index ([WebDocumentationRepository]) *)
(* ===================================================================== *)

Module Docs.
Import Str Regex Entities StateMonad Markdown.

(** One entry of a directory listing of the content service. *)
Record Item := mkItem {
  itemType : string;
  itemName : string;
  itemUrl : string;
  itemHtmlUrl : string;
  itemDownloadUrl : string
}.

(** The [data] of a response: a directory listing, a text, or any other
    value (a parsed object, a number, [null]). *)
Inductive Data :=
| DArray (items : list Item)
| DString (s : string)
| DOther.

(** What the content service answers to the [n]-th request of the
    process, made for a given URL; [None] is a request that fails. *)
Definition Remote : Type := nat -> string -> option Data.

(** The state a repository instance runs in: its [frameworkSources]
    record (keys in insertion order), the content service, and the log of
    the requests made so far. *)
Record World := mkWorld {
  frameworkSources : list (string * list DocumentationSource);
  remote : Remote;
  requests : list string
}.

Definition Repo (A : Type) : Type := State World A.

Definition GITHUB_RAW_CONTENT_BASE : string :=
  "https://raw.githubusercontent.com".
Definition GITHUB_API_BASE : string := "https://api.github.com/repos".

Definition initialSources : list (string * list DocumentationSource) :=
  [ ("nestjs",
     [mkSource "nestjs-github" "NestJS Documentation (GitHub)"
        "https://github.com/nestjs/docs.nestjs.com/tree/master/content"
        "master" []]);
    ("angular",
     [mkSource "angular-github" "Angular Documentation (GitHub)"
        "https://github.com/angular/angular/tree/main/adev/src/content/guide"
        "main" []]) ].

(** A repository instance right after construction. *)
Definition newRepository (service : Remote) : World :=
  mkWorld initialSources service [].

(** A content service that is down: every request fails. *)
Definition offline : Remote := fun _ _ => None.

(** [axios.get(url)]: [None] when the call throws. *)
Definition axiosGet (url : string) : Repo (option Data) :=
  fun w =>
    (remote w (List.length (requests w)) url,
     mkWorld (frameworkSources w) (remote w) (requests w ++ [url])).

(** [this.frameworkSources[key]] *)
Fixpoint lookup {A} (key : string) (record : list (string * A)) : option A :=
  match record with
  | [] => None
  | (k, v) :: record' =>
      if String.eqb k key then Some v else lookup key record'
  end.

Fixpoint update {A} (key : string) (f : A -> A) (record : list (string * A))
  : list (string * A) :=
  match record with
  | [] => []
  | (k, v) :: record' =>
      if String.eqb k key then (k, f v) :: record'
      else (k, v) :: update key f record'
  end.

(** [Object.values(record)] *)
Definition values {A} (record : list (string * A)) : list A :=
  map snd record.

(** The sources of a framework are objects shared with the record: what a
    discovery added to them is written back under the framework's key. *)
Definition storeSources (key : string) (sources : list DocumentationSource)
  : Repo unit :=
  fun w =>
    (tt, mkWorld (update key (fun _ => sources) (frameworkSources w))
           (remote w) (requests w)).

(** [fetchRawGitHubContent]: the data of the response, the empty string
    when the request fails. *)
Definition fetchRawGitHubContent (url : string) : Repo Data :=
  response <- axiosGet url ;;
  ret (match response with Some d => d | None => DString EmptyString end).

(** The raw-content URL of a topic. *)
Definition rawUrlOf (topic : DocumentationTopic) : string :=
  replaceFirst
    (replaceFirst
       (replaceFirst (topicUrl topic) "https://github.com"
          GITHUB_RAW_CONTENT_BASE)
       "/blob/" "/")
    "/tree/" "/".

(** [fetchTopicContent].  A data that is not a string makes
    [extractCodeExamples] throw; the handler returns the topic as it is. *)
Definition fetchTopicContent (topic : DocumentationTopic)
  : Repo DocumentationTopic :=
  content <- fetchRawGitHubContent (rawUrlOf topic) ;;
  ret (match content with
       | DString c =>
           mkTopic (topicId topic) (topicTitle topic) (topicUrl topic) c
             (topicBestPractices topic) (extractCodeExamples c)
       | _ => topic
       end).

Definition isMarkdownFile (item : Item) : bool :=
  String.eqb (itemType item) "file" && endsWith (itemName item) ".md".

(** A topic whose content is loaded on demand. *)
Definition lazyTopic (item : Item) : DocumentationTopic :=
  mkTopic (topicIdOf (itemName item)) (topicTitleOf (itemName item))
    (itemHtmlUrl item) EmptyString [] [].

(** [fetchNestJSGitHubTopics] *)
Definition fetchNestJSGitHubTopics (section : DocumentationSection)
  (url : string) : Repo DocumentationSection :=
  response <- axiosGet url ;;
  ret (match response with
       | Some (DArray items) =>
           fold_left
             (fun section item =>
                if isMarkdownFile item then addTopic section (lazyTopic item)
                else section)
             items section
       | _ => section
       end).

(** The four parts every discovery cuts the base URL of a source into. *)
Definition urlParts (source : DocumentationSource) : list string :=
  split "/"
    (replaceFirst (getBaseUrl source) "https://github.com/" EmptyString).

Definition part (n : nat) (parts : list string) : string :=
  nth n parts "undefined".

Definition contentsUrl (source : DocumentationSource) : string :=
  let parts := urlParts source in
  GITHUB_API_BASE +++ "/" +++ part 0 parts +++ "/" +++ part 1 parts
  +++ "/contents/" +++ join "/" (skipn 4 parts)
  +++ "?ref=" +++ getVersion source.

Definition newSection (item : Item) : DocumentationSection :=
  mkSection (sectionIdOf (itemName item)) (sectionTitleOf (itemName item))
    (itemHtmlUrl item) [].

Definition nonEmpty (section : DocumentationSection) : bool :=
  0 <? List.length (getTopics section).

(** [fetchNestJSGitHubSections] *)
Definition fetchNestJSGitHubSections (source : DocumentationSource)
  : Repo DocumentationSource :=
  response <- axiosGet (contentsUrl source) ;;
  match response with
  | Some (DArray items) =>
      forEach
        (fun source item =>
           if String.eqb (itemType item) "dir" then
             section <- fetchNestJSGitHubTopics (newSection item)
                          (itemUrl item) ;;
             ret (if nonEmpty section then addSection source section
                  else source)
           else ret source)
        items source
  | _ => ret source
  end.

Definition fallbackTitle (title : option string) (item : Item) : string :=
  match title with
  | Some t => if truthy t then t else topicTitleOf (itemName item)
  | None => topicTitleOf (itemName item)
  end.

(** The topic built from a file whose content was fetched; [None] when the
    data is not a string and [extractTitleFromMarkdown] throws. *)
Definition loadedTopic (item : Item) (content : Data)
  : option DocumentationTopic :=
  match content with
  | DString c =>
      Some (mkTopic (topicIdOf (itemName item))
              (fallbackTitle (extractTitleFromMarkdown c) item)
              (itemHtmlUrl item) c [] (extractCodeExamples c))
  | _ => None
  end.

(** [fetchAngularDirectoryTopics] *)
Definition fetchAngularDirectoryTopics (section : DocumentationSection)
  (url : string) : Repo DocumentationSection :=
  response <- axiosGet url ;;
  match response with
  | Some (DArray items) =>
      forEach
        (fun section item =>
           if isMarkdownFile item then
             content <- fetchRawGitHubContent (itemDownloadUrl item) ;;
             ret (addTopic section
                    (match loadedTopic item content with
                     | Some topic => topic
                     | None => lazyTopic item
                     end))
           else ret section)
        items section
  | _ => ret section
  end.

(** The logical sections of the Angular documentation, in the order of
    the keys of the local [sections] record. *)
Definition logicalSections (source : DocumentationSource)
  : list (string * DocumentationSection) :=
  let parts := urlParts source in
  let root :=
    "https://github.com/" +++ part 0 parts +++ "/" +++ part 1 parts
    +++ "/tree/" +++ getVersion source +++ "/" +++ join "/" (skipn 4 parts) in
  [ ("fundamentals",
     mkSection "section-fundamentals" "Fundamentals"
       (root +++ "/fundamentals") []);
    ("components",
     mkSection "section-components" "Components" (root +++ "/components") []);
    ("dependency-injection",
     mkSection "section-dependency-injection" "Dependency Injection"
       (root +++ "/di") []);
    ("forms", mkSection "section-forms" "Forms" (root +++ "/forms") []);
    ("routing", mkSection "section-routing" "Routing" (root +++ "/routing") []);
    ("best-practices",
     mkSection "section-best-practices" "Best Practices & Style Guide"
       (root +++ "/style-guide") []);
    ("other", mkSection "section-other" "Other Topics" root []) ].

Definition categoryDirectories : list string :=
  ["components"; "forms"; "routing"; "di"; "style-guide"].

Definition sectionKeyOf (dirName : string) : string :=
  if String.eqb dirName "di" then "dependency-injection"
  else if String.eqb dirName "style-guide" then "best-practices"
  else dirName.

(** The logical section a top-level file goes to. *)
Definition categorize (lowerContent lowerFilename : string) : string :=
  if includes lowerContent "component" || includes lowerFilename "component"
  then "components"
  else if includes lowerContent "dependency injection"
          || includes lowerFilename "inject"
       then "dependency-injection"
  else if includes lowerContent "form" || includes lowerFilename "form"
       then "forms"
  else if includes lowerContent "router" || includes lowerContent "routing"
          || includes lowerFilename "route"
          || includes lowerFilename "navigation"
       then "routing"
  else if includes lowerContent "best practice"
          || includes lowerContent "style guide"
          || includes lowerFilename "best" || includes lowerFilename "style"
       then "best-practices"
  else if test (Seq Bos (alts [lit "introduction"; lit "getting-started";
                               lit "overview"; lit "concept"]))
            lowerFilename
       then "fundamentals"
  else "other".

(** The state of the Angular discovery loop: the source and the local
    record of logical sections. *)
Definition AngularState : Type :=
  (DocumentationSource * list (string * DocumentationSection))%type.

Definition angularItem (st : AngularState) (item : Item)
  : Repo AngularState :=
  let (source, sections) := st in
  if String.eqb (itemType item) "dir" then
    let dirName := toLowerCase (itemName item) in
    if existsb (String.eqb dirName) categoryDirectories then
      match lookup (sectionKeyOf dirName) sections with
      | Some section =>
          section' <- fetchAngularDirectoryTopics section (itemUrl item) ;;
          ret (source, update (sectionKeyOf dirName) (fun _ => section')
                         sections)
      | None => ret st
      end
    else
      section <- fetchAngularDirectoryTopics (newSection item)
                   (itemUrl item) ;;
      ret (if nonEmpty section then addSection source section else source,
           sections)
  else if isMarkdownFile item then
    content <- fetchRawGitHubContent (itemDownloadUrl item) ;;
    ret (match content, loadedTopic item content with
         | DString c, Some topic =>
             (source,
              update (categorize (toLowerCase c) (toLowerCase (itemName item)))
                (fun section => addTopic section topic) sections)
         | _, _ => st
         end)
  else ret st.

(** [fetchAngularGitHubSections] *)
Definition fetchAngularGitHubSections (source : DocumentationSource)
  : Repo DocumentationSource :=
  response <- axiosGet (contentsUrl source) ;;
  match response with
  | Some (DArray items) =>
      st <- forEach angularItem items (source, logicalSections source) ;;
      ret (fold_left
             (fun source section =>
                if nonEmpty section then addSection source section
                else source)
             (values (snd st)) (fst st))
  | _ => ret source
  end.

(** [fetchSections] *)
Definition fetchSections (source : DocumentationSource)
  : Repo DocumentationSource :=
  if includes (sourceId source) "nestjs" then fetchNestJSGitHubSections source
  else if includes (sourceId source) "angular"
       then fetchAngularGitHubSections source
  else ret source.

(** The turn of the loop of [getDocumentationSources] for one source:
    sections are fetched while the source has none. *)
Definition loadSource (source : DocumentationSource)
  : Repo DocumentationSource :=
  if List.length (getSections source) =? 0 then fetchSections source
  else ret source.

(** [getDocumentationSources].  The record has the two keys it was built
    with; the keys every object inherits are not modelled. *)
Definition getDocumentationSources (framework : string)
  : Repo (list DocumentationSource) :=
  let normalizedFramework := toLowerCase framework in
  fun w =>
    match lookup normalizedFramework (frameworkSources w) with
    | None => ([], w)
    | Some sources =>
        (loaded <- traverse loadSource sources ;;
         _ <- storeSources normalizedFramework loaded ;;
         ret loaded) w
    end.

(** Every source of the index, framework after framework. *)
Definition allSources (w : World) : list DocumentationSource :=
  concat (values (frameworkSources w)).

Definition allTopics (source : DocumentationSource)
  : list DocumentationTopic :=
  flat_map getTopics (getSections source).

(** The first topic with the given identifier among the sources with the
    given identifier, in traversal order: what the nested loops of
    [getTopicById] stop at. *)
Definition findTopic (sourceId' topicId' : string)
  (sources : list DocumentationSource) : option DocumentationTopic :=
  find (fun topic => String.eqb (topicId topic) topicId')
    (flat_map
       (fun source =>
          if String.eqb (sourceId source) sourceId' then allTopics source
          else [])
       sources).

(** [getTopicById] *)
Definition getTopicById (sourceId' topicId' : string)
  : Repo (option DocumentationTopic) :=
  fun w =>
    match findTopic sourceId' topicId' (allSources w) with
    | Some foundTopic =>
        if negb (truthy (topicContent foundTopic))
        then (topic <- fetchTopicContent foundTopic ;; ret (Some topic)) w
        else (Some foundTopic, w)
    | None => (None, w)
    end.

(** [let t = topic; if (!topic.getContent()) t = fetchTopicContent(topic) || topic] *)
Definition ensureContent (topic : DocumentationTopic)
  : Repo DocumentationTopic :=
  if negb (truthy (topicContent topic)) then fetchTopicContent topic
  else ret topic.

Definition mentions (normalized : string) (topic : DocumentationTopic)
  : bool :=
  includes (toLowerCase (topicTitle topic)) normalized
  || includes (toLowerCase (topicContent topic)) normalized.

Definition findSource (sourceId' : string)
  (sources : list DocumentationSource) : option DocumentationSource :=
  find (fun source => String.eqb (sourceId source) sourceId') sources.

(** [searchTopics] *)
Definition searchTopics (sourceId' query : string)
  : Repo (list DocumentationTopic) :=
  let normalizedQuery := toLowerCase query in
  fun w =>
    match findSource sourceId' (allSources w) with
    | None => ([], w)
    | Some source =>
        forEach
          (fun results section =>
             forEach
               (fun results topic =>
                  topicWithContent <- ensureContent topic ;;
                  ret (if mentions normalizedQuery topicWithContent
                       then results ++ [topicWithContent] else results))
               (getTopics section) results)
          (getSections source) [] w
    end.

(** [#{1,3}\s+] *)
Definition headingMark : regex := Seq (upTo3 (lit "#")) (plus true ws).

(** [(?=#{1,3}\s+|$)] *)
Definition untilNextHeading : regex := Ahead (Alt headingMark Eos).

Definition bestPracticeHeadings : list regex :=
  [ seqs [headingMark; liti "Best"; plus true ws; liti "Practices"];
    seqs [headingMark; liti "Recommended"; plus true ws; liti "Practices"];
    seqs [headingMark; liti "Style"; plus true ws; liti "Guide"];
    seqs [headingMark; liti "Guidelines"];
    seqs [headingMark; liti "Conventions"] ].

Definition includesAny (s : string) (words : list string) : bool :=
  existsb (includes (toLowerCase s)) words.

(** The four heuristics of [extractBestPractices] on a loaded content. *)
Definition bestPracticePassages (content : string) : list string :=
  let headed :=
    flat_map
      (fun heading =>
         match exec (Seq (Group 1 (Seq heading (Star false anyChar)))
                       untilNextHeading) content with
         | Some m =>
             if truthy (group 1 m) then [trim (group 1 m)] else []
         | None => []
         end)
      bestPracticeHeadings in
  let bulletListSections :=
    matchTexts
      (plus true
         (seqs [Alt (Seq (opt (lit CR)) (lit LF)) (lit CR);
                alts [lit "*"; lit "-"; Seq (plus true (Chr isDigit)) (lit ".")];
                plus true ws; plus true dot]))
      content in
  let bullets :=
    map trim
      (filter
         (fun section =>
            includesAny section
              ["best practice"; "recommend"; "should"; "always"; "never"])
         bulletListSections) in
  let codeBlocks :=
    matchTexts (codeBlock ["typescript"; "javascript"; "html"]) content in
  let demonstrated :=
    flat_map
      (fun block =>
         let at_ := match indexOf content block with
                    | Some i => i
                    | None => 0
                    end in
         let precedingText := substring (at_ - 200) at_ content in
         if includesAny precedingText
              ["best practice"; "recommend"; "preferred way"; "correct";
               "example"]
         then [trim precedingText +++ LF +++ LF +++ block] else [])
      codeBlocks in
  let dosAndDonts :=
    match exec (seqs [headingMark; liti "Do"; Chr (isChar quote);
                      liti "s and Don"; Chr (isChar quote); liti "ts";
                      Star false anyChar; untilNextHeading]) content with
    | Some m => [trim (text m)]
    | None => []
    end in
  headed ++ bullets ++ demonstrated ++ dosAndDonts.

(** [extractBestPractices] *)
Definition extractBestPractices (topic : DocumentationTopic)
  : Repo (list string) :=
  fullTopic <- ensureContent topic ;;
  ret (bestPracticePassages (topicContent fullTopic)).

(** [getBestPractices] *)
Definition getBestPractices (framework component : string)
  : Repo (list string) :=
  let normalizedFramework := toLowerCase framework in
  let normalizedComponent := toLowerCase component in
  sources <- getDocumentationSources normalizedFramework ;;
  if List.length sources =? 0 then ret []
  else
    forEach
      (fun bestPractices source =>
         forEach
           (fun bestPractices section =>
              forEach
                (fun bestPractices topic =>
                   topicWithContent <- ensureContent topic ;;
                   if mentions normalizedComponent topicWithContent then
                     content <- extractBestPractices topicWithContent ;;
                     ret (if 0 <? List.length content
                          then bestPractices ++ content else bestPractices)
                   else ret bestPractices)
                (getTopics section) bestPractices)
           (getSections source) bestPractices)
      sources [].

(** *** Vocabulary of the properties of the index *)

(** The index and the service are the same in both worlds; only the log of
    requests may differ. *)
Definition sameIndex (w w' : World) : Prop :=
  frameworkSources w' = frameworkSources w /\ remote w' = remote w.

(** A computation that leaves the index as it found it. *)
Definition readOnly {A} (m : Repo A) : Prop :=
  forall w, sameIndex w (snd (m w)).

(** A property of what a computation returns, in whatever world it runs. *)
Definition returns {A} (m : Repo A) (Q : A -> Prop) : Prop :=
  forall w, Q (fst (m w)).

(** [after] is [before] with sections appended: every section of [before]
    is still there, in place and unchanged. *)
Definition extends (before after : DocumentationSource) : Prop :=
  sourceId after = sourceId before
  /\ sourceName after = sourceName before
  /\ getBaseUrl after = getBaseUrl before
  /\ getVersion after = getVersion before
  /\ exists added, getSections after = getSections before ++ added.

(** The index of [w'] holds every section the index of [w] held. *)
Definition keepsSections (w w' : World) : Prop :=
  Forall2
    (fun before after =>
       fst after = fst before /\ Forall2 extends (snd before) (snd after))
    (frameworkSources w) (frameworkSources w').

Definition sectionsNonEmpty (source : DocumentationSource) : Prop :=
  Forall (fun section => nonEmpty section = true) (getSections source).

(** The invariant of the index: the two frameworks it was built with, each
    with at least one source, and no section without topic. *)
Definition wellFormed (w : World) : Prop :=
  map fst (frameworkSources w) = ["nestjs"; "angular"]
  /\ Forall
       (fun entry => snd entry <> [] /\ Forall sectionsNonEmpty (snd entry))
       (frameworkSources w).

Definition supported (framework : string) : Prop :=
  toLowerCase framework = "nestjs" \/ toLowerCase framework = "angular".

(** The requests a pass over some topics makes for their content: one per
    topic stored without content, for its raw-content URL, in order. *)
Definition contentRequests (topics : list DocumentationTopic) : list string :=
  flat_map
    (fun topic =>
       if truthy (topicContent topic) then [] else [rawUrlOf topic])
    topics.

(** A computation that only appends to the log of requests. *)
Definition grows {A} (m : Repo A) : Prop :=
  forall w, exists added, requests (snd (m w)) = requests w ++ added.

(** A computation that makes a request for [url], in whatever world it
    runs. *)
Definition asks {A} (url : string) (m : Repo A) : Prop :=
  forall w,
    exists added, requests (snd (m w)) = requests w ++ added /\ In url added.

(** What a returned topic has in common with the stored one: the identity,
    and everything when the stored topic already had its content. *)
Definition upgradeOf (stored returned : DocumentationTopic) : Prop :=
  topicId returned = topicId stored
  /\ topicTitle returned = topicTitle stored
  /\ topicUrl returned = topicUrl stored
  /\ (truthy (topicContent stored) = true -> returned = stored).

#[global] Instance WebDocumentationRepository
  : Ports.DocumentationRepository World := {
  Ports.getDocumentationSources := getDocumentationSources;
  Ports.getTopicById := getTopicById;
  Ports.searchTopics := searchTopics;
  Ports.getBestPractices := getBestPractices
}.

End Docs.

(* ===================================================================== *)
(** ** Syntax trees

    What the analyzer reads of the tree the syntax tree library builds for
    a file: each record lists the answers of the accessors the analyzer
    calls on that node. *)
(* ===================================================================== *)

Module Tree.

Record Decorator := mkDecorator {
  (** [getName()]; [None] when the call throws, as it does on a decorator
      whose expression is neither a name, a property access nor a call of
      one: a parenthesized expression such as [@(routes[0])] *)
  decoratorName : option string;
  (** the texts of [getArguments()] *)
  decoratorArguments : list string;
  decoratorStartLine : nat;
  decoratorEndLine : nat
}.

Record ParameterDeclaration := mkParameter {
  parameterName : string;
  parameterText : string;
  parameterIsPrivate : bool;
  parameterIsProtected : bool;
  parameterIsPublic : bool;
  parameterStartLine : nat;
  parameterEndLine : nat
}.

Record Method := mkMethod {
  methodName : string;
  methodText : string;
  methodDecorators : list Decorator;
  methodIsPrivate : bool;
  methodIsProtected : bool;
  methodStartLine : nat;
  methodEndLine : nat
}.

Record ClassDeclaration := mkClass {
  (** [getName()]; [None] is [undefined] *)
  className : option string;
  classText : string;
  classDecorators : list Decorator;
  classMethods : list Method;
  (** the parameter lists of [getConstructors()] *)
  classConstructors : list (list ParameterDeclaration);
  (** the texts of [getImplements()] *)
  classImplements : list string;
  classStartLine : nat;
  classEndLine : nat
}.

Record ImportDeclaration := mkImport {
  (** the names of [getNamedImports()] *)
  namedImports : list string;
  importStartLine : nat;
  importEndLine : nat
}.

Record Comment := mkComment {
  commentText : string;
  commentStartLine : nat;
  commentEndLine : nat
}.

Record SourceFile := mkSourceFile {
  getImportDeclarations : list ImportDeclaration;
  (** the texts of [getDescendantsOfKind(Identifier)] *)
  identifiers : list string;
  (** the descendants of kind [SingleLineCommentTrivia] *)
  singleLineComments : list Comment;
  getClasses : list ClassDeclaration
}.

(** The oracle [project.createSourceFile(path, content)]; [None] when it
    throws. *)
Definition Parser : Type := string -> string -> option SourceFile.

(** The tree of a file without class, import, identifier or comment. *)
Definition emptySourceFile : SourceFile := mkSourceFile [] [] [] [].


(** The oracle restricted to finitely many contents whose trees are given;
    it throws on any other content. *)
Fixpoint fromTable (table : list (string * SourceFile)) : Parser :=
  fun path content =>
    match table with
    | [] => None
    | (known, tree) :: table' =>
        if String.eqb known content then Some tree
        else fromTable table' path content
    end.

End Tree.

(* ===================================================================== *)
(** ** Walks: pushing issues, and throwing *)
(* ===================================================================== *)

Module Walk.
Import Entities.

(** A step of the analysis: it may push issues on the shared [issues]
    array and may throw ([None]); what was pushed before a throw stays in
    the array. *)
Definition Walk (A : Type) : Type :=
  list CodeIssue -> option A * list CodeIssue.

Definition ret {A} (a : A) : Walk A := fun issues => (Some a, issues).

Definition bind {A B} (m : Walk A) (k : A -> Walk B) : Walk B :=
  fun issues =>
    match m issues with
    | (Some a, issues') => k a issues'
    | (None, issues') => (None, issues')
    end.

(** [issues.push(issue)] *)
Definition push (issue : CodeIssue) : Walk unit :=
  fun issues => (Some tt, issues ++ [issue]).

(** The value of an accessor that may throw. *)
Definition orThrow {A} (o : option A) : Walk A :=
  fun issues => (o, issues).

Definition when (b : bool) (m : Walk unit) : Walk unit :=
  if b then m else ret tt.

Fixpoint forEach {A} (body : A -> Walk unit) (xs : list A) : Walk unit :=
  match xs with
  | [] => ret tt
  | x :: xs' => bind (body x) (fun _ => forEach body xs')
  end.

(** A walk that throws nothing and pushes exactly [out]. *)
Definition pushes (m : Walk unit) (out : list CodeIssue) : Prop :=
  forall issues, m issues = (Some tt, issues ++ out).

Definition isError (issue : CodeIssue) : bool :=
  IssueSeverity_eqb (getSeverity issue) ERROR.

Definition notError (issue : CodeIssue) : Prop := isError issue = false.

(** A walk that, thrown or not, leaves what was pushed before it in place
    and does what it does whatever was pushed before it: [snd (m [])] is
    what [m] has pushed when it ends, by returning or by throwing. *)
Definition framed {A} (m : Walk A) : Prop :=
  forall issues, m issues = (fst (m []), issues ++ snd (m [])).

(** A walk that throws. *)
Definition throws {A} (m : Walk A) (issues : list CodeIssue) : Prop :=
  fst (m issues) = None.

End Walk.

Notation "x <~ m ;; k" := (Walk.bind m (fun x => k))
  (at level 61, m at next level, right associativity).
Notation "m ;;; k" := (Walk.bind m (fun _ => k))
  (at level 61, right associativity).

(* ===================================================================== *)
(** ** The rule catalog ([TsMorphCodeAnalysisRepository], tree walks) *)
(* ===================================================================== *)

Module Rules.
Import Str Regex Entities Tree Walk.
Import Markdown.

(** [name || fallback] *)
Definition nameOr (fallback : string) (name : option string) : string :=
  match name with
  | Some n => if truthy n then n else fallback
  | None => fallback
  end.

(** [`${name}`] *)
Definition nameText (name : option string) : string :=
  match name with Some n => n | None => "undefined" end.

(** [decorators.some(d => p(d.getName()))]: the names are read in order,
    up to the first that satisfies [p]. *)
Fixpoint someDecorator (p : string -> bool) (ds : list Decorator)
  : option bool :=
  match ds with
  | [] => Some false
  | d :: ds' =>
      match decoratorName d with
      | None => None
      | Some n => if p n then Some true else someDecorator p ds'
      end
  end.

(** [decorators.find(d => p(d.getName()))] *)
Fixpoint findDecorator (p : string -> bool) (ds : list Decorator)
  : option (option Decorator) :=
  match ds with
  | [] => Some None
  | d :: ds' =>
      match decoratorName d with
      | None => None
      | Some n => if p n then Some (Some d) else findDecorator p ds'
      end
  end.

Definition named (name : string) : string -> bool := String.eqb name.

(** [getImplements().some(i => i.getText().includes(name))] *)
Definition implementsSome (c : ClassDeclaration) (name : string) : bool :=
  existsb (fun t => includes t name) (classImplements c).

(** [getMethods().some(m => m.getName() === name)] *)
Definition hasMethod (c : ClassDeclaration) (name : string) : bool :=
  existsb (fun m => String.eqb (methodName m) name) (classMethods c).

(** An issue spanning the class. *)
Definition classIssue (c : ClassDeclaration) (id description : string)
  (severity : IssueSeverity) (suggestedFix documentation : string)
  : CodeIssue :=
  mkCodeIssue id description severity (classStartLine c) (classEndLine c)
    suggestedFix documentation.

Definition styleGuide (framework : string) (anchor : string) : string :=
  if String.eqb framework "angular"
  then "https://angular.io/guide/styleguide#" +++ anchor
  else "https://docs.nestjs.com/styleguide".

(** [/^\s*\/\/.*[;{}]/] *)
Definition residualStatement : regex :=
  seqs [Bos; Star true ws; lit "//"; Star true dot; Chr (oneOf ";{}")].

(** The turn of the unused-import loop for one named import. *)
Definition checkNamedImport (sourceFile : SourceFile) (framework : string)
  (importDecl : ImportDeclaration) (identifier : string) : Walk unit :=
  let references := filter (String.eqb identifier) (identifiers sourceFile) in
  when (List.length references <=? 1)
    (push
       (mkCodeIssue ("unused-import-" +++ identifier)
          ("Unused import: " +++ identifier) WARNING
          (importStartLine importDecl) (importEndLine importDecl)
          ("Remove the unused import: " +++ identifier)
          (styleGuide framework "style-04-13"))).

Definition commentedCode (framework : string) (comment : Comment) : CodeIssue :=
  mkCodeIssue ("commented-code-" +++ ofNat (commentStartLine comment))
    "Commented out code should be removed" INFO
    (commentStartLine comment) (commentEndLine comment)
    "Remove commented out code" (styleGuide framework "style-02-03").

(** [analyzeCommonTypeScriptPatterns] *)
Definition analyzeCommonTypeScriptPatterns (sourceFile : SourceFile)
  (framework : string) : Walk unit :=
  Walk.forEach
    (fun importDecl =>
       Walk.forEach (checkNamedImport sourceFile framework importDecl)
         (namedImports importDecl))
    (getImportDeclarations sourceFile) ;;;
  Walk.forEach (fun comment => push (commentedCode framework comment))
    (filter (fun d => test residualStatement (commentText d))
       (singleLineComments sourceFile)).

Definition httpMethodDecorators : list string :=
  ["Get"; "Post"; "Put"; "Delete"; "Patch"; "Options"; "Head"].

Definition missingControllerDecorator (c : ClassDeclaration) : CodeIssue :=
  classIssue c
    ("missing-controller-decorator-" +++ nameOr "unknown" (className c))
    "Missing @Controller decorator on controller class" ERROR
    ("Add @Controller() decorator to the class:" +++ LF +++ LF
     +++ "@Controller()" +++ LF +++ classText c)
    "https://docs.nestjs.com/controllers".

(** The check of one method of a controller class. *)
Definition checkHandlerMethod (method : Method) : Walk unit :=
  hasHttpMethodDecorator <~
    orThrow (someDecorator
               (fun n => existsb (String.eqb n) httpMethodDecorators)
               (methodDecorators method)) ;;
  when (negb hasHttpMethodDecorator
        && negb (methodIsPrivate method)
        && negb (methodIsProtected method))
    (push
       (mkCodeIssue
          ("missing-http-method-decorator-" +++ methodName method)
          ("Missing HTTP method decorator on controller method "
           +++ methodName method)
          WARNING (methodStartLine method) (methodEndLine method)
          ("Add an appropriate HTTP method decorator to the method:"
           +++ LF +++ LF +++ "@Get()" +++ LF +++ methodText method)
          "https://docs.nestjs.com/controllers#request-object")).

(** The check of one parameter of the first constructor. *)
Definition checkInjectedParameter (param : ParameterDeclaration) : Walk unit :=
  when (negb (parameterIsPrivate param)
        && negb (parameterIsProtected param)
        && negb (parameterIsPublic param))
    (push
       (mkCodeIssue
          ("missing-access-modifier-"
           +++ nameOr "unknown" (Some (parameterName param)))
          ("Missing access modifier in constructor parameter for dependency injection: "
           +++ nameOr "unknown" (Some (parameterName param)))
          WARNING (parameterStartLine param) (parameterEndLine param)
          ("Add an access modifier (private, protected, or public) to the parameter:"
           +++ LF +++ LF +++ "constructor(private "
           +++ parameterText param +++ ") {}")
          "https://docs.nestjs.com/providers#dependency-injection")).

(** The turn of the controller loop for one class. *)
Definition checkControllerClass (classDeclaration : ClassDeclaration)
  : Walk unit :=
  hasControllerDecorator <~
    orThrow (someDecorator (named "Controller")
               (classDecorators classDeclaration)) ;;
  when (negb hasControllerDecorator)
    (push (missingControllerDecorator classDeclaration)) ;;;
  Walk.forEach checkHandlerMethod (classMethods classDeclaration) ;;;
  match classConstructors classDeclaration with
  | parameters :: _ => Walk.forEach checkInjectedParameter parameters
  | [] => ret tt
  end.

(** [analyzeNestJSController] *)
Definition analyzeNestJSController (sourceFile : SourceFile) : Walk unit :=
  Walk.forEach checkControllerClass (getClasses sourceFile).

Definition missingInjectable (c : ClassDeclaration)
  (kind suggestedFix documentation : string) : CodeIssue :=
  classIssue c
    ("missing-injectable-decorator-" +++ nameOr "unknown" (className c))
    ("Missing @Injectable decorator on " +++ kind +++ " class") ERROR
    suggestedFix documentation.

Definition addInjectable (c : ClassDeclaration) : string :=
  "Add @Injectable() decorator to the class:" +++ LF +++ LF
  +++ "@Injectable()" +++ LF +++ classText c.

(** The check every injectable kind starts with. *)
Definition checkInjectable (c : ClassDeclaration) (kind documentation
  : string) : Walk unit :=
  hasInjectableDecorator <~
    orThrow (someDecorator (named "Injectable") (classDecorators c)) ;;
  when (negb hasInjectableDecorator)
    (push (missingInjectable c kind (addInjectable c) documentation)).

(** [analyzeNestJSService] *)
Definition analyzeNestJSService (sourceFile : SourceFile) : Walk unit :=
  Walk.forEach
    (fun c =>
       checkInjectable c "service" "https://docs.nestjs.com/providers" ;;;
       match className c with
       | Some name =>
           when (truthy name && negb (endsWith name "Service")
                 && negb (endsWith name "Provider")
                 && negb (endsWith name "Repository"))
             (push
                (classIssue c ("service-naming-convention-" +++ name)
                   ("Service class name should end with 'Service': " +++ name)
                   INFO
                   ("Rename the class to follow the naming convention:"
                    +++ LF +++ LF +++ "export class " +++ name
                    +++ "Service {...}")
                   "https://docs.nestjs.com/styleguide#naming"))
       | None => ret tt
       end)
    (getClasses sourceFile).

(** [analyzeNestJSModule] *)
Definition analyzeNestJSModule (sourceFile : SourceFile) : Walk unit :=
  Walk.forEach
    (fun c =>
       moduleDecorator <~
         orThrow (findDecorator (named "Module") (classDecorators c)) ;;
       match moduleDecorator with
       | None =>
           push
             (classIssue c
                ("missing-module-decorator-" +++ nameOr "unknown" (className c))
                "Missing @Module decorator on module class" ERROR
                ("Add @Module decorator with required metadata to the class:"
                 +++ LF +++ LF +++ "@Module({" +++ LF +++ "  imports: [],"
                 +++ LF +++ "  controllers: []," +++ LF +++ "  providers: [],"
                 +++ LF +++ "  exports: []" +++ LF +++ "})" +++ LF
                 +++ classText c)
                "https://docs.nestjs.com/modules")
       | Some _ =>
           match className c with
           | Some name =>
               when (truthy name && negb (endsWith name "Module"))
                 (push
                    (classIssue c ("module-naming-convention-" +++ name)
                       ("Module class name should end with 'Module': " +++ name)
                       INFO
                       ("Rename the class to follow the naming convention:"
                        +++ LF +++ LF +++ "export class " +++ name
                        +++ "Module {...}")
                       "https://docs.nestjs.com/styleguide#naming"))
           | None => ret tt
           end
       end)
    (getClasses sourceFile).

(** The two checks of a kind that implements a capability interface:
    the interface is declared, the designated method is present. *)
Definition checkCapability (c : ClassDeclaration)
  (interface interfaceId interfaceDescription interfaceFix interfaceDoc
   method methodId methodDescription methodFix methodDoc : string)
  : Walk unit :=
  when (negb (implementsSome c interface))
    (push (classIssue c interfaceId interfaceDescription ERROR interfaceFix
             interfaceDoc)) ;;;
  when (negb (hasMethod c method))
    (push (classIssue c methodId methodDescription ERROR methodFix methodDoc)).

(** [analyzeNestJSPipe] *)
Definition analyzeNestJSPipe (sourceFile : SourceFile) : Walk unit :=
  Walk.forEach
    (fun c =>
       checkInjectable c "pipe" "https://docs.nestjs.com/pipes" ;;;
       checkCapability c
         "PipeTransform"
         ("missing-pipetransform-interface-" +++ nameOr "unknown" (className c))
         "Pipe class should implement PipeTransform interface"
         ("Update class to implement PipeTransform interface:" +++ LF +++ LF
          +++ "export class " +++ nameText (className c)
          +++ " implements PipeTransform {...}")
         "https://docs.nestjs.com/pipes"
         "transform"
         ("missing-transform-method-" +++ nameOr "unknown" (className c))
         "Pipe class must implement a transform method"
         ("Add transform method to pipe class:" +++ LF +++ LF
          +++ "transform(value: any, metadata: ArgumentMetadata) {" +++ LF
          +++ "  // transformation logic" +++ LF +++ "  return value;" +++ LF
          +++ "}")
         "https://docs.nestjs.com/pipes#building-a-simple-pipe")
    (getClasses sourceFile).

(** [analyzeNestJSGuard] *)
Definition analyzeNestJSGuard (sourceFile : SourceFile) : Walk unit :=
  Walk.forEach
    (fun c =>
       checkInjectable c "guard" "https://docs.nestjs.com/guards" ;;;
       checkCapability c
         "CanActivate"
         ("missing-canactivate-interface-" +++ nameOr "unknown" (className c))
         "Guard class should implement CanActivate interface"
         ("Update class to implement CanActivate interface:" +++ LF +++ LF
          +++ "export class " +++ nameText (className c)
          +++ " implements CanActivate {...}")
         "https://docs.nestjs.com/guards"
         "canActivate"
         ("missing-canactivate-method-" +++ nameOr "unknown" (className c))
         "Guard class must implement a canActivate method"
         ("Add canActivate method to guard class:" +++ LF +++ LF
          +++ "canActivate(context: ExecutionContext): boolean | Promise<boolean> | Observable<boolean> {"
          +++ LF +++ "  // guard logic" +++ LF +++ "  return true;" +++ LF
          +++ "}")
         "https://docs.nestjs.com/guards#basic-guard")
    (getClasses sourceFile).

(** [analyzeNestJSInterceptor] *)
Definition analyzeNestJSInterceptor (sourceFile : SourceFile) : Walk unit :=
  Walk.forEach
    (fun c =>
       checkInjectable c "interceptor" "https://docs.nestjs.com/interceptors" ;;;
       let name := nameOr EmptyString (className c) in
       if includes name "Filter" || includes name "Exception" then
         checkCapability c
           "ExceptionFilter"
           ("missing-exceptionfilter-interface-" +++ name)
           "Exception filter class should implement ExceptionFilter interface"
           ("Update class to implement ExceptionFilter interface:" +++ LF
            +++ LF +++ "export class " +++ name
            +++ " implements ExceptionFilter {...}")
           "https://docs.nestjs.com/exception-filters"
           "catch"
           ("missing-catch-method-" +++ name)
           "Exception filter class must implement a catch method"
           ("Add catch method to exception filter class:" +++ LF +++ LF
            +++ "catch(exception: Error, host: ArgumentsHost) {" +++ LF
            +++ "  // filter logic" +++ LF +++ "}")
           "https://docs.nestjs.com/exception-filters#binding-filters"
       else
         checkCapability c
           "NestInterceptor"
           ("missing-nestinterceptor-interface-" +++ name)
           "Interceptor class should implement NestInterceptor interface"
           ("Update class to implement NestInterceptor interface:" +++ LF
            +++ LF +++ "export class " +++ name
            +++ " implements NestInterceptor {...}")
           "https://docs.nestjs.com/interceptors"
           "intercept"
           ("missing-intercept-method-" +++ name)
           "Interceptor class must implement an intercept method"
           ("Add intercept method to interceptor class:" +++ LF +++ LF
            +++ "intercept(context: ExecutionContext, next: CallHandler): Observable<any> {"
            +++ LF +++ "  // interceptor logic" +++ LF
            +++ "  return next.handle();" +++ LF +++ "}")
           "https://docs.nestjs.com/interceptors#basics")
    (getClasses sourceFile).

Definition dontForgetImport (names : string) : string :=
  LF +++ LF +++ "// Don't forget to add the import:" +++ LF
  +++ "// import { " +++ names +++ " } from '@angular/core';".

(** [analyzeAngularComponent] *)
Definition analyzeAngularComponent (sourceFile : SourceFile) : Walk unit :=
  Walk.forEach
    (fun c =>
       componentDecorator <~
         orThrow (findDecorator (named "Component") (classDecorators c)) ;;
       match componentDecorator with
       | None =>
           let lower := nameOr "example" (option_map toLowerCase (className c)) in
           push
             (classIssue c
                ("missing-component-decorator-"
                 +++ nameOr "unknown" (className c))
                "Missing @Component decorator on component class" ERROR
                ("Add @Component() decorator with required metadata to the class:"
                 +++ LF +++ LF +++ "@Component({" +++ LF
                 +++ "  selector: 'app-" +++ lower +++ "'," +++ LF
                 +++ "  templateUrl: './" +++ lower +++ ".component.html'"
                 +++ LF +++ "})" +++ LF +++ classText c)
                "https://angular.io/api/core/Component")
       | Some _ =>
           when (hasMethod c "ngOnInit" && negb (implementsSome c "OnInit"))
             (push
                (mkCodeIssue
                   ("missing-oninit-interface-"
                    +++ nameOr "unknown" (className c))
                   "Component has ngOnInit method but does not implement OnInit interface"
                   WARNING (classStartLine c) (classStartLine c + 1)
                   ("Update class declaration to implement OnInit:" +++ LF
                    +++ LF +++ "export class " +++ nameText (className c)
                    +++ " implements OnInit {" +++ LF +++ LF
                    +++ "  // Don't forget to add the import:" +++ LF
                    +++ "  // import { OnInit } from '@angular/core';")
                   "https://angular.io/api/core/OnInit"))
       end)
    (getClasses sourceFile).

(** [analyzeAngularService].  The second search for the decorator reads
    the names the first one read. *)
Definition analyzeAngularService (sourceFile : SourceFile) : Walk unit :=
  Walk.forEach
    (fun c =>
       hasInjectableDecorator <~
         orThrow (someDecorator (named "Injectable") (classDecorators c)) ;;
       if negb hasInjectableDecorator then
         push
           (missingInjectable c "service"
              ("Add @Injectable() decorator to the class:" +++ LF +++ LF
               +++ "@Injectable({ providedIn: 'root' })" +++ LF
               +++ classText c +++ dontForgetImport "Injectable")
              "https://angular.io/guide/dependency-injection")
       else
         injectableDecorator <~
           orThrow (findDecorator (named "Injectable") (classDecorators c)) ;;
         match injectableDecorator with
         | Some d =>
             when (match decoratorArguments d with
                   | [] => true
                   | decoratorArgs :: _ =>
                       negb (includes decoratorArgs "providedIn")
                   end)
               (push
                  (mkCodeIssue
                     ("missing-providedin-" +++ nameOr "unknown" (className c))
                     "Injectable decorator should use providedIn for tree-shakable services"
                     WARNING (decoratorStartLine d) (decoratorEndLine d)
                     ("Update Injectable decorator to use providedIn:" +++ LF
                      +++ LF +++ "@Injectable({ providedIn: 'root' })")
                     "https://angular.io/guide/dependency-injection-providers#tree-shakable-providers"))
         | None => ret tt
         end)
    (getClasses sourceFile).

(** [analyzeAngularModule] *)
Definition analyzeAngularModule (sourceFile : SourceFile) : Walk unit :=
  Walk.forEach
    (fun c =>
       ngModuleDecorator <~
         orThrow (findDecorator (named "NgModule") (classDecorators c)) ;;
       when (Regex.isNone ngModuleDecorator)
         (push
            (classIssue c
               ("missing-ngmodule-decorator-"
                +++ nameOr "unknown" (className c))
               "Missing @NgModule decorator on module class" ERROR
               ("Add @NgModule decorator with required metadata to the class:"
                +++ LF +++ LF +++ "@NgModule({" +++ LF
                +++ "  declarations: []," +++ LF +++ "  imports: []," +++ LF
                +++ "  exports: []," +++ LF +++ "  providers: []" +++ LF
                +++ "})" +++ LF +++ classText c +++ dontForgetImport "NgModule")
               "https://angular.io/guide/ngmodules")))
    (getClasses sourceFile).

(** [analyzeAngularDirective] *)
Definition analyzeAngularDirective (sourceFile : SourceFile) : Walk unit :=
  Walk.forEach
    (fun c =>
       directiveDecorator <~
         orThrow (findDecorator (named "Directive") (classDecorators c)) ;;
       when (Regex.isNone directiveDecorator)
         (push
            (classIssue c
               ("missing-directive-decorator-"
                +++ nameOr "unknown" (className c))
               "Missing @Directive decorator on directive class" ERROR
               ("Add @Directive decorator with required metadata to the class:"
                +++ LF +++ LF +++ "@Directive({" +++ LF
                +++ "  selector: '[app" +++ nameOr "Example" (className c)
                +++ "]'" +++ LF +++ "})" +++ LF +++ classText c
                +++ dontForgetImport "Directive")
               "https://angular.io/guide/attribute-directives")))
    (getClasses sourceFile).

(** [analyzeAngularPipe] *)
Definition analyzeAngularPipe (sourceFile : SourceFile) : Walk unit :=
  Walk.forEach
    (fun c =>
       pipeDecorator <~
         orThrow (findDecorator (named "Pipe") (classDecorators c)) ;;
       when (Regex.isNone pipeDecorator)
         (push
            (classIssue c
               ("missing-pipe-decorator-" +++ nameOr "unknown" (className c))
               "Missing @Pipe decorator on pipe class" ERROR
               ("Add @Pipe decorator with required metadata to the class:"
                +++ LF +++ LF +++ "@Pipe({" +++ LF +++ "  name: '"
                +++ nameOr "example" (option_map toLowerCase (className c))
                +++ "'" +++ LF +++ "})" +++ LF +++ classText c
                +++ dontForgetImport "Pipe, PipeTransform")
               "https://angular.io/guide/pipes")) ;;;
       when (negb (implementsSome c "PipeTransform"))
         (push
            (classIssue c
               ("missing-pipetransform-interface-"
                +++ nameOr "unknown" (className c))
               "Pipe class should implement PipeTransform interface" ERROR
               ("Update class declaration to implement PipeTransform:"
                +++ LF +++ LF +++ "export class " +++ nameText (className c)
                +++ " implements PipeTransform {...}"
                +++ dontForgetImport "Pipe, PipeTransform")
               "https://angular.io/guide/pipes#creating-pipes-for-custom-data-transformations")))
    (getClasses sourceFile).

End Rules.

(* ===================================================================== *)
(** ** The analyzer ([TsMorphCodeAnalysisRepository]) and its tools *)
(* ===================================================================== *)

Module Analyzer.
Import Str Regex Entities Tree StateMonad Markdown Classifier Rules Ports.

(** The values of the two enumerations, as [toString] renders them. *)
Definition fileTypeValue (t : CodeFileType) : string :=
  match t with
  | ANGULAR_COMPONENT => "angular_component"
  | ANGULAR_SERVICE => "angular_service"
  | ANGULAR_MODULE => "angular_module"
  | ANGULAR_DIRECTIVE => "angular_directive"
  | ANGULAR_PIPE => "angular_pipe"
  | NESTJS_CONTROLLER => "nestjs_controller"
  | NESTJS_SERVICE => "nestjs_service"
  | NESTJS_MODULE => "nestjs_module"
  | NESTJS_MIDDLEWARE => "nestjs_middleware"
  | NESTJS_PIPE => "nestjs_pipe"
  | NESTJS_GUARD => "nestjs_guard"
  | NESTJS_INTERCEPTOR => "nestjs_interceptor"
  | CONFIGURATION => "configuration"
  | TEST => "test"
  | UNKNOWN => "unknown"
  end.

Definition severityValue (s : IssueSeverity) : string :=
  match s with ERROR => "error" | WARNING => "warning" | INFO => "info" end.

(** [getComponentNameFromFileType] *)
Definition getComponentNameFromFileType (fileType : CodeFileType) : string :=
  match fileType with
  | NESTJS_CONTROLLER => "controller"
  | NESTJS_SERVICE => "service"
  | NESTJS_MODULE => "module"
  | NESTJS_MIDDLEWARE => "middleware"
  | NESTJS_PIPE => "pipe"
  | NESTJS_GUARD => "guard"
  | NESTJS_INTERCEPTOR => "interceptor"
  | ANGULAR_COMPONENT => "component"
  | ANGULAR_SERVICE => "service"
  | ANGULAR_MODULE => "module"
  | ANGULAR_DIRECTIVE => "directive"
  | ANGULAR_PIPE => "pipe"
  | _ => EmptyString
  end.

(** [getFrameworkFromFileType] *)
Definition getFrameworkFromFileType (fileType : CodeFileType) : string :=
  if startsWith (fileTypeValue fileType) "ANGULAR_" then "angular"
  else if startsWith (fileTypeValue fileType) "NESTJS_" then "nestjs"
  else EmptyString.

(** The analyzer's own [extractCodeExamples]. *)
Definition extractCodeExamples (text : string) : list string :=
  let languages := ["typescript"; "javascript"; "html"] in
  map (cleanCode languages) (matchTexts (codeBlock languages) text).

(** The best practice built from the passage at position [index]. *)
Definition toBestPractice (index : nat) (practice : string) : BestPractice :=
  let titleMatch :=
    exec (seqs [Bol; plus true (lit "#"); plus true ws;
                Group 1 (plus true dot); Eol]) practice in
  let title :=
    match titleMatch with
    | Some m => trim (group 1 m)
    | None => "Best Practice " +++ ofNat (index + 1)
    end in
  let urlMatch :=
    exec (seqs [lit "http"; opt (lit "s"); lit "://";
                plus true
                  (Chr (fun a => negb (isWhiteSpace a || Ascii.eqb a ")")))])
      practice in
  let docUrl :=
    match urlMatch with Some m => text m | None => EmptyString end in
  let codeExample :=
    match extractCodeExamples practice with
    | example :: _ => example
    | [] => EmptyString
    end in
  mkBestPractice ("bp-" +++ ofNat (index + 1)) title practice docUrl
    codeExample.

(** [xs.map((x, index) => f(index, x))] *)
Fixpoint mapWithIndex {A B} (f : nat -> A -> B) (from : nat) (xs : list A)
  : list B :=
  match xs with
  | [] => []
  | x :: xs' => f from x :: mapWithIndex f (S from) xs'
  end.

(** The kind-specific pass [findIssues] selects. *)
Definition analyzeKind (fileType : CodeFileType) (sourceFile : SourceFile)
  : Walk.Walk unit :=
  match fileType with
  | NESTJS_CONTROLLER => analyzeNestJSController sourceFile
  | NESTJS_SERVICE => analyzeNestJSService sourceFile
  | NESTJS_MODULE => analyzeNestJSModule sourceFile
  | NESTJS_PIPE => analyzeNestJSPipe sourceFile
  | NESTJS_GUARD => analyzeNestJSGuard sourceFile
  | NESTJS_INTERCEPTOR => analyzeNestJSInterceptor sourceFile
  | ANGULAR_COMPONENT => analyzeAngularComponent sourceFile
  | ANGULAR_SERVICE => analyzeAngularService sourceFile
  | ANGULAR_MODULE => analyzeAngularModule sourceFile
  | ANGULAR_DIRECTIVE => analyzeAngularDirective sourceFile
  | ANGULAR_PIPE => analyzeAngularPipe sourceFile
  | _ => Walk.ret tt
  end.

Section WithCollaborators.

Context {W : Type} {documentationRepository : DocumentationRepository W}.
Variable createSourceFile : Parser.

(** The body of the [try] block of [findIssues]. *)
Definition walkFile (file : CodeFile) (framework : string)
  : Walk.Walk unit :=
  sourceFile <~
    Walk.orThrow (createSourceFile (getPath file) (getContent file)) ;;
  analyzeCommonTypeScriptPatterns sourceFile framework ;;;
  analyzeKind (getFileType file) sourceFile.

(** [findIssues]: whatever the [try] block does, the [issues] array is
    what is returned. *)
Definition findIssues (file : CodeFile) (bestPractices : list BestPractice)
  (framework : string) : list CodeIssue :=
  if negb (isCode (getLanguage file))
     || CodeFileType_eqb (getFileType file) UNKNOWN
  then []
  else snd (walkFile file framework []).

(** [fetchRelevantBestPractices] *)
Definition fetchRelevantBestPractices (file : CodeFile) (framework : string)
  : State W (list string) :=
  let component := getComponentNameFromFileType (getFileType file) in
  if truthy component then
    bestPractices <- getBestPractices framework component ;;
    if List.length bestPractices =? 0 then
      forEach
        (fun found term =>
           if 0 <? List.length found then ret found
           else getBestPractices framework term)
        ["best practices"; "style guide"; "conventions"] []
    else ret bestPractices
  else ret [].

(** [analyzeFile] *)
Definition analyzeFile (file : CodeFile) (framework : string)
  : State W CodeAnalysisResult :=
  let detectedFile := detectFileType file in
  bestPracticeStrings <- fetchRelevantBestPractices detectedFile framework ;;
  let bestPractices := mapWithIndex toBestPractice 0 bestPracticeStrings in
  let issues := findIssues detectedFile bestPractices framework in
  ret (mkCodeAnalysisResult detectedFile issues bestPractices).

(** [analyzeProject] *)
Definition analyzeProject (files : list CodeFile) (framework : string)
  : State W (list CodeAnalysisResult) :=
  traverse (fun file => analyzeFile file framework) files.

(** One entry of [generateFixSuggestions]. *)
Definition suggestionFor (file : CodeFile) (issue : CodeIssue)
  : State W string :=
  let framework := getFrameworkFromFileType (getFileType file) in
  bestPractices <- getBestPractices framework (getDescription issue) ;;
  let head :=
    "Issue: " +++ getDescription issue +++ LF
    +++ "Severity: " +++ severityValue (getSeverity issue) +++ LF
    +++ "Location: Lines " +++ ofNat (getLineStart issue) +++ "-"
    +++ ofNat (getLineEnd issue) +++ LF +++ LF
    +++ "Suggested Fix:" +++ LF +++ getSuggestedFix issue +++ LF +++ LF in
  let related :=
    if 0 <? List.length bestPractices then
      "Related Best Practices:" +++ LF
      +++ String.concat EmptyString
            (map
               (fun practice =>
                  let cleanPractice :=
                    substring 0 200
                      (replaceAll
                         (codeBlock ["typescript"; "javascript"; "html"])
                         (fun _ => "[Code example]")
                         (replace
                            (seqs [Bos; plus true (lit "#"); plus true ws;
                                   plus true dot; lit LF])
                            (fun _ => EmptyString) practice)) in
                  "- " +++ cleanPractice +++ "..." +++ LF)
               (firstn 2 bestPractices))
    else EmptyString in
  let reference :=
    if truthy (getRelatedDocumentation issue)
    then LF +++ "Reference: " +++ getRelatedDocumentation issue
    else EmptyString in
  ret (head +++ related +++ reference).

(** [generateFixSuggestions] *)
Definition generateFixSuggestions (analysisResult : CodeAnalysisResult)
  : State W (list string) :=
  traverse (suggestionFor (getFile analysisResult))
    (getIssues analysisResult).

End WithCollaborators.

End Analyzer.

(* ===================================================================== *)
(** ** The code analysis tools ([registerCodeAnalysisTools])

    Each handler is given by the payload of its success envelope. *)
(* ===================================================================== *)

Module Tools.
Import Str Entities Tree StateMonad Classifier Ports Analyzer.

Record FileInfo := mkFileInfo {
  infoPath : string;
  infoLanguage : CodeLanguage;
  infoFileType : CodeFileType
}.

Record IssueView := mkIssueView {
  viewId : string;
  viewDescription : string;
  viewSeverity : IssueSeverity;
  viewLineStart : nat;
  viewLineEnd : nat
}.

Record PracticeView := mkPracticeView {
  viewPracticeId : string;
  viewTitle : string;
  viewText : string
}.

Definition fileInfoOf (file : CodeFile) : FileInfo :=
  mkFileInfo (getPath file) (getLanguage file) (getFileType file).

Definition issueView (issue : CodeIssue) : IssueView :=
  mkIssueView (issueId issue) (getDescription issue) (getSeverity issue)
    (getLineStart issue) (getLineEnd issue).

Definition practiceView (bp : BestPractice) : PracticeView :=
  mkPracticeView (practiceId bp) (practiceTitle bp)
    (substring 0 200 (practiceDescription bp) +++ "...").

(** The payload of [analyzeCodeFile]. *)
Record FileReport := mkFileReport {
  fileInfo : FileInfo;
  issues : list IssueView;
  bestPractices : list PracticeView;
  fixSuggestions : list string
}.

(** One entry of [results] in the payload of [analyzeProject]. *)
Record ProjectEntry := mkProjectEntry {
  entryFileInfo : FileInfo;
  entryIssues : list IssueView;
  entryFixSuggestions : list string
}.

Record ProjectSummary := mkProjectSummary {
  totalFiles : nat;
  filesWithIssues : nat;
  totalIssues : nat;
  errorIssues : nat;       (* issuesBySeverity.error *)
  warningIssues : nat;     (* issuesBySeverity.warning *)
  infoIssues : nat         (* issuesBySeverity.info *)
}.

Definition ofSeverity (severity : IssueSeverity) (i : IssueView) : bool :=
  IssueSeverity_eqb (viewSeverity i) severity.

(** [issuesBySeverity[severity]] *)
Definition issuesBySeverity (summary : ProjectSummary)
  (severity : IssueSeverity) : nat :=
  match severity with
  | ERROR => errorIssues summary
  | WARNING => warningIssues summary
  | INFO => infoIssues summary
  end.

(** [results.reduce((sum, r) => sum + r.issues.filter(...).length, 0)] *)
Definition countSeverity (severity : IssueSeverity)
  (results : list ProjectEntry) : nat :=
  fold_left
    (fun sum r => sum + List.length (filter (ofSeverity severity) (entryIssues r)))
    results 0.

(** The project-level statistics of the [analyzeProject] handler. *)
Definition projectSummary (results : list ProjectEntry) : ProjectSummary :=
  mkProjectSummary
    (List.length results)
    (List.length (filter (fun r => 0 <? List.length (entryIssues r)) results))
    (fold_left (fun sum r => sum + List.length (entryIssues r)) results 0)
    (countSeverity ERROR results)
    (countSeverity WARNING results)
    (countSeverity INFO results).

Section WithCollaborators.

Context {W : Type} {documentationRepository : DocumentationRepository W}.
Variable createSourceFile : Parser.

(** [if (result.hasIssues()) fixSuggestions = generateFixSuggestions(result)] *)
Definition suggestionsOf (result : CodeAnalysisResult)
  : State W (list string) :=
  if hasIssues result then generateFixSuggestions result else ret [].

(** The [analyzeCodeFile] handler. *)
Definition analyzeCodeFile (filePath fileContent framework : string)
  : State W FileReport :=
  let codeFile := mkCodeFile filePath fileContent LANG_UNKNOWN UNKNOWN in
  analysisResult <- analyzeFile createSourceFile codeFile framework ;;
  fixSuggestions <- suggestionsOf analysisResult ;;
  ret (mkFileReport (fileInfoOf (getFile analysisResult))
         (map issueView (getIssues analysisResult))
         (map practiceView (resultBestPractices analysisResult))
         fixSuggestions).

Definition projectEntry (result : CodeAnalysisResult)
  : State W ProjectEntry :=
  fixSuggestions <- suggestionsOf result ;;
  ret (mkProjectEntry (fileInfoOf (getFile result))
         (map issueView (getIssues result)) fixSuggestions).

(** The [analyzeProject] handler; [files] are the pairs of a path and a
    content.  The entries [Promise.all] gathers are computed here in the
    order of the results. *)
Definition analyzeProjectTool (files : list (string * string))
  (framework : string) : State W (ProjectSummary * list ProjectEntry) :=
  let codeFiles :=
    map (fun file => mkCodeFile (fst file) (snd file) LANG_UNKNOWN UNKNOWN)
      files in
  analysisResults <- analyzeProject createSourceFile codeFiles framework ;;
  results <- traverse projectEntry analysisResults ;;
  ret (projectSummary results, results).

(** The [detectFrameworkAndFileType] handler: the detected file and the
    framework derived from its kind. *)
Definition detectFrameworkAndFileType (filePath fileContent : string)
  : FileInfo * string :=
  let detectedFile :=
    detectFileType (mkCodeFile filePath fileContent LANG_UNKNOWN UNKNOWN) in
  (fileInfoOf detectedFile,
   getFrameworkFromFileType (getFileType detectedFile)).

End WithCollaborators.

End Tools.

(* ===================================================================== *)
(** ** Example inputs

    Files with the trees the syntax tree library builds for them, and a
    small content service, for the concrete runs below. *)
(* ===================================================================== *)

Module Examples.
Import Entities Tree Docs Markdown.

(** A controller file with one plain class:
<<
export class WidgetController {
  list() { return []; }
}
>> *)
Definition widgetContent : string :=
  "export class WidgetController {" +++ LF
  +++ "  list() { return []; }" +++ LF +++ "}".

Definition widgetTree : SourceFile :=
  mkSourceFile [] ["WidgetController"; "list"] []
    [mkClass (Some "WidgetController") widgetContent []
       [mkMethod "list" "list() { return []; }" [] false false 2 2]
       [] [] 1 3].

(** A file that declares two plain classes, one per line. *)
Definition pairContent : string :=
  "export class Widget {}" +++ LF +++ "export class WidgetDto {}".

Definition pairTree : SourceFile :=
  mkSourceFile [] ["Widget"; "WidgetDto"] []
    [mkClass (Some "Widget") "export class Widget {}" [] [] [] [] 1 1;
     mkClass (Some "WidgetDto") "export class WidgetDto {}" [] [] [] [] 2 2].

(** A file with an import it never uses and a class whose decorator is a
    parenthesized expression, not a name:
<<
import { Logger } from './logger';
@(routes[0])
export class CatsController {}
>>
    Reading the name of that decorator throws. *)
Definition catsContent : string :=
  "import { Logger } from './logger';" +++ LF
  +++ "@(routes[0])" +++ LF +++ "export class CatsController {}".

Definition catsClass : ClassDeclaration :=
  mkClass (Some "CatsController")
    ("@(routes[0])" +++ LF +++ "export class CatsController {}")
    [mkDecorator None [] 2 2] [] [] [] 2 3.

Definition catsTree : SourceFile :=
  mkSourceFile [mkImport ["Logger"] 1 1]
    ["Logger"; "routes"; "CatsController"] [] [catsClass].

(** The same file with a plain class before the decorated one:
<<
import { Logger } from './logger';
export class DogsController {}
@(routes[0])
export class CatsController {}
>> *)
Definition kennelContent : string :=
  "import { Logger } from './logger';" +++ LF
  +++ "export class DogsController {}" +++ LF
  +++ "@(routes[0])" +++ LF +++ "export class CatsController {}".

Definition dogsClass : ClassDeclaration :=
  mkClass (Some "DogsController") "export class DogsController {}"
    [] [] [] [] 2 2.

Definition kennelTree : SourceFile :=
  mkSourceFile [mkImport ["Logger"] 1 1]
    ["Logger"; "DogsController"; "routes"; "CatsController"] []
    [dogsClass;
     mkClass (Some "CatsController")
       ("@(routes[0])" +++ LF +++ "export class CatsController {}")
       [mkDecorator None [] 3 3] [] [] [] 3 4].

(** A decorated controller with one method that lacks an HTTP verb:
<<
import { Controller } from '@nestjs/common';
@Controller()
export class PingController {
  ping() { return 'pong'; }
}
>> *)
Definition pingContent : string :=
  "import { Controller } from '@nestjs/common';" +++ LF
  +++ "@Controller()" +++ LF +++ "export class PingController {" +++ LF
  +++ "  ping() { return 'pong'; }" +++ LF +++ "}".

Definition pingTree : SourceFile :=
  mkSourceFile [mkImport ["Controller"] 1 1]
    ["Controller"; "Controller"; "PingController"; "ping"] []
    [mkClass (Some "PingController")
       ("@Controller()" +++ LF +++ "export class PingController {" +++ LF
        +++ "  ping() { return 'pong'; }" +++ LF +++ "}")
       [mkDecorator (Some "Controller") [] 2 2]
       [mkMethod "ping" "ping() { return 'pong'; }" [] false false 4 4]
       [] [] 2 5].

(** The parser on the example files; the empty file has the empty tree. *)
Definition exampleParser : Parser :=
  fromTable
    [ (EmptyString, emptySourceFile);
      (widgetContent, widgetTree);
      (pairContent, pairTree);
      (catsContent, catsTree);
      (kennelContent, kennelTree);
      (pingContent, pingTree) ].

(** A syntax tree library that cannot build any tree. *)
Definition brokenParser : Parser := fun _ _ => None.

(** A project of three files: two errors, no issue, one warning. *)
Definition project : list (string * string) :=
  [ ("widget.controller.ts", pairContent);
    ("empty.controller.ts", EmptyString);
    ("ping.controller.ts", pingContent) ].

(** A content service with one NestJS directory holding one page. *)
Definition nestRoot : string :=
  "https://api.github.com/repos/nestjs/docs.nestjs.com/contents/content?ref=master".

Definition techniquesUrl : string :=
  "https://api.github.com/repos/nestjs/docs.nestjs.com/contents/content/techniques?ref=master".

Definition cachingPage : string :=
  "https://github.com/nestjs/docs.nestjs.com/blob/master/content/techniques/caching.md".

Definition cachingRaw : string :=
  "https://raw.githubusercontent.com/nestjs/docs.nestjs.com/master/content/techniques/caching.md".

Definition cachingText : string :=
  "### Caching" +++ LF +++ "Caching is a great technique.".

Definition pages : list (string * Data) :=
  [ (nestRoot,
     DArray
       [mkItem "dir" "techniques" techniquesUrl
          "https://github.com/nestjs/docs.nestjs.com/tree/master/content/techniques"
          EmptyString]);
    (techniquesUrl,
     DArray [mkItem "file" "caching.md" techniquesUrl cachingPage cachingRaw]);
    (cachingRaw, DString cachingText) ].

(** The service answers every request from its pages. *)
Definition steady : Remote := fun _ url => lookup url pages.

(** The service answers the first three requests of the process, then
    goes down. *)
Definition flaky : Remote :=
  fun n url => if n <? 3 then lookup url pages else None.

(** The index after the NestJS sources were asked for once. *)
Definition discovered (service : Remote) : World :=
  snd (getDocumentationSources "nestjs" (newRepository service)).

End Examples.

(* ===================================================================== *)
(** ** Locating an example file ([extractCodeFromDocumentationPath])

    The first step of [extractCodeFromDocumentationPath] for a path that
    is not empty (the empty path is answered with the empty text before
    this step): from the path of a [docs-code] element, or from the URL
    of a page of a repository, to the repository, the branch and the path
    the requests are made for. *)
(* ===================================================================== *)

Module Locator.
Import Str Docs.

Record Location := mkLocation {
  owner : string;
  repo : string;
  branch : string;
  cleanPath : string
}.

Definition locate (repoPath : string) : Location :=
  let nest :=
    includes repoPath "nestjs" || includes repoPath "docs.nestjs.com" in
  let owner := if nest then "nestjs" else "angular" in
  let repo := if nest then "docs.nestjs.com" else "angular" in
  let branch := if nest then "master" else "main" in
  if startsWith repoPath "https://github.com/" then
    let parts :=
      split "/" (replaceFirst repoPath "https://github.com/" EmptyString) in
    match parts with
    | owner' :: repo' :: rest =>
        match rest with
        | kind :: branch' :: path =>
            if String.eqb kind "blob" || String.eqb kind "tree"
            then mkLocation owner' repo' branch' (join "/" path)
            else mkLocation owner' repo' branch (join "/" rest)
        | _ => mkLocation owner' repo' branch (join "/" rest)
        end
    | _ => mkLocation owner repo branch repoPath
    end
  else mkLocation owner repo branch repoPath.

(** The URL the metadata of the file is asked at. *)
Definition apiUrl (l : Location) : string :=
  GITHUB_API_BASE +++ "/" +++ owner l +++ "/" +++ repo l +++ "/contents/"
  +++ cleanPath l +++ "?ref=" +++ branch l.

(** The URL the content is read from when the metadata names none. *)
Definition rawUrl (l : Location) : string :=
  GITHUB_RAW_CONTENT_BASE +++ "/" +++ owner l +++ "/" +++ repo l +++ "/"
  +++ branch l +++ "/" +++ cleanPath l.

(** A text without [/]. *)
Definition segment (s : string) : bool := negb (includes s "/").

End Locator.

(* ===================================================================== *)
(** ** Code snippets of [docs-code] elements ([extractDocsCodeExample])

    The fetch of the file, [extractCodeFromDocumentationPath], is a
    parameter: it is given the path and the region, and answers with a
    text in the state the repository lives in.  The content the requests
    return is taken to be a text, as it is for a file that is no JSON
    document. *)
(* ===================================================================== *)

Module Snippets.
Import Str Regex StateMonad Markdown.

(** The pattern of an attribute: the name, [=], a quote of either kind,
    the value as the first group (one or more code units that are not
    quotes), a quote of either kind. *)
Definition attribute (name : string) : regex :=
  seqs [lit (name +++ "="); anyQuote; Group 1 (plus true notQuote); anyQuote].

(** [m ? m[1] : ''] for [m = element.match(attribute)] *)
Definition attributeValue (name element : string) : string :=
  match firstGroup (exec (attribute name) element) with
  | Some value => value
  | None => EmptyString
  end.

Section WithFetch.

Context {W : Type}.
Variable extractCodeFromDocumentationPath :
  string -> option string -> State W string.

(** [extractDocsCodeExample] *)
Definition extractDocsCodeExample (docsCodeElement : string) : State W string :=
  if negb (truthy docsCodeElement) then ret EmptyString
  else
    let path := attributeValue "path" docsCodeElement in
    let region := attributeValue "visibleRegion" docsCodeElement in
    let header := attributeValue "header" docsCodeElement in
    if negb (truthy path)
    then ret ("// No path found in docs-code element: " +++ docsCodeElement)
    else
      code <- extractCodeFromDocumentationPath path (Some region) ;;
      ret (if truthy header then "// " +++ header +++ LF +++ code else code).

End WithFetch.

End Snippets.

(* ===================================================================== *)
(** ** The documentation tools ([registerDocumentationTools])

    Each handler is given by the payload of its answer. *)
(* ===================================================================== *)

Module DocTools.
Import Str Regex Entities StateMonad Markdown Docs.

Record TopicView := mkTopicView {
  viewTitle : string;
  viewUrl : string;
  viewContent : string;
  viewBestPractices : list string;
  viewCodeExamples : list string
}.

(** The content shown for a search result: at most 500 code units, or a
    notice when the topic has none. *)
Definition preview (content : string) : string :=
  if truthy content then
    if 500 <? String.length content
    then substring 0 500 content +++ "..."
    else content
  else "Content will be loaded when requested".

Definition topicView (topic : DocumentationTopic) : TopicView :=
  mkTopicView (topicTitle topic) (topicUrl topic)
    (preview (topicContent topic)) (topicBestPractices topic)
    (topicCodeExamples topic).

(** The answers of [searchDocumentation]. *)
Inductive SearchAnswer :=
| NoSources                      (* error: no documentation sources found *)
| NoResults                      (* warning: no documentation found *)
| Found (name id url : string) (results : list TopicView) (resultCount : nat).

(** The [searchDocumentation] handler. *)
Definition searchDocumentation (framework query : string)
  : Repo SearchAnswer :=
  sources <- getDocumentationSources framework ;;
  match sources with
  | [] => ret NoSources
  | sourceToUse :: _ =>
      topics <- searchTopics (sourceId sourceToUse) query ;;
      if List.length topics =? 0 then ret NoResults
      else
        ret (Found (sourceName sourceToUse) (sourceId sourceToUse)
               (getBaseUrl sourceToUse) (map topicView topics)
               (List.length topics))
  end.

Record SectionView := mkSectionView {
  viewSectionId : string;
  viewSectionTitle : string;
  viewSectionUrl : string;
  topicCount : nat;
  (** the identifier and the title of the first topics *)
  topicPreview : list (string * string)
}.

Record SourceView := mkSourceView {
  viewSourceName : string;
  viewSourceId : string;
  viewSourceUrl : string;
  viewVersion : string;
  viewSections : list SectionView
}.

Definition sectionView (section : DocumentationSection) : SectionView :=
  mkSectionView (sectionId section) (sectionTitle section) (sectionUrl section)
    (List.length (getTopics section))
    (map (fun topic => (topicId topic, topicTitle topic))
       (firstn 5 (getTopics section))).

Definition sourceView (source : DocumentationSource) : SourceView :=
  mkSourceView (sourceName source) (sourceId source) (getBaseUrl source)
    (getVersion source) (map sectionView (getSections source)).

(** The [browseDocumentation] handler; [None] is the answer that no
    source was found. *)
Definition browseDocumentation (framework : string)
  : Repo (option (list SourceView)) :=
  sources <- getDocumentationSources framework ;;
  if List.length sources =? 0 then ret None
  else ret (Some (map sourceView sources)).

(** One entry of the [selectors] of [extractMultipleCodeSnippets]; every
    field is optional. *)
Record SelectorInfo := mkSelectorInfo {
  selector : option string;
  selectorPath : option string;
  selectorRegion : option string;
  selectorDescription : option string
}.

(** One entry of the results: a selector that names neither an element
    nor a path, or an extraction. *)
Inductive Snippet :=
| Incomplete (description : string)
| Extracted (description path visibleRegion codeType : string)
    (usesModernSyntax : bool) (code : string) (error : option string).

(** [o || fallback] *)
Definition valueOr (fallback : string) (o : option string) : string :=
  match o with
  | Some s => if truthy s then s else fallback
  | None => fallback
  end.

Definition given (o : option string) : bool :=
  match o with Some s => truthy s | None => false end.

(** The kind of code: by the extension of the path when there is one, by
    the look of the code otherwise. *)
Definition codeTypeOf (path : option string) (code : string) : string :=
  if given path then
    let p := valueOr EmptyString path in
    if endsWith p ".html" then "html"
    else if endsWith p ".ts" then "typescript"
    else if endsWith p ".js" then "javascript"
    else if endsWith p ".css" then "css"
    else if endsWith p ".scss" then "scss"
    else "unknown"
  else if includes code "<" && includes code ">"
          && negb (includes code "import ")
       then "html"
  else if includes code "import" || includes code "class"
          || includes code "interface"
       then "typescript"
  else "unknown".

Definition usesModern (code : string) : bool :=
  includes code "@if" || includes code "@for" || includes code "@switch".

(** The description of a fragment that has none; its fifteenth code unit
    is the letter o with an acute accent. *)
Definition defaultDescription : string :=
  "Fragmento de c" +++ String (ascii_of_nat 243) "digo".

Definition extracted (info : SelectorInfo) (code : string) : Snippet :=
  Extracted
    (valueOr (valueOr defaultDescription (selectorRegion info))
       (selectorDescription info))
    (valueOr EmptyString (selectorPath info))
    (valueOr EmptyString (selectorRegion info))
    (codeTypeOf (selectorPath info) code)
    (usesModern code)
    code
    (if startsWith code "// Error" then Some code else None).

(** Whether a selector names a [docs-code] element. *)
Definition namesElement (info : SelectorInfo) : bool :=
  match selector info with
  | Some s => truthy s && includes s "<docs-code"
  | None => false
  end.

(** [r.error], as a condition *)
Definition hasError (r : Snippet) : bool :=
  match r with
  | Incomplete _ => true
  | Extracted _ _ _ _ _ _ error => given error
  end.

(** [r.codeType === t] *)
Definition ofType (types : list string) (r : Snippet) : bool :=
  match r with
  | Incomplete _ => false
  | Extracted _ _ _ codeType _ _ _ => existsb (String.eqb codeType) types
  end.

Definition otherType (r : Snippet) : bool :=
  match r with
  | Incomplete _ => false
  | Extracted _ _ _ codeType _ _ _ =>
      truthy codeType
      && negb (existsb (String.eqb codeType)
                 ["html"; "typescript"; "javascript"; "css"; "scss"])
  end.

Record Summary := mkSummary {
  totalRequested : nat;
  successful : nat;
  failed : nat
}.

Record Grouped := mkGrouped {
  html : list Snippet;
  typescript : list Snippet;
  css : list Snippet;
  other : list Snippet
}.

(** The answers of [extractMultipleCodeSnippets]. *)
Inductive SnippetsAnswer :=
| NoSelectors
| Snippets (summary : Summary) (groupedByType : Grouped)
    (allResults : list Snippet).

Definition answer (selectors : list SelectorInfo) (results : list Snippet)
  : SnippetsAnswer :=
  Snippets
    (mkSummary (List.length selectors)
       (List.length (filter (fun r => negb (hasError r)) results))
       (List.length (filter hasError results)))
    (mkGrouped
       (filter (ofType ["html"]) results)
       (filter (ofType ["typescript"; "javascript"]) results)
       (filter (ofType ["css"; "scss"]) results)
       (filter otherType results))
    results.

(** What a result owes to its selector, whatever was fetched. *)
Definition resultOf (info : SelectorInfo) (r : Snippet) : Prop :=
  if namesElement info || given (selectorPath info)
  then exists code, r = extracted info code
  else r = Incomplete (valueOr "Desconocido" (selectorDescription info)).

Section WithFetch.

Context {W : Type}.
Variable extractCodeFromDocumentationPath :
  string -> option string -> State W string.

(** The extraction for one selector. *)
Definition extractOne (info : SelectorInfo) : State W Snippet :=
  if namesElement info then
    code <- Snippets.extractDocsCodeExample extractCodeFromDocumentationPath
              (valueOr EmptyString (selector info)) ;;
    ret (extracted info code)
  else if given (selectorPath info) then
    code <- extractCodeFromDocumentationPath
              (valueOr EmptyString (selectorPath info)) (selectorRegion info) ;;
    ret (extracted info code)
  else ret (Incomplete (valueOr "Desconocido" (selectorDescription info))).

(** The loop over the batches, [i] being the index of the next batch:
    [for (let i = 0; i < selectors.length; i += batchSize)].  The
    extractions of a batch are taken in the order of the batch.  [None]
    when the loop is still running after [fuel] turns. *)
Fixpoint batches (fuel : nat) (selectors : list SelectorInfo)
  (batchSize i : nat) (results : list Snippet)
  : State W (option (list Snippet)) :=
  match fuel with
  | O => ret None
  | S fuel' =>
      if i <? List.length selectors then
        batchResults <-
          traverse extractOne (firstn batchSize (skipn i selectors)) ;;
        batches fuel' selectors batchSize (i + batchSize)
          (results ++ batchResults)
      else ret (Some results)
  end.

(** The [extractMultipleCodeSnippets] handler, for a batch size that is
    a natural number. *)
Definition extractMultipleCodeSnippets (fuel : nat)
  (selectors : list SelectorInfo) (batchSize : nat)
  : State W (option SnippetsAnswer) :=
  if List.length selectors =? 0 then ret (Some NoSelectors)
  else
    results <- batches fuel selectors batchSize 0 [] ;;
    ret (option_map (answer selectors) results).

End WithFetch.

End DocTools.

(* ===================================================================== *)
(** ** The [generateFixSuggestions] tool *)
(* ===================================================================== *)

Module CodeTools.
Import Str Entities Tree StateMonad Classifier Ports Analyzer Tools.

(** The answers of the handler. *)
Inductive FixAnswer :=
| NoIssues                       (* "No issues found in the file!" *)
| Suggestions (info : FileInfo) (issueCount : nat) (suggestions : list string).

Section WithCollaborators.

Context {W : Type} {documentationRepository : DocumentationRepository W}.
Variable createSourceFile : Parser.

(** The [generateFixSuggestions] handler. *)
Definition generateFixSuggestions (filePath fileContent framework : string)
  : State W FixAnswer :=
  let codeFile := mkCodeFile filePath fileContent LANG_UNKNOWN UNKNOWN in
  analysisResult <- analyzeFile createSourceFile codeFile framework ;;
  if negb (hasIssues analysisResult) then ret NoIssues
  else
    suggestions <- Analyzer.generateFixSuggestions analysisResult ;;
    ret (Suggestions (fileInfoOf (getFile analysisResult))
           (List.length (getIssues analysisResult)) suggestions).

End WithCollaborators.

End CodeTools.

(* ===================================================================== *)
(** ** What the rules expect

    The conditions the rule catalog checks, read as properties of a tree,
    and the texts the analyzer builds when nothing is found. *)
(* ===================================================================== *)

Module Expected.
Import Str Entities Tree Markdown Rules Analyzer.

(** Whether a decorator with a name that satisfies [p] is among [ds]. *)
Definition carries (p : string -> bool) (ds : list Decorator) : bool :=
  existsb
    (fun d => match decoratorName d with Some n => p n | None => false end)
    ds.

(** Decorators whose names can all be read. *)
Definition readable (ds : list Decorator) : bool :=
  forallb (fun d => negb (Regex.isNone (decoratorName d))) ds.

Definition isHttpMethod (n : string) : bool :=
  existsb (String.eqb n) httpMethodDecorators.

(** A method the controller rules accept: a handler, or a method that is
    not public. *)
Definition acceptedMethod (m : Method) : bool :=
  carries isHttpMethod (methodDecorators m)
  || methodIsPrivate m || methodIsProtected m.

Definition acceptedParameter (p : ParameterDeclaration) : bool :=
  parameterIsPrivate p || parameterIsProtected p || parameterIsPublic p.

(** A class the controller rules accept. *)
Definition conformingController (c : ClassDeclaration) : bool :=
  carries (named "Controller") (classDecorators c)
  && forallb acceptedMethod (classMethods c)
  && match classConstructors c with
     | parameters :: _ => forallb acceptedParameter parameters
     | [] => true
     end.

(** A class all of whose decorators, on the class and on its methods, have
    a name that can be read. *)
Definition readableClass (c : ClassDeclaration) : bool :=
  readable (classDecorators c)
  && forallb (fun m => readable (methodDecorators m)) (classMethods c).

(** The tree of a file cut down to some of its classes. *)
Definition withClasses (sourceFile : SourceFile)
  (classes : list ClassDeclaration) : SourceFile :=
  mkSourceFile (getImportDeclarations sourceFile) (identifiers sourceFile)
    (singleLineComments sourceFile) classes.


(** The suggestion built for an issue when no best practice is related
    to it. *)
Definition plainSuggestion (issue : CodeIssue) : string :=
  "Issue: " +++ getDescription issue +++ LF
  +++ "Severity: " +++ severityValue (getSeverity issue) +++ LF
  +++ "Location: Lines " +++ ofNat (getLineStart issue) +++ "-"
  +++ ofNat (getLineEnd issue) +++ LF +++ LF
  +++ "Suggested Fix:" +++ LF +++ getSuggestedFix issue +++ LF +++ LF
  +++ (if truthy (getRelatedDocumentation issue)
       then LF +++ "Reference: " +++ getRelatedDocumentation issue
       else EmptyString).

(** The lower-case names every JavaScript object answers to besides its
    own keys.  The index is a plain object: looked up under one of these
    names it gives a value that is no list of sources, a case the
    embedding of [getDocumentationSources] leaves out. *)
Definition inheritedKeys : list string := ["constructor"; "__proto__"].

(** A topic still to be loaded: no content, no example. *)
Definition unloaded (topic : DocumentationTopic) : Prop :=
  topicContent topic = EmptyString /\ topicCodeExamples topic = [].

End Expected.

(* ===================================================================== *)
(** * Properties *)
(* ===================================================================== *)

(* ===================================================================== *)
(** ** The file classifier *)
(* ===================================================================== *)

Section ClassifierFacts.
Import Entities Classifier Str.

Lemma CodeFileType_eqb_eq (a b : CodeFileType) :
  CodeFileType_eqb a b = true <-> a = b.
Proof.
  split.
  - destruct a, b; simpl; intros H; try reflexivity; discriminate H.
  - intros ->. destruct b; reflexivity.
Qed.

Lemma CodeFileType_eqb_refl (a : CodeFileType) : CodeFileType_eqb a a = true.
Proof. apply CodeFileType_eqb_eq. reflexivity. Qed.

Lemma CodeFileType_eqb_neq (a b : CodeFileType) :
  CodeFileType_eqb a b = false <-> a <> b.
Proof.
  split.
  - intros H E. apply CodeFileType_eqb_eq in E. congruence.
  - intros H. destruct (CodeFileType_eqb a b) eqn:E; [|reflexivity].
    apply CodeFileType_eqb_eq in E. contradiction.
Qed.

(** Once set, the language is never detected again. *)
Lemma detectLanguage_idempotent (path : string) (language : CodeLanguage) :
  detectLanguage path (detectLanguage path language)
  = detectLanguage path language.
Proof.
  destruct language; try reflexivity.
  destruct (detectLanguage path LANG_UNKNOWN) eqn:E; try reflexivity.
  exact E.
Qed.

Lemma detectFileType_unknown (path content : string) (language : CodeLanguage) :
  detectFileType (mkCodeFile path content language UNKNOWN)
  = mkCodeFile path content (detectLanguage path language)
      (detectedKind path content (detectLanguage path language)).
Proof. reflexivity. Qed.

Lemma detectFileType_known (file : CodeFile) :
  getFileType file <> UNKNOWN -> detectFileType file = file.
Proof.
  intros H. unfold detectFileType.
  apply CodeFileType_eqb_neq in H. rewrite H. reflexivity.
Qed.

(** When a path rule matches, the content is not consulted. *)
Lemma detectFileType_by_path (path content : string) (language : CodeLanguage) :
  isCode (detectLanguage path language) = true ->
  classifyByPath path <> UNKNOWN ->
  getFileType (detectFileType (mkCodeFile path content language UNKNOWN))
  = classifyByPath path.
Proof.
  intros Hcode Hpath. rewrite detectFileType_unknown. simpl.
  unfold detectedKind. rewrite Hcode.
  apply CodeFileType_eqb_neq in Hpath. rewrite Hpath. reflexivity.
Qed.

End ClassifierFacts.

(** C4.  Classification is idempotent: classifying the result of a
    classification changes nothing, and a file whose entity kind is already
    known is returned as it is. *)
Theorem detectFileType_idempotent (file : Entities.CodeFile) :
  Classifier.detectFileType (Classifier.detectFileType file)
  = Classifier.detectFileType file
  /\ (Entities.getFileType file <> Entities.UNKNOWN ->
      Classifier.detectFileType file = file).
Proof.
  split; [|apply detectFileType_known].
  destruct file as [path content language fileType].
  destruct (Entities.CodeFileType_eqb fileType Entities.UNKNOWN) eqn:E.
  - apply CodeFileType_eqb_eq in E. subst fileType.
    rewrite detectFileType_unknown.
    set (language' := Classifier.detectLanguage path language).
    destruct (Entities.CodeFileType_eqb
                (Classifier.detectedKind path content language')
                Entities.UNKNOWN) eqn:K.
    + apply CodeFileType_eqb_eq in K. rewrite K.
      rewrite detectFileType_unknown.
      unfold language'. rewrite detectLanguage_idempotent.
      fold language'. rewrite K. reflexivity.
    + apply CodeFileType_eqb_neq in K.
      apply detectFileType_known. exact K.
  - apply CodeFileType_eqb_neq in E.
    assert (K : Entities.getFileType
                  (Entities.mkCodeFile path content language fileType)
                <> Entities.UNKNOWN) by exact E.
    rewrite (detectFileType_known _ K). apply detectFileType_known. exact K.
Qed.

(** A TypeScript file of unknown kind is classified once and for all; a file
    already known as a guard stays as it is. *)
Lemma detectFileType_idempotent_witness :
  let fresh :=
    Entities.mkCodeFile "cats.guard.ts" "export class CatsGuard {}"
      Entities.LANG_UNKNOWN Entities.UNKNOWN in
  let known :=
    Entities.mkCodeFile "cats.ts" "export class CatsGuard {}"
      Entities.TYPESCRIPT Entities.NESTJS_GUARD in
  Classifier.detectFileType (Classifier.detectFileType fresh)
  = Classifier.detectFileType fresh
  /\ Classifier.detectFileType known = known.
Proof.
  split.
  - apply (proj1 (detectFileType_idempotent _)).
  - apply (proj2 (detectFileType_idempotent _)). simpl. discriminate.
Defined.

Section ContentFallback.
Import Entities Classifier Str.



End ContentFallback.




(* ===================================================================== *)
(** ** Strings *)
(* ===================================================================== *)

Section StringFacts.
Import Str.

Lemma append_nil_r (s : string) : s +++ EmptyString = s.
Proof. induction s as [|a s IH]; simpl; [reflexivity|]. rewrite IH. reflexivity. Qed.

Lemma append_assoc (s t u : string) : (s +++ t) +++ u = s +++ t +++ u.
Proof. induction s as [|a s IH]; simpl; [reflexivity|]. rewrite IH. reflexivity. Qed.

Lemma length_append (s t : string) :
  String.length (s +++ t) = String.length s + String.length t.
Proof. induction s as [|a s IH]; simpl; [reflexivity|]. rewrite IH. reflexivity. Qed.

Lemma take_append (s t : string) : take (String.length s) (s +++ t) = s.
Proof. induction s as [|a s IH]; simpl; [destruct t; reflexivity|]. rewrite IH. reflexivity. Qed.

Lemma drop_append (s t : string) : drop (String.length s) (s +++ t) = t.
Proof. induction s as [|a s IH]; simpl; [destruct t; reflexivity|]. exact IH. Qed.

Lemma take_drop (n : nat) (s : string) : take n s +++ drop n s = s.
Proof.
  revert s. induction n as [|n IH]; intros [|a s]; simpl; try reflexivity.
  rewrite IH. reflexivity.
Qed.

Lemma length_take (n : nat) (s : string) :
  n <= String.length s -> String.length (take n s) = n.
Proof.
  revert s. induction n as [|n IH]; intros [|a s]; simpl; intros H; try lia.
  rewrite IH; lia.
Qed.

Lemma drop_drop (n m : nat) (s : string) : drop n (drop m s) = drop (m + n) s.
Proof.
  revert s. induction m as [|m IH]; intros s; simpl; [reflexivity|].
  destruct s as [|a s]; simpl; [destruct n; reflexivity|]. apply IH.
Qed.

Lemma infix_refl (s : string) : infix s s.
Proof. exists EmptyString, EmptyString. simpl. rewrite append_nil_r. reflexivity. Qed.

Lemma infix_trans (t s u : string) : infix t s -> infix s u -> infix t u.
Proof.
  intros (a & b & ->) (c & d & ->). exists (c +++ a), (b +++ d).
  rewrite !append_assoc. reflexivity.
Qed.

Lemma infix_take (n : nat) (s : string) : infix (take n s) s.
Proof.
  exists EmptyString, (drop n s). simpl. rewrite take_drop. reflexivity.
Qed.

Lemma infix_drop (n : nat) (s : string) : infix (drop n s) s.
Proof.
  exists (take n s), EmptyString. rewrite append_nil_r, take_drop. reflexivity.
Qed.

Lemma infix_trimStart (s : string) : infix (trimStart s) s.
Proof.
  induction s as [|a s IH]; simpl; [apply infix_refl|].
  destruct (isWhiteSpace a); [|apply infix_refl].
  destruct IH as (x & y & E). exists (String a x), y. simpl. rewrite <- E.
  reflexivity.
Qed.

Lemma rev_append (s t : string) : rev (s +++ t) = rev t +++ rev s.
Proof.
  induction s as [|a s IH]; simpl; [rewrite append_nil_r; reflexivity|].
  rewrite IH, append_assoc. reflexivity.
Qed.

Lemma rev_involutive (s : string) : rev (rev s) = s.
Proof.
  induction s as [|a s IH]; simpl; [reflexivity|].
  rewrite rev_append, IH. reflexivity.
Qed.

Lemma infix_rev (t s : string) : infix t s -> infix (rev t) (rev s).
Proof.
  intros (a & b & ->). exists (rev b), (rev a).
  rewrite !rev_append, append_assoc. reflexivity.
Qed.

Lemma infix_trim (s : string) : infix (trim s) s.
Proof.
  unfold trim, trimEnd.
  apply (infix_trans _ (trimStart s)); [|apply infix_trimStart].
  rewrite <- (rev_involutive (trimStart s)) at 2.
  apply infix_rev. apply infix_trimStart.
Qed.

Lemma infix_substring (a b : nat) (s : string) : infix (substring a b s) s.
Proof.
  unfold substring.
  apply (infix_trans _ (drop (Nat.min a b) s)); [apply infix_take|apply infix_drop].
Qed.

End StringFacts.

(* ===================================================================== *)
(** ** The matcher and the language of a pattern *)
(* ===================================================================== *)

Section RegexFacts.
Import Str Regex.

Lemma reaches_refl (c : cursor) : reaches c EmptyString c.
Proof. split; simpl; [reflexivity|lia]. Qed.

Lemma reaches_trans (c c1 c2 : cursor) (u v : string) :
  reaches c u c1 -> reaches c1 v c2 -> reaches c (u +++ v) c2.
Proof.
  intros [A B] [C D]. split.
  - rewrite A, C, append_assoc. reflexivity.
  - rewrite D, B, length_append. lia.
Qed.

Lemma orElse_some {A} (a b : option A) (x : A) :
  orElse a b = Some x -> a = Some x \/ b = Some x.
Proof. destruct a; simpl; auto. Qed.

Lemma orElse_not_none {A} (a b : option A) :
  a <> None \/ b <> None -> orElse a b <> None.
Proof. destruct a; simpl; [discriminate|]. intros [H|H]; congruence. Qed.

Lemma starLoop_sound (r : regex) (greedy : bool)
  (body : (cursor -> option cursor) -> cursor -> option cursor) (fuel : nat) :
  sound r body -> sound (Star greedy r) (fun k => starLoop body greedy k fuel).
Proof.
  intros Hbody. induction fuel as [|fuel IH]; intros k c final; simpl.
  - intros H. exists EmptyString, c.
    split; [constructor|]. split; [apply reaches_refl|exact H].
  - intros H.
    assert (D : body
                  (fun c' =>
                     if pos c' =? pos c then None
                     else starLoop body greedy k fuel c') c = Some final
                \/ k c = Some final).
    { destruct greedy; apply orElse_some in H; tauto. }
    destruct D as [D|D].
    + apply Hbody in D. destruct D as (u & c1 & Lu & Ru & K).
      destruct (pos c1 =? pos c) eqn:E; [discriminate K|].
      apply IH in K. destruct K as (v & c2 & Lv & Rv & K).
      exists (u +++ v), c2. split; [|split; [|exact K]].
      * apply lang_star_cons; [|exact Lu|exact Lv].
        intros ->. destruct Ru as [_ P]. simpl in P.
        apply Nat.eqb_neq in E. lia.
      * apply (reaches_trans _ c1); assumption.
    + exists EmptyString, c.
      split; [constructor|]. split; [apply reaches_refl|exact D].
Qed.

(** Soundness: a match of a pattern free of assertions moves the cursor
    over a text of its language. *)
Lemma rmatch_sound (r : regex) : simple r = true -> sound r (rmatch r).
Proof.
  induction r as [|ok|r1 IH1 r2 IH2|r1 IH1 r2 IH2|greedy r1 IH1|n r1 IH1
                  | | | | | |r1 IH1];
    simpl; intros Hs; try discriminate Hs; intros k c final H.
  - exists EmptyString, c.
    split; [constructor|]. split; [apply reaches_refl|exact H].
  - simpl in H. destruct (rest c) as [|a s'] eqn:R; [discriminate H|].
    destruct (ok a) eqn:O; [|discriminate H].
    exists (String a EmptyString), (mkCursor (S (pos c)) (Some a) s' (caps c)).
    split; [constructor; exact O|]. split; [|exact H].
    split; simpl; [exact R|lia].
  - apply andb_prop in Hs. destruct Hs as [S1 S2]. simpl in H.
    apply (IH1 S1) in H. destruct H as (u & c1 & Lu & Ru & H).
    apply (IH2 S2) in H. destruct H as (v & c2 & Lv & Rv & H).
    exists (u +++ v), c2. split; [constructor; assumption|].
    split; [apply (reaches_trans _ c1); assumption|exact H].
  - apply andb_prop in Hs. destruct Hs as [S1 S2]. simpl in H.
    apply orElse_some in H. destruct H as [H|H].
    + apply (IH1 S1) in H. destruct H as (u & c1 & Lu & Ru & H).
      exists u, c1. split; [apply lang_alt_l; exact Lu|]. split; assumption.
    + apply (IH2 S2) in H. destruct H as (u & c1 & Lu & Ru & H).
      exists u, c1. split; [apply lang_alt_r; exact Lu|]. split; assumption.
  - apply (starLoop_sound r1 greedy (rmatch r1) (S (String.length (rest c)))
             (IH1 Hs) k c final H).
  - simpl in H. apply (IH1 Hs) in H. destruct H as (u & c1 & Lu & Ru & H).
    eexists u, _. split; [constructor; exact Lu|]. split; [|exact H].
    exact Ru.
Qed.

Lemma starLoop_complete (r : regex) (greedy : bool)
  (body : (cursor -> option cursor) -> cursor -> option cursor) :
  complete r body ->
  forall u, lang (Star greedy r) u ->
  forall fuel k c v,
    String.length u < fuel -> rest c = u +++ v -> accepts k c u v ->
    starLoop body greedy k fuel c <> None.
Proof.
  intros Hbody u L. remember (Star greedy r) as p eqn:P.
  induction L as [| | | | |g r0|g r0 u1 u2 N L1 _ L2 IH2|];
    try discriminate P; injection P as -> ->; intros fuel k c v F R K.
  - destruct fuel as [|fuel]; [lia|]. simpl.
    assert (A : k c <> None).
    { apply K; [exact R|simpl; lia]. }
    destruct greedy; apply orElse_not_none; auto.
  - destruct fuel as [|fuel]; [lia|]. simpl.
    assert (A : body
                  (fun c' =>
                     if pos c' =? pos c then None
                     else starLoop body greedy k fuel c') c <> None).
    { apply (Hbody u1 L1 _ c (u2 +++ v)).
      - rewrite R, append_assoc. reflexivity.
      - intros c1 R1 P1.
        assert (0 < String.length u1) by (destruct u1; [congruence|simpl; lia]).
        destruct (pos c1 =? pos c) eqn:E; [apply Nat.eqb_eq in E; lia|].
        apply (IH2 eq_refl fuel k c1 v).
        + rewrite length_append in F. lia.
        + exact R1.
        + intros c2 R2 P2. apply K; [exact R2|].
          rewrite P2, P1, length_append. lia. }
    destruct greedy; apply orElse_not_none; auto.
Qed.

(** Completeness: where a text of the language lies ahead and the
    continuation succeeds behind it, the matcher succeeds. *)
Lemma rmatch_complete (r : regex) : simple r = true -> complete r (rmatch r).
Proof.
  induction r as [|ok|r1 IH1 r2 IH2|r1 IH1 r2 IH2|greedy r1 IH1|n r1 IH1
                  | | | | | |r1 IH1];
    simpl; intros Hs; try discriminate Hs; intros u L k c v R K.
  - inversion L; subst. simpl. apply K; [exact R|simpl; lia].
  - inversion L as [|ok' a O| | | | | |]; subst. simpl in *. rewrite R, O.
    apply K; simpl; [reflexivity|lia].
  - apply andb_prop in Hs. destruct Hs as [S1 S2].
    inversion L as [| |? ? u1 u2 L1 L2| | | | |]; subst. simpl.
    apply (IH1 S1 u1 L1 _ c (u2 +++ v)).
    + rewrite R, append_assoc. reflexivity.
    + intros c1 R1 P1. apply (IH2 S2 u2 L2 k c1 v R1).
      intros c2 R2 P2. apply K; [exact R2|].
      rewrite P2, P1, length_append. lia.
  - apply andb_prop in Hs. destruct Hs as [S1 S2]. simpl.
    apply orElse_not_none.
    inversion L; subst; [left; eapply IH1|right; eapply IH2]; eauto.
  - apply (starLoop_complete r1 greedy (rmatch r1) (IH1 Hs) u L
             (S (String.length (rest c))) k c v);
      [|exact R|exact K].
    rewrite R, length_append. lia.
  - inversion L as [| | | | | | |? ? ? L1]; subst. simpl.
    apply (IH1 Hs u L1 _ c v R).
    intros c1 R1 P1. apply K; simpl; assumption.
Qed.

End RegexFacts.

Section ExecFacts.
Import Str Regex.

Lemma execFrom_sound (r : regex) (s : string) :
  simple r = true ->
  forall i p m,
    execFrom r i p s = Some m ->
    lang r (text m)
    /\ exists pre post,
         s = pre +++ text m +++ post /\ index m = i + String.length pre.
Proof.
  intros Hs. induction s as [|a s IH]; intros i p m; simpl.
  - destruct (rmatch r Some (mkCursor i p EmptyString [])) as [c|] eqn:E;
      [|discriminate].
    intros [= <-]. simpl.
    apply (rmatch_sound r Hs) in E. destruct E as (u & c' & L & [R P] & [= ->]).
    simpl in R, P. rewrite P, Nat.add_comm, Nat.add_sub.
    destruct u; [|discriminate R]. split; [exact L|].
    exists EmptyString, EmptyString. split; [reflexivity|simpl; lia].
  - destruct (rmatch r Some (mkCursor i p (String a s) [])) as [c|] eqn:E.
    + intros [= <-]. simpl.
      apply (rmatch_sound r Hs) in E.
      destruct E as (u & c' & L & [R P] & [= ->]).
      simpl in R, P. rewrite P, Nat.add_comm, Nat.add_sub, R, take_append.
      split; [exact L|].
      exists EmptyString, (rest c). split; [reflexivity|simpl; lia].
    + intros H. apply IH in H. destruct H as (L & pre & post & E1 & E2).
      split; [exact L|].
      exists (String a pre), post. simpl. rewrite <- E1.
      split; [reflexivity|lia].
Qed.

Lemma execFrom_complete (r : regex) (pre u post : string) :
  simple r = true -> lang r u ->
  forall i p, execFrom r i p (pre +++ u +++ post) <> None.
Proof.
  intros Hs L. induction pre as [|a pre IH]; intros i p.
  - assert (M : rmatch r Some (mkCursor i p (u +++ post) []) <> None).
    { apply (rmatch_complete r Hs u L Some _ post); [reflexivity|].
      intros c' _ _. discriminate. }
    simpl append. destruct (u +++ post) as [|b t]; simpl;
      destruct (rmatch r Some _); try discriminate; contradiction.
  - simpl. destruct (rmatch r Some _); [discriminate|]. apply IH.
Qed.

(** A pattern free of assertions is found in a text exactly when a part of
    the text is in its language. *)
Lemma test_true (r : regex) (s : string) :
  simple r = true ->
  (test r s = true <-> exists u, lang r u /\ infix u s).
Proof.
  intros Hs. unfold test, exec. split.
  - destruct (execFrom r 0 None s) as [m|] eqn:E; [|discriminate].
    intros _. apply (execFrom_sound r s Hs) in E.
    destruct E as (L & pre & post & E & _).
    exists (text m). split; [exact L|]. exists pre, post. exact E.
  - intros (u & L & pre & post & ->).
    pose proof (execFrom_complete r pre u post Hs L 0 None) as N.
    destruct (execFrom r 0 None (pre +++ u +++ post)); [reflexivity|].
    contradiction.
Qed.

(** What is found in a part of a text is found in the text. *)
Lemma test_infix (r : regex) (t s : string) :
  simple r = true -> infix t s -> test r t = true -> test r s = true.
Proof.
  intros Hs I H. apply (test_true r _ Hs) in H. destruct H as (u & L & Iu).
  apply (test_true r _ Hs). exists u. split; [exact L|].
  apply (infix_trans _ t); assumption.
Qed.

Lemma simple_lit (s : string) : simple (lit s) = true.
Proof. induction s; simpl; [reflexivity|exact IHs]. Qed.

Lemma lang_lit (s u : string) : lang (lit s) u -> u = s.
Proof.
  revert u. induction s as [|a s IH]; simpl; intros u L.
  - inversion L. reflexivity.
  - inversion L as [| |? ? u1 u2 L1 L2| | | | |]; subst.
    inversion L1 as [|? b O| | | | | |]; subst.
    unfold isChar in O. apply Ascii.eqb_eq in O. subst b.
    simpl. rewrite (IH _ L2). reflexivity.
Qed.

(** A run of white space disappears under [trimStart]. *)
Lemma lang_ws_star (greedy : bool) (u : string) :
  lang (Star greedy ws) u -> forall t, trimStart (u +++ t) = trimStart t.
Proof.
  intros L. remember (Star greedy ws) as p eqn:P.
  induction L as [| | | | | |g r0 u1 u2 N L1 _ L2 IH2|];
    try discriminate P; injection P as -> ->; intros t.
  - reflexivity.
  - inversion L1 as [|? a O| | | | | |]; subst. simpl. rewrite O.
    apply IH2. reflexivity.
Qed.

Lemma lang_seq_inv (r1 r2 : regex) (u : string) :
  lang (Seq r1 r2) u -> exists u1 u2, u = u1 +++ u2 /\ lang r1 u1 /\ lang r2 u2.
Proof. intros L. inversion L; subst. eauto. Qed.

End ExecFacts.

(* ===================================================================== *)
(** ** Region markers *)
(* ===================================================================== *)

Section MarkerFacts.
Import Str Regex Region.

Lemma marker_simple (keyword regionName : string) (pattern : regex) :
  In pattern (marker keyword regionName) -> simple pattern = true.
Proof.
  intros [<-|[<-|[<-|[]]]]; simpl; rewrite !simple_lit; reflexivity.
Qed.

(** A text matched by a marker pattern starts with the opener of a comment,
    white space, and the keyword. *)
Lemma marker_head (keyword regionName : string) (pattern : regex)
  (u y : string) :
  (forall z, trimStart (keyword +++ z) = keyword +++ z) ->
  In pattern (marker keyword regionName) -> lang pattern u ->
  exists x, afterOpener (u +++ y) = Some (keyword +++ x).
Proof.
  intros K I L.
  assert (H : exists opener w t,
             u = opener +++ w +++ keyword +++ t
             /\ (forall z, trimStart (w +++ z) = trimStart z)
             /\ (opener = "//" \/ opener = "<!--" \/ opener = "/*")).
  { destruct I as [<-|[<-|[<-|[]]]];
      apply lang_seq_inv in L; destruct L as (u1 & r1 & -> & L1 & L);
      apply lang_seq_inv in L; destruct L as (u2 & r2 & -> & L2 & L);
      apply lang_seq_inv in L; destruct L as (u3 & r3 & -> & L3 & L);
      apply lang_lit in L1, L3; subst u1 u3;
      eexists _, u2, r3; (split; [reflexivity|]); (split; [apply (lang_ws_star _ _ L2)|]); tauto. }
  destruct H as (opener & w & t & -> & W & O).
  exists (t +++ y).
  destruct O as [ -> | [ -> | -> ] ]; unfold afterOpener; simpl;
    rewrite !append_assoc, W, K; reflexivity.
Qed.

Lemma startKeyword (z : string) : trimStart ("#docregion" +++ z) = "#docregion" +++ z.
Proof. reflexivity. Qed.

Lemma endKeyword (z : string) :
  trimStart ("#enddocregion" +++ z) = "#enddocregion" +++ z.
Proof. reflexivity. Qed.

(** No text starts with a start marker and with an end marker. *)
Lemma start_is_not_end (regionName : string) (p q : regex) (u v y z : string) :
  In p (regionStartPatterns regionName) -> lang p u ->
  In q (regionEndPatterns regionName) -> lang q v ->
  u +++ y = v +++ z -> False.
Proof.
  intros Ip Lp Iq Lq E.
  destruct (marker_head _ _ _ u y startKeyword Ip Lp) as (x & Hx).
  destruct (marker_head _ _ _ v z endKeyword Iq Lq) as (x' & Hx').
  rewrite E, Hx' in Hx. discriminate Hx.
Qed.

Lemma marker_nonempty (keyword regionName : string) (pattern : regex)
  (u : string) :
  (forall z, trimStart (keyword +++ z) = keyword +++ z) ->
  In pattern (marker keyword regionName) -> lang pattern u ->
  0 < String.length u.
Proof.
  intros K I L.
  destruct (marker_head _ _ _ u EmptyString K I L) as (x & Hx).
  destruct u; [discriminate Hx|simpl; lia].
Qed.

(** What the loop over the patterns keeps: one of the patterns, with the
    index of its match. *)
Lemma earliest_some (patterns : list regex) (s : string) (i : nat) (p : regex) :
  earliest patterns s = Some (i, p) ->
  In p patterns /\ exists m, exec p s = Some m /\ index m = i.
Proof.
  unfold earliest.
  assert (G : forall best,
             fold_left (earlier s) patterns best = Some (i, p) ->
             best = Some (i, p)
             \/ (In p patterns /\ exists m, exec p s = Some m /\ index m = i)).
  { induction patterns as [|q patterns IH]; simpl; intros best H; [now left|].
    apply IH in H. destruct H as [H|(I & M)]; [|right; split; [now right|exact M]].
    unfold earlier in H. destruct (exec q s) as [m|] eqn:E; [|now left].
    destruct best as [[j b]|].
    - destruct (index m <? j); [|now left].
      injection H as <- <-. right. split; [now left|eauto].
    - injection H as <- <-. right. split; [now left|eauto]. }
  intros H. destruct (G None H) as [D|D]; [discriminate D|exact D].
Qed.

Lemma hasStartMarker_infix (t s regionName : string) :
  infix t s -> hasStartMarker t regionName = true ->
  hasStartMarker s regionName = true.
Proof.
  unfold hasStartMarker. intros I H.
  apply existsb_exists in H. destruct H as (p & Ip & T).
  apply existsb_exists. exists p. split; [exact Ip|].
  apply (test_infix p t s); [|exact I|exact T].
  apply (marker_simple _ _ _ Ip).
Qed.

Lemma infix_drop_from (n m : nat) (s : string) :
  n <= m -> infix (drop m s) (drop n s).
Proof.
  intros H. replace m with (n + (m - n)) by lia.
  rewrite <- drop_drop. apply infix_drop.
Qed.

Lemma exec_sound (r : regex) (s : string) (m : matched) :
  simple r = true -> exec r s = Some m ->
  lang r (text m)
  /\ exists post, drop (index m) s = text m +++ post.
Proof.
  intros Hs E. apply (execFrom_sound r s Hs) in E.
  destruct E as (L & pre & post & E1 & E2). split; [exact L|].
  exists post. rewrite E2, E1. simpl. apply drop_append.
Qed.

Lemma exec_complete (r : regex) (u post : string) :
  simple r = true -> lang r u -> exists m, exec r (u +++ post) = Some m.
Proof.
  intros Hs L.
  pose proof (execFrom_complete r EmptyString u post Hs L 0 None) as N.
  simpl in N. unfold exec. destruct (execFrom r 0 None (u +++ post)) as [m|];
    [eauto|contradiction].
Qed.

(** The output of an extraction that found a start marker is a part of what
    follows the first character of that marker. *)
Lemma extractVisibleRegion_infix (fileContent regionName : string)
  (startIndex : nat) (startPattern : regex) :
  truthy fileContent = true -> truthy regionName = true ->
  earliest (regionStartPatterns regionName) fileContent
  = Some (startIndex, startPattern) ->
  infix (extractVisibleRegion fileContent regionName)
    (drop (S startIndex) fileContent).
Proof.
  intros Tc Tn E.
  unfold extractVisibleRegion. rewrite Tc, Tn, E. simpl negb. simpl orb.
  cbv iota zeta.
  destruct (earliest_some _ _ _ _ E) as (Ip & m1 & X1 & <-).
  pose proof (marker_simple _ _ _ Ip) as Sp.
  destruct (exec_sound _ _ _ Sp X1) as (L1 & post & D1).
  set (after := drop (index m1) fileContent) in *.
  destruct (exec_complete _ _ post Sp L1) as (m0 & X0).
  rewrite <- D1 in X0. rewrite X0.
  destruct (exec_sound _ _ _ Sp X0) as (L0 & _).
  pose proof (marker_nonempty _ _ _ _ startKeyword Ip L0) as N0.
  assert (A : drop (S (index m1)) fileContent = drop 1 after).
  { unfold after. rewrite drop_drop, Nat.add_1_r. reflexivity. }
  rewrite A.
  destruct (earliest (regionEndPatterns regionName) after) as [[e q]|] eqn:Ee.
  - destruct (earliest_some _ _ _ _ Ee) as (Iq & me & Xe & <-).
    pose proof (marker_simple _ _ _ Iq) as Sq.
    destruct (exec_sound _ _ _ Sq Xe) as (Le & poste & De).
    assert (Ne : 0 < index me).
    { destruct (index me) as [|n] eqn:Z; [|lia]. exfalso.
      simpl in De. destruct after; simpl in De;
        apply (start_is_not_end regionName _ _ _ _ post poste Ip L1 Iq Le);
        congruence. }
    apply (infix_trans _ (substring (String.length (text m0)) (index me) after));
      [apply infix_trim|].
    unfold substring.
    apply (infix_trans _ (drop (Nat.min (String.length (text m0)) (index me))
                            after)); [apply infix_take|].
    apply infix_drop_from. lia.
  - apply infix_drop_from. lia.
Qed.

(** From a content with at most one start marker, the extraction leaves no
    start marker. *)
Lemma extractVisibleRegion_clears (fileContent regionName : string) :
  truthy fileContent = true -> truthy regionName = true ->
  atMostOneStartMarker fileContent regionName = true ->
  hasStartMarker (extractVisibleRegion fileContent regionName) regionName
  = false
  \/ extractVisibleRegion fileContent regionName = fileContent.
Proof.
  intros Tc Tn H. unfold atMostOneStartMarker in H.
  destruct (earliest (regionStartPatterns regionName) fileContent)
    as [[startIndex startPattern]|] eqn:E.
  - left. apply negb_true_iff in H.
    destruct (hasStartMarker (extractVisibleRegion fileContent regionName)
                regionName) eqn:M; [|reflexivity].
    rewrite <- H. symmetry.
    apply (hasStartMarker_infix _ _ _
             (extractVisibleRegion_infix _ _ _ _ Tc Tn E) M).
  - right. unfold extractVisibleRegion. rewrite E.
    destruct (negb (truthy fileContent) || negb (truthy regionName));
      reflexivity.
Qed.

End MarkerFacts.

(* ===================================================================== *)
(** ** Named-region extraction *)
(* ===================================================================== *)

Section RegionFacts.
Import Str Regex Region.

Lemma earliest_none (patterns : list regex) (s : string) :
  Forall (fun pattern => exec pattern s = None) patterns ->
  earliest patterns s = None.
Proof.
  unfold earliest. induction 1 as [|pattern patterns H _ IH]; simpl.
  - reflexivity.
  - unfold earlier at 2. rewrite H. exact IH.
Qed.

Lemma test_false (pattern : regex) (s : string) :
  test pattern s = false -> exec pattern s = None.
Proof.
  unfold test. destruct (exec pattern s); simpl; [discriminate|reflexivity].
Qed.

(** A text without start marker is returned whole. *)
Lemma extractVisibleRegion_no_marker (s regionName : string) :
  hasStartMarker s regionName = false ->
  extractVisibleRegion s regionName = s.
Proof.
  intros H. unfold extractVisibleRegion.
  destruct (negb (truthy s) || negb (truthy regionName)); [reflexivity|].
  rewrite earliest_none; [reflexivity|].
  unfold hasStartMarker in H.
  apply Forall_forall. intros pattern Hin. apply test_false.
  destruct (test pattern s) eqn:E; [|reflexivity].
  assert (X : existsb (fun q => test q s) (regionStartPatterns regionName)
              = true).
  { apply existsb_exists. exists pattern. split; assumption. }
  congruence.
Qed.

Lemma infix_length (t s : string) :
  infix t s -> String.length t <= String.length s.
Proof. intros (a & b & ->). rewrite !length_append. lia. Qed.

Lemma length_drop_S (n : nat) (s : string) :
  truthy s = true -> String.length (drop (S n) s) < String.length s.
Proof.
  destruct s as [|a s]; [discriminate|]. intros _. simpl.
  pose proof (infix_length _ _ (infix_drop n s)). lia.
Qed.

(** Once a pattern matched, the loop keeps a match. *)
Lemma earlier_keeps (s : string) (patterns : list regex) (best : nat * regex) :
  fold_left (earlier s) patterns (Some best) <> None.
Proof.
  revert best. induction patterns as [|p patterns IH]; intros best; simpl;
    [discriminate|].
  unfold earlier at 2. destruct (exec p s) as [m|]; [|apply IH].
  destruct best as [i q]. destruct (index m <? i); apply IH.
Qed.

Lemma earliest_missing (patterns : list regex) (s : string) :
  earliest patterns s = None ->
  Forall (fun pattern => exec pattern s = None) patterns.
Proof.
  unfold earliest. induction patterns as [|p patterns IH]; simpl; intros H;
    [constructor|].
  unfold earlier at 2 in H. destruct (exec p s) as [m|] eqn:E.
  - exfalso. exact (earlier_keeps _ _ _ H).
  - constructor; [exact E|apply IH; exact H].
Qed.

Lemma hasStartMarker_earliest (s regionName : string) :
  hasStartMarker s regionName = true ->
  exists i p, earliest (regionStartPatterns regionName) s = Some (i, p).
Proof.
  intros H.
  destruct (earliest (regionStartPatterns regionName) s) as [[i p]|] eqn:E;
    [exists i, p; reflexivity|].
  exfalso. apply earliest_missing in E. unfold hasStartMarker in H.
  apply existsb_exists in H. destruct H as (pattern & I & T).
  rewrite Forall_forall in E. specialize (E pattern I).
  unfold test in T. rewrite E in T. discriminate T.
Qed.

(** A text that holds a start marker is not empty. *)
Lemma hasStartMarker_truthy (s regionName : string) :
  hasStartMarker s regionName = true -> truthy s = true.
Proof.
  intros H. destruct s as [|a s]; [|reflexivity]. exfalso.
  destruct (hasStartMarker_earliest _ _ H) as (i & p & E).
  destruct (earliest_some _ _ _ _ E) as (Ip & m & X & _).
  destruct (exec_sound _ _ _ (marker_simple _ _ _ Ip) X) as (L & post & D).
  pose proof (marker_nonempty _ _ _ _ startKeyword Ip L) as N.
  destruct (index m); simpl in D; destruct (text m); simpl in N;
    try discriminate D; lia.
Qed.

(** An extraction that finds a start marker returns less than it was
    given. *)
Lemma extractVisibleRegion_shorter (s regionName : string) :
  truthy regionName = true ->
  hasStartMarker s regionName = true ->
  String.length (extractVisibleRegion s regionName) < String.length s.
Proof.
  intros N H. pose proof (hasStartMarker_truthy _ _ H) as C.
  destruct (hasStartMarker_earliest _ _ H) as (i & p & E).
  pose proof (extractVisibleRegion_infix _ _ i p C N E) as I.
  apply infix_length in I. pose proof (length_drop_S i s C). lia.
Qed.

End RegionFacts.

(** C3, as the code has it.  For a region name free of pattern syntax,
    extracting the region again from the output of a first extraction
    returns that output unchanged when the content holds at most one start
    marker of the region, and more generally whenever no start marker of
    the region is left in the output.  When a start marker of a region
    name that is not empty is left in the output, the second extraction
    cuts again: what it returns is strictly shorter than the output of the
    first; this takes a content with more than one start marker. *)
Theorem extractVisibleRegion_fixed_point (fileContent regionName : string) :
  Region.plainName regionName = true ->
  (Region.atMostOneStartMarker fileContent regionName = true ->
   Region.extractVisibleRegion
     (Region.extractVisibleRegion fileContent regionName) regionName
   = Region.extractVisibleRegion fileContent regionName)
  /\ (Region.hasStartMarker
        (Region.extractVisibleRegion fileContent regionName) regionName = false ->
      Region.extractVisibleRegion
        (Region.extractVisibleRegion fileContent regionName) regionName
      = Region.extractVisibleRegion fileContent regionName)
  /\ (Str.truthy regionName = true ->
      Region.hasStartMarker
        (Region.extractVisibleRegion fileContent regionName) regionName = true ->
      String.length
        (Region.extractVisibleRegion
           (Region.extractVisibleRegion fileContent regionName) regionName)
      < String.length (Region.extractVisibleRegion fileContent regionName)
      /\ Region.atMostOneStartMarker fileContent regionName = false).
Proof.
  intros _.
  assert (One : Region.atMostOneStartMarker fileContent regionName = true ->
                Region.extractVisibleRegion
                  (Region.extractVisibleRegion fileContent regionName)
                  regionName
                = Region.extractVisibleRegion fileContent regionName);
    [|split; [exact One|split; [apply extractVisibleRegion_no_marker|]];
      intros Tn M;
      pose proof (extractVisibleRegion_shorter _ _ Tn M) as Short;
      split; [exact Short|];
      destruct (Region.atMostOneStartMarker fileContent regionName);
      [rewrite (One eq_refl) in Short; lia|reflexivity]].
  intros H.
  destruct (Str.truthy fileContent) eqn:Tc;
    [destruct (Str.truthy regionName) eqn:Tn|].
  - destruct (extractVisibleRegion_clears _ _ Tc Tn H) as [M|E].
    + apply extractVisibleRegion_no_marker. exact M.
    + rewrite !E. reflexivity.
  - assert (E : Region.extractVisibleRegion fileContent regionName = fileContent).
    { unfold Region.extractVisibleRegion. rewrite Tn, orb_true_r. reflexivity. }
    rewrite !E. reflexivity.
  - assert (E : Region.extractVisibleRegion fileContent regionName = fileContent).
    { unfold Region.extractVisibleRegion. rewrite Tc. reflexivity. }
    rewrite !E. reflexivity.
Qed.

(** An HTML example: the region between the markers is cut out, and cutting
    again changes nothing.  A file that opens the region twice: the first
    extraction leaves the second marker, the second extraction cuts it. *)
Lemma extractVisibleRegion_fixed_point_witness :
  let page :=
    "<h1>Actors</h1>" +++ Markdown.LF
    +++ "<!-- #docregion name -->" +++ Markdown.LF
    +++ "<input id='name'>" +++ Markdown.LF
    +++ "<!-- #enddocregion name -->" +++ Markdown.LF
    +++ "<footer/>" in
  let twice :=
    "// #docregion setup" +++ Markdown.LF
    +++ "// #docregion setup" +++ Markdown.LF
    +++ "const app = create();" +++ Markdown.LF
    +++ "// #enddocregion setup" +++ Markdown.LF in
  Region.extractVisibleRegion page "name" = "<input id='name'>"
  /\ Region.extractVisibleRegion (Region.extractVisibleRegion page "name") "name"
     = Region.extractVisibleRegion page "name"
  /\ String.length
       (Region.extractVisibleRegion
          (Region.extractVisibleRegion twice "setup") "setup")
     < String.length (Region.extractVisibleRegion twice "setup").
Proof.
  intros page twice. split; [|split].
  - reflexivity.
  - apply (proj1 (extractVisibleRegion_fixed_point page "name" eq_refl)).
    reflexivity.
  - apply (proj2 (proj2 (extractVisibleRegion_fixed_point twice "setup"
                           eq_refl)));
      reflexivity.
Defined.

(** C3 as stated fails: when the start marker is repeated, the first
    extraction stops at the first marker and keeps the second one in its
    output; the second extraction removes it. *)
Lemma extractVisibleRegion_fixed_point_counterexample :
  ~ (forall fileContent regionName : string,
        Region.plainName regionName = true ->
        Region.extractVisibleRegion
          (Region.extractVisibleRegion fileContent regionName) regionName
        = Region.extractVisibleRegion fileContent regionName).
Proof.
  intros claim.
  specialize (claim
    ("// #docregion setup" +++ Markdown.LF
     +++ "// #docregion setup" +++ Markdown.LF
     +++ "const app = create();" +++ Markdown.LF
     +++ "// #enddocregion setup" +++ Markdown.LF)
    "setup" eq_refl).
  vm_compute in claim. discriminate claim.
Qed.

(* ===================================================================== *)
(** ** Walks *)
(* ===================================================================== *)

Section WalkFacts.
Import Entities Walk.

Lemma pushes_ret : pushes (ret tt) [].
Proof. intros issues. unfold ret. rewrite app_nil_r. reflexivity. Qed.

Lemma pushes_push (issue : CodeIssue) : pushes (push issue) [issue].
Proof. intros issues. reflexivity. Qed.

Lemma pushes_when (b : bool) (issue : CodeIssue) :
  pushes (when b (push issue)) (if b then [issue] else []).
Proof. destruct b; [apply pushes_push|apply pushes_ret]. Qed.

Lemma pushes_then (m k : Walk unit) (a b : list CodeIssue) :
  pushes m a -> pushes k b -> pushes (m ;;; k) (a ++ b).
Proof.
  intros Hm Hk issues. unfold bind. rewrite Hm, Hk, app_assoc. reflexivity.
Qed.

Lemma pushes_orThrow {A} (a : A) (k : A -> Walk unit) (out : list CodeIssue) :
  pushes (k a) out -> pushes (x <~ orThrow (Some a) ;; k x) out.
Proof. intros H issues. unfold bind, orThrow. apply H. Qed.

(** A loop whose turns push issues satisfying [P] pushes such issues. *)
Lemma pushes_forEach_all {A} (P : CodeIssue -> Prop) (body : A -> Walk unit)
  (xs : list A) :
  (forall x, In x xs -> exists out, pushes (body x) out /\ Forall P out) ->
  exists out, pushes (forEach body xs) out /\ Forall P out.
Proof.
  induction xs as [|x xs IH]; simpl; intros H.
  - exists []. split; [apply pushes_ret|constructor].
  - destruct (H x (or_introl eq_refl)) as (a & Ha & Pa).
    destruct IH as (b & Hb & Pb).
    { intros y Hy. apply H. right. exact Hy. }
    exists (a ++ b). split.
    + apply pushes_then; assumption.
    + apply Forall_app. split; assumption.
Qed.


End WalkFacts.

(* ===================================================================== *)
(** ** The rule catalog *)
(* ===================================================================== *)

Section RulesFacts.
Import Str Entities Tree Walk Rules Expected.

(** Where every name can be read, the search through the decorators ends
    without throwing. *)
Lemma someDecorator_readable (p : string -> bool) (ds : list Decorator) :
  readable ds = true -> someDecorator p ds = Some (carries p ds).
Proof.
  induction ds as [|d ds IH]; simpl; intros H; [reflexivity|].
  apply Bool.andb_true_iff in H. destruct H as [D H].
  destruct (decoratorName d) as [n|]; [|discriminate D].
  destruct (p n); [reflexivity|]. apply IH. exact H.
Qed.

Lemma pushes_when_warning (b : bool) (issue : CodeIssue) :
  isError issue = false ->
  exists out, pushes (when b (push issue)) out /\ Forall notError out.
Proof.
  intros H. eexists. split; [apply pushes_when|].
  destruct b; repeat constructor. exact H.
Qed.

(** The framework-agnostic pass never throws, and none of its issues is an
    error. *)
Lemma analyzeCommonTypeScriptPatterns_pushes (sourceFile : SourceFile)
  (framework : string) :
  exists out,
    pushes (analyzeCommonTypeScriptPatterns sourceFile framework) out
    /\ Forall notError out.
Proof.
  unfold analyzeCommonTypeScriptPatterns.
  destruct (pushes_forEach_all notError
              (fun importDecl =>
                 Walk.forEach (checkNamedImport sourceFile framework importDecl)
                   (namedImports importDecl))
              (getImportDeclarations sourceFile)) as (a & Ha & Pa).
  { intros importDecl _. apply pushes_forEach_all. intros identifier _.
    apply pushes_when_warning. reflexivity. }
  destruct (pushes_forEach_all notError
              (fun comment => push (commentedCode framework comment))
              (filter (fun d => Regex.test residualStatement (commentText d))
                 (singleLineComments sourceFile))) as (b & Hb & Pb).
  { intros comment _. eexists. split; [apply pushes_push|].
    repeat constructor. }
  exists (a ++ b). split.
  - apply pushes_then; assumption.
  - apply Forall_app. split; assumption.
Qed.






End RulesFacts.

(* ===================================================================== *)
(** ** Walks never lose an issue *)
(* ===================================================================== *)

Section FrameFacts.
Import Str Entities Tree Walk Rules Expected.

Lemma framed_ret {A} (a : A) : framed (ret a).
Proof. intros issues. unfold ret. simpl. rewrite app_nil_r. reflexivity. Qed.

Lemma framed_push (issue : CodeIssue) : framed (push issue).
Proof. intros issues. reflexivity. Qed.

Lemma framed_orThrow {A} (o : option A) : framed (orThrow o).
Proof. intros issues. unfold orThrow. simpl. rewrite app_nil_r. reflexivity. Qed.

Lemma framed_bind {A B} (m : Walk A) (k : A -> Walk B) :
  framed m -> (forall a, framed (k a)) -> framed (bind m k).
Proof.
  intros Hm Hk issues. unfold bind. rewrite (Hm issues).
  destruct (m []) as [[a|] r1]; cbn [fst snd]; [|reflexivity].
  rewrite (Hk a (issues ++ r1)), (Hk a r1). cbn [fst snd].
  rewrite app_assoc. reflexivity.
Qed.

Lemma framed_when (b : bool) (m : Walk unit) :
  framed m -> framed (when b m).
Proof. intros H. destruct b; [exact H|apply framed_ret]. Qed.

Lemma framed_forEach {A} (body : A -> Walk unit) (xs : list A) :
  (forall x, framed (body x)) -> framed (forEach body xs).
Proof.
  intros H. induction xs as [|x xs IH]; simpl.
  - apply framed_ret.
  - apply framed_bind; [apply H|intros _; exact IH].
Qed.

Lemma framed_if {A} (b : bool) (m1 m2 : Walk A) :
  framed m1 -> framed m2 -> framed (if b then m1 else m2).
Proof. destruct b; auto. Qed.

Ltac framed :=
  repeat first
    [ apply framed_ret | apply framed_push | apply framed_orThrow
    | apply framed_when | apply framed_forEach; intros ?
    | apply framed_bind; [|intros ?] | apply framed_if
    | match goal with
      | |- framed (match ?x with _ => _ end) => destruct x
      end ].

Lemma checkInjectable_framed (c : ClassDeclaration) (kind documentation : string) :
  framed (checkInjectable c kind documentation).
Proof. unfold checkInjectable. framed. Qed.

Lemma checkCapability_framed (c : ClassDeclaration)
  (i1 i2 i3 i4 i5 m1 m2 m3 m4 m5 : string) :
  framed (checkCapability c i1 i2 i3 i4 i5 m1 m2 m3 m4 m5).
Proof. unfold checkCapability. framed. Qed.

(** Every kind-specific pass only adds to the issues array, whether it
    throws or not, and adds the same issues whatever the array held. *)
Lemma analyzeKind_framed (fileType : CodeFileType) (sourceFile : SourceFile) :
  framed (Analyzer.analyzeKind fileType sourceFile).
Proof.
  destruct fileType; simpl; try apply framed_ret;
    unfold analyzeNestJSController, checkControllerClass, checkHandlerMethod,
      checkInjectedParameter, analyzeNestJSService, analyzeNestJSModule,
      analyzeNestJSPipe, analyzeNestJSGuard, analyzeNestJSInterceptor,
      analyzeAngularComponent, analyzeAngularService, analyzeAngularModule,
      analyzeAngularDirective, analyzeAngularPipe;
    framed;
    try apply checkInjectable_framed; try apply checkCapability_framed.
Qed.

(** A loop over two lists in a row is the two loops in a row. *)
Lemma forEach_app {A} (body : A -> Walk unit) (xs ys : list A)
  (issues : list CodeIssue) :
  forEach body (xs ++ ys) issues
  = (forEach body xs ;;; forEach body ys) issues.
Proof.
  revert issues. induction xs as [|x xs IH]; intros issues; [reflexivity|].
  cbn [app forEach]. unfold bind.
  destruct (body x issues) as [[u|] issues']; [|reflexivity].
  rewrite IH. reflexivity.
Qed.

(** Every kind-specific pass is a loop over the classes of the file. *)
Lemma analyzeKind_classes (fileType : CodeFileType) :
  exists body,
    forall sourceFile issues,
      Analyzer.analyzeKind fileType sourceFile issues
      = forEach body (getClasses sourceFile) issues.
Proof.
  destruct fileType;
    first
      [ solve [eexists; intros sourceFile issues; reflexivity]
      | exists (fun _ => ret tt); intros sourceFile issues; simpl;
        induction (getClasses sourceFile) as [|c classes IH];
        [reflexivity|exact IH] ].
Qed.

(** What a kind-specific pass pushed on the first classes of a file, walked
    without a throw, is the start of what it pushes on the file. *)
Lemma analyzeKind_prefix (fileType : CodeFileType) (sourceFile : SourceFile)
  (before after : list ClassDeclaration) (kept : list CodeIssue) :
  getClasses sourceFile = before ++ after ->
  pushes (Analyzer.analyzeKind fileType (withClasses sourceFile before)) kept ->
  exists rest,
    snd (Analyzer.analyzeKind fileType sourceFile []) = kept ++ rest.
Proof.
  intros Hc Hp. destruct (analyzeKind_classes fileType) as (body & B).
  assert (F : framed (forEach body after)).
  { intros issues.
    pose proof (analyzeKind_framed fileType (withClasses sourceFile after)
                  issues) as F.
    rewrite !B in F. exact F. }
  exists (snd (forEach body after [])).
  specialize (Hp []). rewrite B in Hp. cbn [withClasses getClasses app] in Hp.
  rewrite B, Hc, forEach_app. unfold bind. rewrite Hp, F. reflexivity.
Qed.

End FrameFacts.

(* ===================================================================== *)
(** ** The analyzer *)
(* ===================================================================== *)

Section AnalyzerFacts.
Import Str Entities Tree Walk Rules Classifier Analyzer Tools.
Context {W : Type} {documentationRepository : Ports.DocumentationRepository W}.
Variable createSourceFile : Parser.

(** The result of [analyzeFile]: the classified file and the issues found
    on it; the documentation index only contributes the best practices. *)
Lemma analyzeFile_result (file : CodeFile) (framework : string) (w : W) :
  getFile (fst (analyzeFile createSourceFile file framework w))
  = detectFileType file
  /\ getIssues (fst (analyzeFile createSourceFile file framework w))
     = findIssues createSourceFile (detectFileType file) [] framework.
Proof.
  unfold analyzeFile, StateMonad.bind.
  destruct (fetchRelevantBestPractices (detectFileType file) framework w).
  split; reflexivity.
Qed.


(** Past the guard and the parser, the issues are those of the common pass
    followed by those of the kind-specific pass. *)
Lemma findIssues_walk (file : CodeFile) (framework : string)
  (sourceFile : SourceFile) :
  isCode (getLanguage file) = true ->
  getFileType file <> UNKNOWN ->
  createSourceFile (getPath file) (getContent file) = Some sourceFile ->
  exists common,
    pushes (analyzeCommonTypeScriptPatterns sourceFile framework) common
    /\ Forall notError common
    /\ findIssues createSourceFile file [] framework
       = snd (analyzeKind (getFileType file) sourceFile common).
Proof.
  intros Hcode Hkind Hparse.
  destruct (analyzeCommonTypeScriptPatterns_pushes sourceFile framework)
    as (common & Hcommon & Pcommon).
  exists common. split; [exact Hcommon|]. split; [exact Pcommon|].
  unfold findIssues. rewrite Hcode.
  apply CodeFileType_eqb_neq in Hkind. rewrite Hkind. simpl.
  unfold walkFile, bind, orThrow. rewrite Hparse, Hcommon. reflexivity.
Qed.


End AnalyzerFacts.




(** The same file name with two plain classes yields two error issues. *)
Example analyzeCodeFile_two_classes :
  map Tools.viewId
    (filter (Tools.ofSeverity Entities.ERROR)
       (Tools.issues
          (fst (Tools.analyzeCodeFile Examples.exampleParser
                  "widget.controller.ts" Examples.pairContent "nestjs"
                  (Docs.newRepository Docs.offline)))))
  = ["missing-controller-decorator-Widget";
     "missing-controller-decorator-WidgetDto"].
Proof. vm_compute. reflexivity. Qed.

(** A content without annotation marker may still hold a decorator.  Under
    a decorator whose name cannot be read the one class of the file yields
    no error issue: reading the name throws before the class is checked. *)
Example analyzeCodeFile_unreadable_decorator :
  Classifier.hasAnnotationToken Examples.catsContent = false
  /\ List.length (Tree.getClasses Examples.catsTree) = 1
  /\ filter (Tools.ofSeverity Entities.ERROR)
       (Tools.issues
          (fst (Tools.analyzeCodeFile Examples.exampleParser
                  "widget.controller.ts" Examples.catsContent "nestjs"
                  (Docs.newRepository Docs.offline))))
     = [].
Proof. repeat split; vm_compute; reflexivity. Qed.

(** C8, as the code has it, for a framework name the lookup of the best
    practices returns for.  A file whose detected kind is unknown, or whose
    detected language is neither TypeScript nor JavaScript, has an empty
    issue list; so has a file whose syntax tree cannot be built.  Once the
    tree is built, an error while walking it is caught as well, and the
    file keeps every issue pushed before the error: the issue list is the
    issues of the common pass, which never throws, followed by what the
    kind-specific pass had pushed when it ended, by returning or by
    throwing.  In particular, the issues the kind-specific pass pushes on
    the first classes of the file, when it walks them without a throw, are
    all in the list, whatever happens in the classes after them. *)
Theorem analyzeFile_guard_and_catch
  {W : Type} {documentationRepository : Ports.DocumentationRepository W}
  (createSourceFile : Tree.Parser) (file : Entities.CodeFile)
  (framework : string) (w : W) :
  ~ In (Str.toLowerCase framework) Expected.inheritedKeys ->
  let detected := Classifier.detectFileType file in
  let result := fst (Analyzer.analyzeFile createSourceFile file framework w) in
  (Entities.getFileType detected = Entities.UNKNOWN
   \/ Classifier.isCode (Entities.getLanguage detected) = false ->
   Entities.getIssues result = [])
  /\ (createSourceFile (Entities.getPath detected) (Entities.getContent detected)
      = None ->
      Entities.getIssues result = [])
  /\ (forall sourceFile,
        Classifier.isCode (Entities.getLanguage detected) = true ->
        Entities.getFileType detected <> Entities.UNKNOWN ->
        createSourceFile (Entities.getPath detected)
          (Entities.getContent detected) = Some sourceFile ->
        exists common,
          Walk.pushes
            (Rules.analyzeCommonTypeScriptPatterns sourceFile framework) common
          /\ Entities.getIssues result
             = common
               ++ snd (Analyzer.analyzeKind (Entities.getFileType detected)
                         sourceFile [])
          /\ (forall before after kept,
                Tree.getClasses sourceFile = before ++ after ->
                Walk.pushes
                  (Analyzer.analyzeKind (Entities.getFileType detected)
                     (Expected.withClasses sourceFile before))
                  kept ->
                exists rest,
                  Entities.getIssues result = common ++ kept ++ rest)).
Proof.
  intros _ detected result.
  destruct (analyzeFile_result createSourceFile file framework w) as [_ Hi].
  fold result detected in Hi.
  split; [|split].
  - intros [Hkind|Hlang]; rewrite Hi; unfold Analyzer.findIssues.
    + rewrite Hkind, orb_true_r. reflexivity.
    + rewrite Hlang. reflexivity.
  - intros Hparse. rewrite Hi. unfold Analyzer.findIssues.
    destruct (negb _ || _); [reflexivity|].
    unfold Analyzer.walkFile, Walk.bind, Walk.orThrow. rewrite Hparse.
    reflexivity.
  - intros sourceFile Hcode Hkind Hparse.
    destruct (findIssues_walk createSourceFile detected framework sourceFile
                Hcode Hkind Hparse) as (common & Hcommon & _ & Hfind).
    assert (E : Entities.getIssues result
                = common
                  ++ snd (Analyzer.analyzeKind (Entities.getFileType detected)
                            sourceFile [])).
    { rewrite Hi, Hfind.
      rewrite (analyzeKind_framed (Entities.getFileType detected) sourceFile
                 common).
      reflexivity. }
    exists common. split; [exact Hcommon|]. split; [exact E|].
    intros before after kept Hc Hp.
    destruct (analyzeKind_prefix (Entities.getFileType detected) sourceFile
                before after kept Hc Hp) as (rest & R).
    exists rest. rewrite E, R. reflexivity.
Qed.

(** A text file has no issue; a controller has none when no tree can be
    built; a controller file whose walk throws at its second class keeps
    the unused import found by the common pass and the missing decorator
    of its first class. *)
Lemma analyzeFile_guard_and_catch_witness :
  let run file :=
    Entities.getIssues
      (fst (Analyzer.analyzeFile Examples.exampleParser file "nestjs"
              (Docs.newRepository Docs.offline))) in
  run (Entities.mkCodeFile "notes.txt" "Controller" Entities.LANG_UNKNOWN
         Entities.UNKNOWN) = []
  /\ Entities.getIssues
       (fst (Analyzer.analyzeFile Examples.brokenParser
               (Entities.mkCodeFile "widget.controller.ts"
                  Examples.widgetContent Entities.LANG_UNKNOWN Entities.UNKNOWN)
               "nestjs" (Docs.newRepository Docs.offline))) = []
  /\ exists common rest,
       Walk.pushes
         (Rules.analyzeCommonTypeScriptPatterns Examples.kennelTree "nestjs")
         common
       /\ run (Entities.mkCodeFile "kennel.controller.ts"
                 Examples.kennelContent Entities.LANG_UNKNOWN Entities.UNKNOWN)
          = common
            ++ [Rules.missingControllerDecorator Examples.dogsClass] ++ rest.
Proof.
  assert (F : ~ In (Str.toLowerCase "nestjs") Expected.inheritedKeys)
    by (simpl; intros [H|[H|[]]]; discriminate H).
  intros run. split; [|split].
  - apply (proj1 (analyzeFile_guard_and_catch Examples.exampleParser
                    (Entities.mkCodeFile "notes.txt" "Controller"
                       Entities.LANG_UNKNOWN Entities.UNKNOWN)
                    "nestjs" (Docs.newRepository Docs.offline) F)).
    left. reflexivity.
  - apply (proj1 (proj2 (analyzeFile_guard_and_catch Examples.brokenParser
                           (Entities.mkCodeFile "widget.controller.ts"
                              Examples.widgetContent
                              Entities.LANG_UNKNOWN Entities.UNKNOWN)
                           "nestjs" (Docs.newRepository Docs.offline) F))).
    reflexivity.
  - destruct (proj2 (proj2 (analyzeFile_guard_and_catch Examples.exampleParser
                              (Entities.mkCodeFile "kennel.controller.ts"
                                 Examples.kennelContent
                                 Entities.LANG_UNKNOWN Entities.UNKNOWN)
                              "nestjs" (Docs.newRepository Docs.offline) F))
                Examples.kennelTree)
      as (common & Hcommon & _ & Hkept).
    + reflexivity.
    + simpl. discriminate.
    + reflexivity.
    + destruct (Hkept [Examples.dogsClass]
                  (skipn 1 (Tree.getClasses Examples.kennelTree))
                  [Rules.missingControllerDecorator Examples.dogsClass])
        as (rest & R).
      * reflexivity.
      * intros issues. reflexivity.
      * exists common, rest. split; [exact Hcommon|exact R].
Defined.

(** C8 as stated fails on its last clause: an error while walking the tree
    is caught, but the issues pushed before it stay in the list.  On the
    example the common pass reports the unused import, then reading the
    name of the class decorator throws. *)
Lemma analyzeFile_guard_and_catch_counterexample :
  ~ (forall (createSourceFile : Tree.Parser) (file : Entities.CodeFile)
            (framework : string) (w : Docs.World),
        Walk.throws
          (Analyzer.walkFile createSourceFile (Classifier.detectFileType file)
             framework) [] ->
        Entities.getIssues
          (fst (Analyzer.analyzeFile createSourceFile file framework w)) = []).
Proof.
  intros claim.
  specialize (claim Examples.exampleParser
                (Entities.mkCodeFile "cats.controller.ts" Examples.catsContent
                   Entities.LANG_UNKNOWN Entities.UNKNOWN)
                "nestjs" (Docs.newRepository Docs.offline) eq_refl).
  vm_compute in claim. discriminate claim.
Qed.

(** The two runs in full: the walk of the first file throws at its only
    class and leaves the unused import; the walk of the second throws at
    its second class and leaves the unused import and the missing decorator
    of the first class. *)
Example analyzeFile_keeps_issues :
  let run path content :=
    map Entities.issueId
      (Entities.getIssues
         (fst (Analyzer.analyzeFile Examples.exampleParser
                 (Entities.mkCodeFile path content Entities.LANG_UNKNOWN
                    Entities.UNKNOWN)
                 "nestjs" (Docs.newRepository Docs.offline)))) in
  run "cats.controller.ts" Examples.catsContent = ["unused-import-Logger"]
  /\ run "kennel.controller.ts" Examples.kennelContent
     = ["unused-import-Logger"; "missing-controller-decorator-DogsController"].
Proof. split; vm_compute; reflexivity. Qed.

(* ===================================================================== *)
(** ** The project summary *)
(* ===================================================================== *)

Section SummaryFacts.
Import Entities Tools StateMonad.

(** A [reduce] that adds one number per element is the sum of the numbers. *)
Lemma reduce_sum {A} (f : A -> nat) (xs : list A) (start : nat) :
  fold_left (fun sum x => sum + f x) xs start = start + list_sum (map f xs).
Proof.
  revert start. induction xs as [|x xs IH]; simpl; intros start.
  - lia.
  - rewrite IH. lia.
Qed.

Lemma length_filter_flat_map {A B} (p : B -> bool) (g : A -> list B)
  (xs : list A) :
  List.length (filter p (flat_map g xs))
  = list_sum (map (fun x => List.length (filter p (g x))) xs).
Proof.
  induction xs as [|x xs IH]; simpl; [reflexivity|].
  rewrite filter_app, length_app, IH. reflexivity.
Qed.

Lemma countSeverity_all (severity : IssueSeverity) (results : list ProjectEntry) :
  countSeverity severity results
  = List.length (filter (ofSeverity severity) (flat_map entryIssues results)).
Proof.
  unfold countSeverity. rewrite reduce_sum, length_filter_flat_map.
  reflexivity.
Qed.

Lemma traverse_length {W A B} (f : A -> State W B) (xs : list A) (w : W) :
  List.length (fst (traverse f xs w)) = List.length xs.
Proof.
  revert w. induction xs as [|x xs IH]; simpl; intros w; [reflexivity|].
  unfold bind. destruct (f x w) as [y w1].
  specialize (IH w1). destruct (traverse f xs w1) as [ys w2].
  simpl in *. rewrite IH. reflexivity.
Qed.

End SummaryFacts.

(** C7.  The summary of [analyzeProject] counts what its results hold: one
    result per file, [totalIssues] the sum of the issue counts of the
    files, [filesWithIssues] the number of files with at least one issue,
    each [issuesBySeverity] counter the number of issues of that severity
    over all files.  For three files with two errors, no issue and one
    warning: 3 issues, 2 errors, 1 warning, 2 files with issues. *)
Theorem analyzeProject_summary
  {W : Type} {documentationRepository : Ports.DocumentationRepository W}
  (createSourceFile : Tree.Parser) (files : list (string * string))
  (framework : string) (w : W) :
  let response :=
    fst (Tools.analyzeProjectTool createSourceFile files framework w) in
  let summary := fst response in
  let results := snd response in
  List.length results = List.length files
  /\ Tools.totalFiles summary = List.length files
  /\ Tools.totalIssues summary
     = list_sum (map (fun r => List.length (Tools.entryIssues r)) results)
  /\ Tools.filesWithIssues summary
     = List.length
         (filter (fun r => 1 <=? List.length (Tools.entryIssues r)) results)
  /\ (forall severity,
        Tools.issuesBySeverity summary severity
        = List.length
            (filter (Tools.ofSeverity severity)
               (flat_map Tools.entryIssues results)))
  /\ (forall first second third e1 e2 w1,
        results = [first; second; third] ->
        Tools.entryIssues first = [e1; e2] ->
        Tools.viewSeverity e1 = Entities.ERROR ->
        Tools.viewSeverity e2 = Entities.ERROR ->
        Tools.entryIssues second = [] ->
        Tools.entryIssues third = [w1] ->
        Tools.viewSeverity w1 = Entities.WARNING ->
        Tools.totalIssues summary = 3
        /\ Tools.issuesBySeverity summary Entities.ERROR = 2
        /\ Tools.issuesBySeverity summary Entities.WARNING = 1
        /\ Tools.filesWithIssues summary = 2).
Proof.
  intros response summary results.
  assert (S : summary = Tools.projectSummary results
              /\ List.length results = List.length files).
  { unfold summary, results, response, Tools.analyzeProjectTool,
      Analyzer.analyzeProject, StateMonad.bind.
    pose proof (traverse_length
                  (fun file => Analyzer.analyzeFile createSourceFile file framework)
                  (map (fun file =>
                          Entities.mkCodeFile (fst file) (snd file)
                            Entities.LANG_UNKNOWN Entities.UNKNOWN) files) w)
      as L1.
    destruct (StateMonad.traverse _ _ w) as [analysisResults w1].
    pose proof (traverse_length
                  (Tools.projectEntry (documentationRepository := documentationRepository))
                  analysisResults w1) as L2.
    destruct (StateMonad.traverse Tools.projectEntry analysisResults w1)
      as [entries w2].
    simpl in *. split; [reflexivity|]. rewrite L2, L1, length_map.
    reflexivity. }
  destruct S as [S L]. rewrite S.
  split; [exact L|]. split; [simpl; exact L|].
  split; [simpl; rewrite reduce_sum; reflexivity|].
  split; [reflexivity|].
  split.
  - intros severity. destruct severity; simpl; apply countSeverity_all.
  - intros first second third e1 e2 w1 R H1 He1 He2 H2 H3 Hw1.
    rewrite R. unfold Tools.projectSummary, Tools.countSeverity. simpl.
    rewrite H1, H2, H3. simpl. unfold Tools.ofSeverity.
    rewrite He1, He2, Hw1. simpl. repeat split; reflexivity.
Qed.

(** The example project: two plain classes in a controller file (two
    errors), an empty file, a decorated controller with one undecorated
    method (one warning). *)
Lemma analyzeProject_summary_witness :
  let summary :=
    fst (fst (Tools.analyzeProjectTool Examples.exampleParser Examples.project
                "nestjs" (Docs.newRepository Docs.offline))) in
  Tools.totalIssues summary = 3
  /\ Tools.issuesBySeverity summary Entities.ERROR = 2
  /\ Tools.issuesBySeverity summary Entities.WARNING = 1
  /\ Tools.filesWithIssues summary = 2.
Proof.
  intros summary.
  eapply (proj2 (proj2 (proj2 (proj2 (proj2
            (analyzeProject_summary Examples.exampleParser Examples.project
               "nestjs" (Docs.newRepository Docs.offline)))))));
    vm_compute; reflexivity.
Defined.

(* ===================================================================== *)
(** ** The documentation index: what reads leave alone *)
(* ===================================================================== *)

Section ReadOnlyFacts.
Import Str Entities StateMonad Docs Markdown.

Lemma sameIndex_refl (w : World) : sameIndex w w.
Proof. split; reflexivity. Qed.

Lemma sameIndex_trans (w1 w2 w3 : World) :
  sameIndex w1 w2 -> sameIndex w2 w3 -> sameIndex w1 w3.
Proof. intros [A B] [C D]. split; congruence. Qed.

Lemma readOnly_ret {A} (a : A) : readOnly (ret a).
Proof. intros w. apply sameIndex_refl. Qed.

Lemma readOnly_bind {A B} (m : Repo A) (k : A -> Repo B) :
  readOnly m -> (forall a, readOnly (k a)) -> readOnly (bind m k).
Proof.
  intros Hm Hk w. unfold bind. specialize (Hm w).
  destruct (m w) as [a w1]. simpl in Hm.
  apply (sameIndex_trans _ w1); [exact Hm|apply Hk].
Qed.

Lemma readOnly_axiosGet (url : string) : readOnly (axiosGet url).
Proof. intros w. split; reflexivity. Qed.

Lemma readOnly_forEach {A B} (body : B -> A -> Repo B) (xs : list A) (acc : B) :
  (forall acc x, readOnly (body acc x)) -> readOnly (forEach body xs acc).
Proof.
  intros H. revert acc. induction xs as [|x xs IH]; simpl; intros acc.
  - apply readOnly_ret.
  - apply readOnly_bind; [apply H|exact IH].
Qed.

Lemma readOnly_traverse {A B} (f : A -> Repo B) (xs : list A) :
  (forall x, readOnly (f x)) -> readOnly (traverse f xs).
Proof.
  intros H. induction xs as [|x xs IH]; simpl.
  - apply readOnly_ret.
  - apply readOnly_bind; [apply H|intros y].
    apply readOnly_bind; [exact IH|intros ys; apply readOnly_ret].
Qed.

Lemma readOnly_if {A} (b : bool) (m1 m2 : Repo A) :
  readOnly m1 -> readOnly m2 -> readOnly (if b then m1 else m2).
Proof. destruct b; auto. Qed.

Ltac read_only :=
  repeat first
    [ apply readOnly_ret | apply readOnly_axiosGet
    | apply readOnly_forEach; intros ? ?
    | apply readOnly_traverse; intros ?
    | apply readOnly_bind; [|intros ?]
    | apply readOnly_if
    | match goal with
      | |- readOnly (match ?x with _ => _ end) => destruct x
      | |- readOnly (let (_, _) := ?x in _) => destruct x
      end ].

Lemma readOnly_fetchRawGitHubContent (url : string) :
  readOnly (fetchRawGitHubContent url).
Proof. unfold fetchRawGitHubContent. read_only. Qed.

Lemma readOnly_fetchTopicContent (topic : DocumentationTopic) :
  readOnly (fetchTopicContent topic).
Proof.
  unfold fetchTopicContent.
  apply readOnly_bind; [apply readOnly_fetchRawGitHubContent|].
  intros content. apply readOnly_ret.
Qed.

Lemma readOnly_ensureContent (topic : DocumentationTopic) :
  readOnly (ensureContent topic).
Proof.
  unfold ensureContent.
  apply readOnly_if; [apply readOnly_fetchTopicContent|apply readOnly_ret].
Qed.

Lemma readOnly_extractBestPractices (topic : DocumentationTopic) :
  readOnly (extractBestPractices topic).
Proof.
  unfold extractBestPractices.
  apply readOnly_bind; [apply readOnly_ensureContent|].
  intros fullTopic. apply readOnly_ret.
Qed.

Lemma readOnly_fetchNestJSGitHubTopics (section : DocumentationSection)
  (url : string) : readOnly (fetchNestJSGitHubTopics section url).
Proof. unfold fetchNestJSGitHubTopics. read_only. Qed.

Lemma readOnly_fetchNestJSGitHubSections (source : DocumentationSource) :
  readOnly (fetchNestJSGitHubSections source).
Proof.
  unfold fetchNestJSGitHubSections. read_only.
Qed.

Lemma readOnly_fetchAngularDirectoryTopics (section : DocumentationSection)
  (url : string) : readOnly (fetchAngularDirectoryTopics section url).
Proof.
  unfold fetchAngularDirectoryTopics. read_only.
Qed.

Lemma readOnly_angularItem (st : AngularState) (item : Item) :
  readOnly (angularItem st item).
Proof.
  unfold angularItem. destruct st as [source sections]. read_only.
Qed.

Lemma readOnly_fetchAngularGitHubSections (source : DocumentationSource) :
  readOnly (fetchAngularGitHubSections source).
Proof.
  unfold fetchAngularGitHubSections.
  apply readOnly_bind; [apply readOnly_axiosGet|]. intros response.
  destruct response as [[items|text|]|]; try apply readOnly_ret.
  apply readOnly_bind; [|intros st; apply readOnly_ret].
  apply readOnly_forEach. intros st item. apply readOnly_angularItem.
Qed.

Lemma readOnly_fetchSections (source : DocumentationSource) :
  readOnly (fetchSections source).
Proof.
  unfold fetchSections.
  apply readOnly_if; [apply readOnly_fetchNestJSGitHubSections|].
  apply readOnly_if; [apply readOnly_fetchAngularGitHubSections|].
  apply readOnly_ret.
Qed.

(** [getTopicById] leaves the index as it found it. *)
Lemma readOnly_getTopicById (sourceId' topicId' : string) :
  readOnly (getTopicById sourceId' topicId').
Proof.
  intros w. unfold getTopicById.
  destruct (findTopic sourceId' topicId' (allSources w)) as [topic|];
    [|apply sameIndex_refl].
  destruct (negb (truthy (topicContent topic))); [|apply sameIndex_refl].
  apply (readOnly_bind (fetchTopicContent topic) (fun t => ret (Some t))).
  - apply readOnly_fetchTopicContent.
  - intros t. apply readOnly_ret.
Qed.

(** [searchTopics] leaves the index as it found it. *)
Lemma readOnly_searchTopics (sourceId' query : string) :
  readOnly (searchTopics sourceId' query).
Proof.
  intros w. unfold searchTopics.
  destruct (findSource sourceId' (allSources w)) as [source|];
    [|apply sameIndex_refl].
  apply readOnly_forEach. intros results section.
  apply readOnly_forEach. intros results' topic.
  apply readOnly_bind; [apply readOnly_ensureContent|].
  intros t. apply readOnly_ret.
Qed.

End ReadOnlyFacts.

(* ===================================================================== *)
(** ** The documentation index: discovery *)
(* ===================================================================== *)

Section DiscoveryFacts.
Import Str Entities StateMonad Docs Markdown.

Lemma returns_ret {A} (a : A) (Q : A -> Prop) : Q a -> returns (ret a) Q.
Proof. intros H w. exact H. Qed.

Lemma returns_bind {A B} (m : Repo A) (k : A -> Repo B) (Q : B -> Prop) :
  (forall a, returns (k a) Q) -> returns (bind m k) Q.
Proof.
  intros Hk w. unfold bind. destruct (m w) as [a w1]. apply Hk.
Qed.

(** A loop keeps what each of its turns keeps. *)
Lemma returns_forEach {A B} (body : B -> A -> Repo B) (I : B -> Prop)
  (xs : list A) (acc : B) :
  (forall acc x, I acc -> returns (body acc x) I) ->
  I acc -> returns (forEach body xs acc) I.
Proof.
  intros H. revert acc. induction xs as [|x xs IH]; simpl; intros acc Hacc w.
  - exact Hacc.
  - unfold bind. specialize (H acc x Hacc w).
    destruct (body acc x w) as [acc' w1]. apply IH. exact H.
Qed.

Lemma returns_traverse {A B} (f : A -> Repo B) (R : A -> B -> Prop)
  (xs : list A) :
  (forall x, returns (f x) (R x)) -> returns (traverse f xs) (Forall2 R xs).
Proof.
  intros H. induction xs as [|x xs IH]; simpl; intros w.
  - constructor.
  - unfold bind. specialize (H x w). destruct (f x w) as [y w1].
    specialize (IH w1). destruct (traverse f xs w1) as [ys w2].
    simpl in *. constructor; assumption.
Qed.

Variable P : DocumentationSource -> Prop.
Hypothesis attach :
  forall source section,
    P source -> nonEmpty section = true -> P (addSection source section).

Lemma attach_if_nonEmpty (source : DocumentationSource)
  (section : DocumentationSection) :
  P source -> P (if nonEmpty section then addSection source section else source).
Proof.
  intros H. destruct (nonEmpty section) eqn:E; [apply attach|]; assumption.
Qed.

Lemma fetchNestJSGitHubSections_keeps (source : DocumentationSource) :
  P source -> returns (fetchNestJSGitHubSections source) P.
Proof.
  intros H. unfold fetchNestJSGitHubSections.
  apply returns_bind. intros response.
  destruct response as [[items|text|]|]; try (apply returns_ret; exact H).
  apply returns_forEach; [|exact H].
  intros acc item Hacc.
  destruct (String.eqb (itemType item) "dir"); [|apply returns_ret; exact Hacc].
  apply returns_bind. intros section. apply returns_ret.
  apply attach_if_nonEmpty. exact Hacc.
Qed.

Lemma angularItem_keeps (st : AngularState) (item : Item) :
  P (fst st) -> returns (angularItem st item) (fun st' => P (fst st')).
Proof.
  destruct st as [source sections]. intros H. simpl in H. unfold angularItem.
  destruct (String.eqb (itemType item) "dir").
  - cbv zeta.
    match goal with
    | |- context [existsb ?f categoryDirectories] =>
        destruct (existsb f categoryDirectories)
    end.
    + match goal with
      | |- context [lookup ?k sections] =>
          destruct (lookup k sections) as [section|]
      end; [|apply returns_ret; exact H].
      apply returns_bind. intros section'. apply returns_ret. exact H.
    + apply returns_bind. intros section. apply returns_ret. simpl.
      apply attach_if_nonEmpty. exact H.
  - destruct (isMarkdownFile item); [|apply returns_ret; exact H].
    apply returns_bind. intros content. apply returns_ret.
    destruct content as [items|c|]; exact H.
Qed.

Lemma attach_logical (sections : list DocumentationSection)
  (source : DocumentationSource) :
  P source ->
  P (fold_left
       (fun source section =>
          if nonEmpty section then addSection source section else source)
       sections source).
Proof.
  revert source. induction sections as [|section sections IH]; simpl;
    intros source H; [exact H|].
  apply IH. apply attach_if_nonEmpty. exact H.
Qed.

Lemma fetchAngularGitHubSections_keeps (source : DocumentationSource) :
  P source -> returns (fetchAngularGitHubSections source) P.
Proof.
  intros H. unfold fetchAngularGitHubSections.
  apply returns_bind. intros response.
  destruct response as [[items|text|]|]; try (apply returns_ret; exact H).
  intros w. unfold bind.
  pose proof (returns_forEach angularItem (fun st => P (fst st)) items
                (source, logicalSections source)
                (fun acc x => angularItem_keeps acc x) H w) as K.
  destruct (forEach angularItem items (source, logicalSections source) w)
    as [st w1].
  simpl in *. apply attach_logical. exact K.
Qed.

(** Whatever attaching a section with topics preserves, discovery
    preserves: a section is attached by no other way. *)
Lemma fetchSections_keeps (source : DocumentationSource) :
  P source -> returns (fetchSections source) P.
Proof.
  intros H. unfold fetchSections.
  destruct (includes (sourceId source) "nestjs");
    [apply fetchNestJSGitHubSections_keeps; exact H|].
  destruct (includes (sourceId source) "angular");
    [apply fetchAngularGitHubSections_keeps; exact H|].
  apply returns_ret. exact H.
Qed.

End DiscoveryFacts.

Section SourcesFacts.
Import Str Entities StateMonad Docs Markdown.

Lemma extends_refl (source : DocumentationSource) : extends source source.
Proof.
  repeat split; try reflexivity. exists []. rewrite app_nil_r. reflexivity.
Qed.

(** Discovery only appends sections to a source. *)
Lemma fetchSections_extends (source : DocumentationSource) :
  returns (fetchSections source) (extends source).
Proof.
  apply fetchSections_keeps; [|apply extends_refl].
  intros s section (A & B & C & D & added & E) _.
  repeat split; try assumption.
  exists (added ++ [section]). simpl. rewrite E, app_assoc. reflexivity.
Qed.

(** Discovery attaches no section without topic. *)
Lemma fetchSections_nonEmpty (source : DocumentationSource) :
  sectionsNonEmpty source -> returns (fetchSections source) sectionsNonEmpty.
Proof.
  apply fetchSections_keeps.
  intros s section H E. unfold sectionsNonEmpty, addSection. simpl.
  apply Forall_app. split; [exact H|]. constructor; [exact E|constructor].
Qed.

Lemma loadSource_readOnly (source : DocumentationSource) :
  readOnly (loadSource source).
Proof.
  unfold loadSource.
  apply readOnly_if; [apply readOnly_fetchSections|apply readOnly_ret].
Qed.

Lemma loadSource_returns (source : DocumentationSource) :
  returns (loadSource source)
    (fun loaded =>
       extends source loaded
       /\ (sectionsNonEmpty source -> sectionsNonEmpty loaded)).
Proof.
  unfold loadSource. intros w.
  destruct (List.length (getSections source) =? 0).
  - split.
    + apply fetchSections_extends.
    + intros H. apply fetchSections_nonEmpty. exact H.
  - simpl. split; [apply extends_refl|auto].
Qed.

Lemma getDocumentationSources_unknown (framework : string) (w : World) :
  lookup (toLowerCase framework) (frameworkSources w) = None ->
  getDocumentationSources framework w = ([], w).
Proof. intros H. unfold getDocumentationSources. rewrite H. reflexivity. Qed.

(** What [getDocumentationSources] does for a framework of the index: it
    returns the sources, each with the sections discovery appended, and
    stores them under the framework's key. *)
Lemma getDocumentationSources_known (framework : string) (w : World)
  (sources : list DocumentationSource) :
  lookup (toLowerCase framework) (frameworkSources w) = Some sources ->
  let r := getDocumentationSources framework w in
  frameworkSources (snd r)
  = update (toLowerCase framework) (fun _ => fst r) (frameworkSources w)
  /\ remote (snd r) = remote w
  /\ Forall2
       (fun source loaded =>
          extends source loaded
          /\ (sectionsNonEmpty source -> sectionsNonEmpty loaded))
       sources (fst r).
Proof.
  intros H r. unfold r, getDocumentationSources. rewrite H.
  unfold bind, storeSources, ret.
  pose proof (readOnly_traverse loadSource sources loadSource_readOnly w)
    as [A B].
  pose proof (returns_traverse loadSource _ sources loadSource_returns w) as C.
  destruct (traverse loadSource sources w) as [loaded w1].
  simpl in *. rewrite A, B. repeat split. exact C.
Qed.

Lemma update_keys {A} (key : string) (f : A -> A) (l : list (string * A)) :
  map fst (update key f l) = map fst l.
Proof.
  induction l as [|[k v] l IH]; simpl; [reflexivity|].
  destruct (String.eqb k key); simpl; [reflexivity|]. rewrite IH. reflexivity.
Qed.

Lemma update_Forall {A} (Q : A -> Prop) (key : string) (new : A)
  (l : list (string * A)) :
  Forall (fun entry => Q (snd entry)) l -> Q new ->
  Forall (fun entry => Q (snd entry)) (update key (fun _ => new) l).
Proof.
  intros H Hnew. induction H as [|[k v] l Hv H IH]; simpl; [constructor|].
  destruct (String.eqb k key); constructor; assumption.
Qed.

Lemma Forall2_refl {A} (R : A -> A -> Prop) (xs : list A) :
  (forall x, R x x) -> Forall2 R xs xs.
Proof. intros H. induction xs; constructor; auto. Qed.

Lemma update_Forall2 {A} (R : A -> A -> Prop) (key : string) (old new : A)
  (l : list (string * A)) :
  (forall x, R x x) -> lookup key l = Some old -> R old new ->
  Forall2 (fun before after => fst after = fst before /\ R (snd before) (snd after))
    l (update key (fun _ => new) l).
Proof.
  intros Hrefl. induction l as [|[k v] l IH]; simpl; intros H Hnew.
  - constructor.
  - destruct (String.eqb k key).
    + injection H as ->. constructor; [split; [reflexivity|exact Hnew]|].
      apply Forall2_refl. intros e. split; [reflexivity|apply Hrefl].
    + constructor; [split; [reflexivity|apply Hrefl]|]. apply IH; assumption.
Qed.

Lemma lookup_In {A} (key : string) (l : list (string * A)) (v : A) :
  lookup key l = Some v -> exists k, In (k, v) l.
Proof.
  induction l as [|[k x] l IH]; simpl; [discriminate|].
  destruct (String.eqb k key).
  - intros [= ->]. exists k. left. reflexivity.
  - intros H. destruct (IH H) as (k' & Hin). exists k'. right. exact Hin.
Qed.

Lemma Forall2_length_nonempty {A B} (R : A -> B -> Prop) (xs : list A)
  (ys : list B) : Forall2 R xs ys -> xs <> [] -> ys <> [].
Proof. intros H. destruct H; [contradiction|discriminate]. Qed.

Lemma Forall2_Forall {A B} (R : A -> B -> Prop) (Q1 : A -> Prop)
  (Q2 : B -> Prop) (xs : list A) (ys : list B) :
  Forall2 (fun x y => R x y /\ (Q1 x -> Q2 y)) xs ys ->
  Forall Q1 xs -> Forall Q2 ys.
Proof.
  induction 1 as [|x y xs ys [_ H] _ IH]; intros F; [constructor|].
  inversion F; subst. constructor; auto.
Qed.

Lemma Forall2_weaken {A B} (R R' : A -> B -> Prop) (xs : list A) (ys : list B) :
  (forall x y, R x y -> R' x y) -> Forall2 R xs ys -> Forall2 R' xs ys.
Proof. intros H. induction 1; constructor; auto. Qed.

(** [getDocumentationSources] keeps the invariant of the index, and keeps
    every section the index held. *)
Lemma getDocumentationSources_wellFormed (framework : string) (w : World) :
  wellFormed w -> wellFormed (snd (getDocumentationSources framework w)).
Proof.
  intros [K F].
  destruct (lookup (toLowerCase framework) (frameworkSources w))
    as [sources|] eqn:L.
  - destruct (getDocumentationSources_known framework w sources L)
      as (E & _ & R).
    split.
    + rewrite E, update_keys. exact K.
    + rewrite E.
      apply (update_Forall
               (fun sources => sources <> [] /\ Forall sectionsNonEmpty sources));
        [exact F|].
      destruct (lookup_In _ _ _ L) as (k & Hin).
      rewrite Forall_forall in F. specialize (F _ Hin). destruct F as [N S].
      split.
      * apply (Forall2_length_nonempty _ _ _ R N).
      * apply (Forall2_Forall _ _ _ _ _ R S).
  - rewrite (getDocumentationSources_unknown _ _ L). split; assumption.
Qed.

Lemma keepsSections_refl (w w' : World) :
  frameworkSources w' = frameworkSources w -> keepsSections w w'.
Proof.
  intros E. unfold keepsSections. rewrite E.
  apply Forall2_refl. intros entry. split; [reflexivity|].
  apply Forall2_refl. apply extends_refl.
Qed.

Lemma getDocumentationSources_keepsSections (framework : string) (w : World) :
  keepsSections w (snd (getDocumentationSources framework w)).
Proof.
  destruct (lookup (toLowerCase framework) (frameworkSources w))
    as [sources|] eqn:L.
  - destruct (getDocumentationSources_known framework w sources L)
      as (E & _ & R).
    unfold keepsSections. rewrite E.
    apply (update_Forall2 (Forall2 extends) _ sources); [|exact L|].
    + intros l. apply Forall2_refl. apply extends_refl.
    + apply (Forall2_weaken _ _ _ _ (fun x y H => proj1 H) R).
  - rewrite (getDocumentationSources_unknown _ _ L).
    apply keepsSections_refl. reflexivity.
Qed.

End SourcesFacts.

Section BestPracticesFacts.
Import Str Entities StateMonad Docs Markdown.

(** After its discovery step [getBestPractices] only reads. *)
Lemma getBestPractices_index (framework component : string) (w : World) :
  frameworkSources (snd (getBestPractices framework component w))
  = frameworkSources
      (snd (getDocumentationSources (toLowerCase framework) w)).
Proof.
  unfold getBestPractices, bind.
  destruct (getDocumentationSources (toLowerCase framework) w)
    as [sources w1].
  simpl.
  match goal with
  | |- frameworkSources (snd (?m w1)) = _ =>
      assert (R : readOnly m); [|apply (proj1 (R w1))]
  end.
  apply readOnly_if; [apply readOnly_ret|].
  apply readOnly_forEach. intros acc source.
  apply readOnly_forEach. intros acc' section.
  apply readOnly_forEach. intros acc'' topic.
  apply readOnly_bind; [apply readOnly_ensureContent|]. intros t.
  apply readOnly_if; [|apply readOnly_ret].
  apply readOnly_bind; [apply readOnly_extractBestPractices|].
  intros content. apply readOnly_ret.
Qed.

Lemma wellFormed_index (w w' : World) :
  frameworkSources w' = frameworkSources w -> wellFormed w -> wellFormed w'.
Proof. unfold wellFormed. intros ->. auto. Qed.

Lemma keepsSections_index (w w1 w2 : World) :
  frameworkSources w2 = frameworkSources w1 ->
  keepsSections w w1 -> keepsSections w w2.
Proof. unfold keepsSections. intros ->. auto. Qed.

(** The sources of a supported framework in a well-formed index. *)
Lemma wellFormed_supported (w : World) (framework : string) :
  wellFormed w -> supported framework ->
  exists sources,
    lookup (toLowerCase framework) (frameworkSources w) = Some sources
    /\ sources <> [] /\ Forall sectionsNonEmpty sources.
Proof.
  intros [K F] S.
  destruct (frameworkSources w) as [|[k1 v1] [|[k2 v2] [|]]];
    simpl in K; try discriminate K.
  injection K as -> ->.
  inversion F as [|? ? [N1 S1] F']; subst.
  inversion F' as [|? ? [N2 S2] _]; subst. simpl in *.
  destruct S as [-> | ->]; simpl; eauto.
Qed.

End BestPracticesFacts.

(** C9.  The index starts with the two supported frameworks and no section;
    for a supported framework [getDocumentationSources] returns a non-empty
    list of sources in which every section has at least one topic, and no
    operation of the repository ever leaves a section without topic in the
    index: each of the three places where discovery attaches a section
    checks that it has topics. *)
Theorem sections_never_empty :
  (forall service, Docs.wellFormed (Docs.newRepository service))
  /\ (forall w framework,
        Docs.wellFormed w -> Docs.supported framework ->
        let r := Docs.getDocumentationSources framework w in
        fst r <> []
        /\ Forall Docs.sectionsNonEmpty (fst r)
        /\ Docs.wellFormed (snd r))
  /\ (forall w a b,
        Docs.wellFormed w ->
        Docs.wellFormed (snd (Docs.getDocumentationSources a w))
        /\ Docs.wellFormed (snd (Docs.getTopicById a b w))
        /\ Docs.wellFormed (snd (Docs.searchTopics a b w))
        /\ Docs.wellFormed (snd (Docs.getBestPractices a b w))).
Proof.
  split; [|split].
  - intros service. split; [reflexivity|].
    repeat constructor; simpl; discriminate.
  - intros w framework Hw Hs r.
    destruct (wellFormed_supported w framework Hw Hs) as (sources & L & N & S).
    destruct (getDocumentationSources_known framework w sources L)
      as (_ & _ & R).
    fold r in R. split; [|split].
    + apply (Forall2_length_nonempty _ _ _ R N).
    + apply (Forall2_Forall _ _ _ _ _ R S).
    + apply getDocumentationSources_wellFormed. exact Hw.
  - intros w a b Hw. split; [|split; [|split]].
    + apply getDocumentationSources_wellFormed. exact Hw.
    + apply (wellFormed_index w); [|exact Hw].
      apply (proj1 (readOnly_getTopicById a b w)).
    + apply (wellFormed_index w); [|exact Hw].
      apply (proj1 (readOnly_searchTopics a b w)).
    + apply (wellFormed_index
               (snd (Docs.getDocumentationSources (Str.toLowerCase a) w))).
      * apply getBestPractices_index.
      * apply getDocumentationSources_wellFormed. exact Hw.
Qed.

(** Against the example service, whatever the case of the framework name:
    one source, whose only section holds a topic. *)
Lemma sections_never_empty_witness :
  let r :=
    Docs.getDocumentationSources "NestJS" (Docs.newRepository Examples.steady) in
  fst r <> [] /\ Forall Docs.sectionsNonEmpty (fst r) /\ Docs.wellFormed (snd r).
Proof.
  apply (proj1 (proj2 sections_never_empty)).
  - apply (proj1 sections_never_empty).
  - left. reflexivity.
Defined.

(* ===================================================================== *)
(** ** The documentation index: what reads fetch *)
(* ===================================================================== *)

(** Running a sequence: the second step runs on the answer and in the
    state of the first. *)
Lemma bind_run {W A B} (m : StateMonad.State W A)
  (k : A -> StateMonad.State W B) (w : W) :
  StateMonad.bind m k w = k (fst (m w)) (snd (m w)).
Proof. unfold StateMonad.bind. destruct (m w). reflexivity. Qed.

Lemma ret_run {W A} (a : A) (w : W) : StateMonad.ret a w = (a, w).
Proof. reflexivity. Qed.

Section FetchFacts.
Import Str Entities StateMonad Docs Markdown.

Lemma lowerChar_idempotent (c : ascii) : lowerChar (lowerChar c) = lowerChar c.
Proof.
  destruct c as [[] [] [] [] [] [] [] []]; reflexivity.
Qed.

Lemma toLowerCase_idempotent (s : string) :
  toLowerCase (toLowerCase s) = toLowerCase s.
Proof.
  unfold toLowerCase. induction s as [|c s IH]; simpl; [reflexivity|].
  rewrite lowerChar_idempotent, IH. reflexivity.
Qed.

Lemma grows_ret {A} (a : A) : grows (ret a).
Proof. intros w. exists []. simpl. rewrite app_nil_r. reflexivity. Qed.

Lemma grows_axiosGet (url : string) : grows (axiosGet url).
Proof. intros w. exists [url]. reflexivity. Qed.

Lemma grows_storeSources (key : string) (sources : list DocumentationSource) :
  grows (storeSources key sources).
Proof. intros w. exists []. simpl. rewrite app_nil_r. reflexivity. Qed.

Lemma grows_bind {A B} (m : Repo A) (k : A -> Repo B) :
  grows m -> (forall a, grows (k a)) -> grows (bind m k).
Proof.
  intros Hm Hk w. rewrite bind_run.
  destruct (Hm w) as (a1 & E1).
  destruct (Hk (fst (m w)) (snd (m w))) as (a2 & E2).
  exists (a1 ++ a2). rewrite E2, E1, app_assoc. reflexivity.
Qed.

Lemma grows_forEach {A B} (body : B -> A -> Repo B) (xs : list A) (acc : B) :
  (forall acc x, grows (body acc x)) -> grows (forEach body xs acc).
Proof.
  intros H. revert acc. induction xs as [|x xs IH]; simpl; intros acc.
  - apply grows_ret.
  - apply grows_bind; [apply H|exact IH].
Qed.

Lemma grows_traverse {A B} (f : A -> Repo B) (xs : list A) :
  (forall x, grows (f x)) -> grows (traverse f xs).
Proof.
  intros H. induction xs as [|x xs IH]; simpl.
  - apply grows_ret.
  - apply grows_bind; [apply H|intros y].
    apply grows_bind; [exact IH|intros ys; apply grows_ret].
Qed.

Lemma grows_if {A} (b : bool) (m1 m2 : Repo A) :
  grows m1 -> grows m2 -> grows (if b then m1 else m2).
Proof. destruct b; auto. Qed.

Ltac grows :=
  repeat first
    [ apply grows_ret | apply grows_axiosGet | apply grows_storeSources
    | apply grows_forEach; intros ? ?
    | apply grows_traverse; intros ?
    | apply grows_bind; [|intros ?]
    | apply grows_if
    | match goal with
      | |- grows (match ?x with _ => _ end) => destruct x
      | |- grows (let (_, _) := ?x in _) => destruct x
      end ].

Lemma grows_ensureContent (topic : DocumentationTopic) :
  grows (ensureContent topic).
Proof.
  unfold ensureContent, fetchTopicContent, fetchRawGitHubContent. grows.
Qed.

Lemma grows_extractBestPractices (topic : DocumentationTopic) :
  grows (extractBestPractices topic).
Proof.
  unfold extractBestPractices.
  apply grows_bind; [apply grows_ensureContent|intros t; apply grows_ret].
Qed.

Lemma grows_fetchSections (source : DocumentationSource) :
  grows (fetchSections source).
Proof.
  unfold fetchSections, fetchNestJSGitHubSections, fetchNestJSGitHubTopics,
    fetchAngularGitHubSections.
  apply grows_if; [grows|]. apply grows_if; [|apply grows_ret].
  apply grows_bind; [apply grows_axiosGet|]. intros response.
  destruct response as [[items|text|]|]; try apply grows_ret.
  apply grows_bind; [|intros st; apply grows_ret].
  apply grows_forEach. intros [source' sections] item.
  unfold angularItem, fetchAngularDirectoryTopics, fetchRawGitHubContent.
  grows.
Qed.

Lemma grows_getDocumentationSources (framework : string) :
  grows (getDocumentationSources framework).
Proof.
  intros w. unfold getDocumentationSources.
  destruct (lookup (toLowerCase framework) (frameworkSources w))
    as [sources|].
  - apply (grows_bind (traverse loadSource sources)).
    + apply grows_traverse. intros source. unfold loadSource.
      apply grows_if; [apply grows_fetchSections|apply grows_ret].
    + intros loaded. grows.
  - exists []. simpl. rewrite app_nil_r. reflexivity.
Qed.

Lemma asks_bind_l {A B} (url : string) (m : Repo A) (k : A -> Repo B) :
  asks url m -> (forall a, grows (k a)) -> asks url (bind m k).
Proof.
  intros Hm Hk w. rewrite bind_run.
  destruct (Hm w) as (a1 & E1 & I).
  destruct (Hk (fst (m w)) (snd (m w))) as (a2 & E2).
  exists (a1 ++ a2). rewrite E2, E1, app_assoc.
  split; [reflexivity|]. apply in_or_app. left. exact I.
Qed.

Lemma asks_bind_r {A B} (url : string) (m : Repo A) (k : A -> Repo B) :
  grows m -> (forall a, asks url (k a)) -> asks url (bind m k).
Proof.
  intros Hm Hk w. rewrite bind_run.
  destruct (Hm w) as (a1 & E1).
  destruct (Hk (fst (m w)) (snd (m w))) as (a2 & E2 & I).
  exists (a1 ++ a2). rewrite E2, E1, app_assoc.
  split; [reflexivity|]. apply in_or_app. right. exact I.
Qed.

(** A loop whose turn for [x] makes a request makes it when [x] is among
    the elements it runs over. *)
Lemma asks_forEach {A B} (url : string) (body : B -> A -> Repo B)
  (xs : list A) (x : A) :
  In x xs ->
  (forall acc y, grows (body acc y)) ->
  (forall acc, asks url (body acc x)) ->
  forall acc, asks url (forEach body xs acc).
Proof.
  intros Hin G H. induction xs as [|y xs IH]; [destruct Hin|].
  intros acc. simpl. destruct Hin as [->|Hin].
  - apply asks_bind_l; [apply H|]. intros acc'. apply grows_forEach. exact G.
  - apply asks_bind_r; [apply G|]. intros acc'. apply IH. exact Hin.
Qed.

(** Ensuring the content of a topic stored without content asks for it. *)
Lemma ensureContent_requests (topic : DocumentationTopic) (w : World) :
  requests (snd (ensureContent topic w))
  = requests w ++ contentRequests [topic].
Proof.
  unfold ensureContent, contentRequests. cbn [flat_map].
  destruct (truthy (topicContent topic)); cbn [negb app].
  - rewrite ret_run. cbn [snd]. rewrite app_nil_r. reflexivity.
  - unfold fetchTopicContent, fetchRawGitHubContent.
    rewrite !bind_run, !ret_run. reflexivity.
Qed.

Lemma asks_ensureContent (topic : DocumentationTopic) :
  truthy (topicContent topic) = false ->
  asks (rawUrlOf topic) (ensureContent topic).
Proof.
  intros H w. exists (contentRequests [topic]).
  split; [apply ensureContent_requests|].
  unfold contentRequests. cbn [flat_map]. rewrite H. left. reflexivity.
Qed.

(** The requests of a loop whose turns make requests that depend on the
    element only. *)
Lemma forEach_requests {A B} (body : B -> A -> Repo B)
  (urls : A -> list string) (xs : list A) :
  (forall acc x w, requests (snd (body acc x w)) = requests w ++ urls x) ->
  forall acc w,
    requests (snd (forEach body xs acc w)) = requests w ++ flat_map urls xs.
Proof.
  intros H. induction xs as [|x xs IH]; intros acc w; cbn [forEach flat_map].
  - rewrite ret_run. cbn [snd]. rewrite app_nil_r. reflexivity.
  - rewrite bind_run, IH, H, app_assoc. reflexivity.
Qed.

Lemma flat_map_nested {A B C} (f : B -> list C) (g : A -> list B)
  (xs : list A) :
  flat_map (fun x => flat_map f (g x)) xs = flat_map f (flat_map g xs).
Proof.
  induction xs as [|x xs IH]; simpl; [reflexivity|].
  rewrite flat_map_app, IH. reflexivity.
Qed.

(** [searchTopics] asks for the content of every topic of the source that
    is stored without content, once, in order. *)
Lemma searchTopics_requests (sourceId' query : string) (w : World)
  (source : DocumentationSource) :
  findSource sourceId' (allSources w) = Some source ->
  requests (snd (searchTopics sourceId' query w))
  = requests w ++ contentRequests (allTopics source).
Proof.
  intros F. unfold searchTopics. rewrite F.
  rewrite (forEach_requests _
             (fun section => contentRequests (getTopics section))).
  - unfold contentRequests, allTopics. rewrite flat_map_nested. reflexivity.
  - intros acc section w0.
    rewrite (forEach_requests _ (fun topic => contentRequests [topic])).
    + f_equal. unfold contentRequests. apply flat_map_ext.
      intros topic. cbn [flat_map]. apply app_nil_r.
    + intros acc' topic w1. rewrite bind_run, ret_run.
      apply ensureContent_requests.
Qed.

Lemma Forall2_In_l {A B} (R : A -> B -> Prop) (xs : list A) (ys : list B)
  (x : A) :
  Forall2 R xs ys -> In x xs -> exists y, In y ys /\ R x y.
Proof.
  induction 1 as [|a b xs ys H _ IH]; intros Hin; [destruct Hin|].
  destruct Hin as [<-|Hin].
  - exists b. split; [left; reflexivity|exact H].
  - destruct (IH Hin) as (y & I & Ry). exists y. split; [right|]; assumption.
Qed.

(** A source of the same key, with the sections of the first in place. *)
Lemma keepsSections_lookup (w w' : World) (key : string)
  (sources : list DocumentationSource) :
  keepsSections w w' ->
  lookup key (frameworkSources w) = Some sources ->
  exists sources',
    lookup key (frameworkSources w') = Some sources'
    /\ Forall2 extends sources sources'.
Proof.
  unfold keepsSections.
  induction 1 as [|[k v] [k' v'] l l' [K R] _ IH]; simpl; [discriminate|].
  simpl in K, R. subst k'.
  destruct (String.eqb k key); [|exact IH].
  intros [= <-]. exists v'. split; [reflexivity|exact R].
Qed.

Lemma extends_topics (before after : DocumentationSource)
  (topic : DocumentationTopic) :
  extends before after -> In topic (allTopics before) ->
  In topic (allTopics after).
Proof.
  intros (_ & _ & _ & _ & added & E) I. unfold allTopics in *.
  rewrite E, flat_map_app. apply in_or_app. left. exact I.
Qed.

(** [getBestPractices] asks for the content of every topic stored without
    content in a source of the framework. *)
Lemma getBestPractices_asks (framework component : string) (w : World)
  (sources : list DocumentationSource) (source : DocumentationSource)
  (topic : DocumentationTopic) :
  lookup (toLowerCase framework) (frameworkSources w) = Some sources ->
  In source sources ->
  In topic (allTopics source) ->
  truthy (topicContent topic) = false ->
  exists added,
    requests (snd (getBestPractices framework component w))
    = requests w ++ added
    /\ In (rawUrlOf topic) added.
Proof.
  intros L Is It T.
  assert (L' : lookup (toLowerCase (toLowerCase framework))
                 (frameworkSources w) = Some sources)
    by (rewrite toLowerCase_idempotent; exact L).
  destruct (getDocumentationSources_known (toLowerCase framework) w sources L')
    as (_ & _ & R).
  destruct (Forall2_In_l _ _ _ source R Is) as (loaded & Il & (X & _)).
  pose proof (extends_topics _ _ topic X It) as Itl.
  unfold allTopics in Itl. apply in_flat_map in Itl.
  destruct Itl as (section & Isec & Itop).
  destruct (grows_getDocumentationSources (toLowerCase framework) w)
    as (a1 & E1).
  unfold getBestPractices. rewrite bind_run.
  destruct (fst (getDocumentationSources (toLowerCase framework) w))
    as [|first others] eqn:S; [destruct Il|].
  cbn [List.length Nat.eqb].
  match goal with
  | |- exists added, requests (snd (?m ?w1)) = _ /\ _ =>
      assert (A : asks (rawUrlOf topic) m)
  end.
  { assert (G : forall acc t,
               grows
                 (topicWithContent <- ensureContent t ;;
                  if mentions (toLowerCase component) topicWithContent
                  then
                    content <- extractBestPractices topicWithContent ;;
                    ret (if 0 <? List.length content
                         then acc ++ content else acc)
                  else ret acc)).
    { intros acc t. apply grows_bind; [apply grows_ensureContent|].
      intros tw. apply grows_if; [|apply grows_ret].
      apply grows_bind; [apply grows_extractBestPractices|].
      intros content. apply grows_ret. }
    apply (asks_forEach _ _ _ loaded Il).
    - intros acc src. apply grows_forEach. intros acc1 sec.
      apply grows_forEach. intros acc2 t. apply G.
    - intros acc. apply (asks_forEach _ _ _ section Isec).
      + intros acc1 sec. apply grows_forEach. intros acc2 t. apply G.
      + intros acc1. apply (asks_forEach _ _ _ topic Itop).
        * intros acc2 t. apply G.
        * intros acc2. apply asks_bind_l; [apply asks_ensureContent; exact T|].
          intros tw. apply grows_if; [|apply grows_ret].
          apply grows_bind; [apply grows_extractBestPractices|].
          intros content. apply grows_ret. }
  destruct (A (snd (getDocumentationSources (toLowerCase framework) w)))
    as (a2 & E2 & I2).
  exists (a1 ++ a2). rewrite E2, E1, app_assoc.
  split; [reflexivity|]. apply in_or_app. right. exact I2.
Qed.

End FetchFacts.

(** C10.  The three read operations never replace or change a topic stored
    in the index: [getTopicById] and [searchTopics] leave the index as it
    is, [getBestPractices] at most appends the sections of a discovery to
    sources that had none.  The upgraded topic is only returned: a stored
    topic without content is still stored without content after a call, and
    each later call fetches its content again.  Two calls of [getTopicById]
    in a row ask twice for the content of the topic found; two calls of
    [searchTopics] in a row ask twice for the content of every topic of the
    source that is stored without content, in order; and each of two calls
    of [getBestPractices] in a row asks for the content of every topic
    stored without content in a source of the framework. *)
Theorem reads_keep_stored_topics (w : Docs.World) (a b : string) :
  Docs.frameworkSources (snd (Docs.getTopicById a b w)) = Docs.frameworkSources w
  /\ Docs.frameworkSources (snd (Docs.searchTopics a b w))
     = Docs.frameworkSources w
  /\ Docs.keepsSections w (snd (Docs.getBestPractices a b w))
  /\ (forall topic,
        Docs.findTopic a b (Docs.allSources w) = Some topic ->
        Str.truthy (Entities.topicContent topic) = false ->
        let w1 := snd (Docs.getTopicById a b w) in
        let w2 := snd (Docs.getTopicById a b w1) in
        Docs.findTopic a b (Docs.allSources w1) = Some topic
        /\ Docs.requests w1 = Docs.requests w ++ [Docs.rawUrlOf topic]
        /\ Docs.requests w2
           = Docs.requests w ++ [Docs.rawUrlOf topic; Docs.rawUrlOf topic])
  /\ (forall source,
        Docs.findSource a (Docs.allSources w) = Some source ->
        let fetched := Docs.contentRequests (Docs.allTopics source) in
        let w1 := snd (Docs.searchTopics a b w) in
        let w2 := snd (Docs.searchTopics a b w1) in
        Docs.findSource a (Docs.allSources w1) = Some source
        /\ Docs.requests w1 = Docs.requests w ++ fetched
        /\ Docs.requests w2 = Docs.requests w ++ fetched ++ fetched)
  /\ (forall sources source topic,
        Docs.lookup (Str.toLowerCase a) (Docs.frameworkSources w)
        = Some sources ->
        In source sources ->
        In topic (Docs.allTopics source) ->
        Str.truthy (Entities.topicContent topic) = false ->
        let w1 := snd (Docs.getBestPractices a b w) in
        let w2 := snd (Docs.getBestPractices a b w1) in
        exists first second,
          Docs.requests w1 = Docs.requests w ++ first
          /\ In (Docs.rawUrlOf topic) first
          /\ Docs.requests w2 = Docs.requests w1 ++ second
          /\ In (Docs.rawUrlOf topic) second).
Proof.
  assert (K : Docs.keepsSections w (snd (Docs.getBestPractices a b w))).
  { apply (keepsSections_index w
             (snd (Docs.getDocumentationSources (Str.toLowerCase a) w))).
    - apply getBestPractices_index.
    - apply getDocumentationSources_keepsSections. }
  split; [apply (proj1 (readOnly_getTopicById a b w))|].
  split; [apply (proj1 (readOnly_searchTopics a b w))|].
  split; [exact K|]. split; [|split].
  - intros topic Hfind Hempty w1 w2.
    assert (F1 : Docs.findTopic a b (Docs.allSources w1) = Some topic).
    { unfold Docs.allSources, w1.
      rewrite (proj1 (readOnly_getTopicById a b w)). exact Hfind. }
    assert (R : forall w0,
               Docs.findTopic a b (Docs.allSources w0) = Some topic ->
               Docs.requests (snd (Docs.getTopicById a b w0))
               = Docs.requests w0 ++ [Docs.rawUrlOf topic]).
    { intros w0 H0. unfold Docs.getTopicById. rewrite H0, Hempty. reflexivity. }
    split; [exact F1|]. split; [apply R; exact Hfind|].
    unfold w2. rewrite (R w1 F1). unfold w1. rewrite (R w Hfind).
    rewrite <- app_assoc. reflexivity.
  - intros source Hfind fetched w1 w2.
    assert (F1 : Docs.findSource a (Docs.allSources w1) = Some source).
    { unfold Docs.allSources, w1.
      rewrite (proj1 (readOnly_searchTopics a b w)). exact Hfind. }
    split; [exact F1|]. split; [apply searchTopics_requests; exact Hfind|].
    unfold w2. rewrite (searchTopics_requests a b w1 source F1).
    unfold w1. rewrite (searchTopics_requests a b w source Hfind).
    rewrite <- app_assoc. reflexivity.
  - intros sources source topic L Is It T w1 w2.
    destruct (getBestPractices_asks a b w sources source topic L Is It T)
      as (first & E1 & I1).
    destruct (keepsSections_lookup w w1 (Str.toLowerCase a) sources K L)
      as (sources1 & L1 & X).
    destruct (Forall2_In_l _ _ _ source X Is) as (source1 & Is1 & X1).
    destruct (getBestPractices_asks a b w1 sources1 source1 topic L1 Is1
                (extends_topics _ _ topic X1 It) T)
      as (second & E2 & I2).
    exists first, second. repeat split; assumption.
Qed.

(** On the example index the page is stored without content; two lookups
    later it still is, and its content was fetched twice; two searches
    fetch it twice as well. *)
Lemma reads_keep_stored_topics_witness :
  let w := Examples.discovered Examples.steady in
  let w1 := snd (Docs.getTopicById "nestjs-github" "topic-caching" w) in
  let w2 := snd (Docs.getTopicById "nestjs-github" "topic-caching" w1) in
  let s1 := snd (Docs.searchTopics "nestjs-github" "caching" w) in
  let s2 := snd (Docs.searchTopics "nestjs-github" "caching" s1) in
  Docs.frameworkSources w2 = Docs.frameworkSources w
  /\ Docs.requests w2
     = Docs.requests w ++ [Examples.cachingRaw; Examples.cachingRaw]
  /\ Docs.requests s2
     = Docs.requests w ++ [Examples.cachingRaw] ++ [Examples.cachingRaw].
Proof.
  intros w w1 w2 s1 s2. split; [|split].
  - unfold w2.
    rewrite (proj1 (reads_keep_stored_topics w1 "nestjs-github" "topic-caching")).
    apply (proj1 (reads_keep_stored_topics w "nestjs-github" "topic-caching")).
  - apply (proj1 (proj2 (proj2 (proj2
             (reads_keep_stored_topics w "nestjs-github" "topic-caching"))))
             (Entities.mkTopic "topic-caching" "Caching" Examples.cachingPage
                EmptyString [] []));
      reflexivity.
  - destruct (proj1 (proj2 (proj2 (proj2 (proj2
                (reads_keep_stored_topics w "nestjs-github" "caching")))))
                (Entities.mkSource "nestjs-github"
                   "NestJS Documentation (GitHub)"
                   "https://github.com/nestjs/docs.nestjs.com/tree/master/content"
                   "master"
                   [Entities.mkSection "section-techniques" "Techniques"
                      "https://github.com/nestjs/docs.nestjs.com/tree/master/content/techniques"
                      [Entities.mkTopic "topic-caching" "Caching"
                         Examples.cachingPage EmptyString [] []]])
                eq_refl)
      as (_ & _ & R).
    exact R.
Defined.

(** On the example index a second call of [getBestPractices] asks again
    for the page the first call asked for. *)
Example getBestPractices_fetches_again :
  let w := Examples.discovered Examples.steady in
  let w1 := snd (Docs.getBestPractices "nestjs" "caching" w) in
  let w2 := snd (Docs.getBestPractices "nestjs" "caching" w1) in
  Docs.requests w1 = Docs.requests w ++ [Examples.cachingRaw]
  /\ Docs.requests w2 = Docs.requests w1 ++ [Examples.cachingRaw].
Proof. split; vm_compute; reflexivity. Qed.

(* ===================================================================== *)
(** ** The documentation index: search and lookup *)
(* ===================================================================== *)

Section SearchFacts.
Import Str Entities StateMonad Docs Markdown.

Lemma includes_empty (s : string) : includes s EmptyString = true.
Proof. destruct s; reflexivity. Qed.

(** The empty query matches every topic. *)
Lemma mentions_empty (topic : DocumentationTopic) :
  mentions (toLowerCase EmptyString) topic = true.
Proof. unfold mentions. simpl toLowerCase. rewrite includes_empty. reflexivity. Qed.

Lemma traverse_app {W A B} (f : A -> State W B) (xs ys : list A) (w : W) :
  traverse f (xs ++ ys) w
  = let (a, w1) := traverse f xs w in
    let (b, w2) := traverse f ys w1 in (a ++ b, w2).
Proof.
  revert w. induction xs as [|x xs IH]; simpl; intros w.
  - unfold ret. destruct (traverse f ys w). reflexivity.
  - unfold bind. destruct (f x w) as [y w1]. rewrite IH.
    destruct (traverse f xs w1) as [a w2]. unfold ret. simpl.
    destruct (traverse f ys w2) as [b w3]. reflexivity.
Qed.

(** The inner loop of [searchTopics] under the empty query: every topic of
    the section is appended, content ensured, in order. *)
Lemma search_section_all (topics : list DocumentationTopic)
  (results : list DocumentationTopic) (w : World) :
  forEach
    (fun results topic =>
       topicWithContent <- ensureContent topic ;;
       ret (if mentions (toLowerCase EmptyString) topicWithContent
            then results ++ [topicWithContent] else results))
    topics results w
  = let (loaded, w') := traverse ensureContent topics w in
    (results ++ loaded, w').
Proof.
  revert results w. induction topics as [|topic topics IH]; simpl;
    intros results w.
  - unfold ret. rewrite app_nil_r. reflexivity.
  - unfold bind. destruct (ensureContent topic w) as [t w1].
    rewrite mentions_empty. unfold ret at 1. rewrite IH.
    destruct (traverse ensureContent topics w1) as [ts w2].
    unfold ret. rewrite <- app_assoc. reflexivity.
Qed.

Lemma search_source_all (sections : list DocumentationSection)
  (results : list DocumentationTopic) (w : World) :
  forEach
    (fun results section =>
       forEach
         (fun results topic =>
            topicWithContent <- ensureContent topic ;;
            ret (if mentions (toLowerCase EmptyString) topicWithContent
                 then results ++ [topicWithContent] else results))
         (getTopics section) results)
    sections results w
  = let (loaded, w') :=
      traverse ensureContent (flat_map getTopics sections) w in
    (results ++ loaded, w').
Proof.
  revert results w. induction sections as [|section sections IH]; simpl;
    intros results w.
  - unfold ret. rewrite app_nil_r. reflexivity.
  - unfold bind. rewrite search_section_all, traverse_app.
    destruct (traverse ensureContent (getTopics section) w) as [a w1].
    rewrite IH.
    destruct (traverse ensureContent (flat_map getTopics sections) w1)
      as [b w2].
    rewrite app_assoc. reflexivity.
Qed.

(** Ensuring the content of a topic keeps its identity, and keeps the topic
    itself when it had its content. *)
Lemma ensureContent_upgradeOf (topic : DocumentationTopic) :
  returns (ensureContent topic) (upgradeOf topic).
Proof.
  intros w. unfold ensureContent.
  destruct (truthy (topicContent topic)) eqn:E; simpl.
  - repeat split; reflexivity.
  - unfold fetchTopicContent, bind, fetchRawGitHubContent, axiosGet, ret.
    simpl.
    destruct (remote w (List.length (requests w)) (rawUrlOf topic))
      as [[items|c|]|]; simpl; repeat split; try reflexivity;
      intros H; congruence.
Qed.

Lemma upgradeOf_ids (stored returned : list DocumentationTopic) :
  Forall2 upgradeOf stored returned ->
  map topicId returned = map topicId stored.
Proof.
  induction 1 as [|s r ss rs (H & _) _ IH]; simpl; [reflexivity|].
  rewrite H, IH. reflexivity.
Qed.

End SearchFacts.

(** C5.  For a known source, [searchTopics] with the empty query returns
    every topic of the source, section after section and topic after topic:
    each returned topic is the stored one, with its content fetched when it
    had none. *)
Theorem searchTopics_empty_query (w : Docs.World) (sourceId' : string)
  (source : Entities.DocumentationSource) :
  Docs.findSource sourceId' (Docs.allSources w) = Some source ->
  Docs.searchTopics sourceId' EmptyString w
  = StateMonad.traverse Docs.ensureContent (Docs.allTopics source) w
  /\ map Entities.topicId (fst (Docs.searchTopics sourceId' EmptyString w))
     = map Entities.topicId (Docs.allTopics source)
  /\ Forall2 Docs.upgradeOf (Docs.allTopics source)
       (fst (Docs.searchTopics sourceId' EmptyString w)).
Proof.
  intros H.
  assert (E : Docs.searchTopics sourceId' EmptyString w
              = StateMonad.traverse Docs.ensureContent (Docs.allTopics source) w).
  { unfold Docs.searchTopics. rewrite H.
    rewrite (search_source_all (Entities.getSections source) [] w).
    unfold Docs.allTopics.
    destruct (StateMonad.traverse Docs.ensureContent
                (flat_map Entities.getTopics (Entities.getSections source)) w).
    reflexivity. }
  assert (U : Forall2 Docs.upgradeOf (Docs.allTopics source)
                (fst (Docs.searchTopics sourceId' EmptyString w))).
  { rewrite E. apply (returns_traverse Docs.ensureContent Docs.upgradeOf).
    apply ensureContent_upgradeOf. }
  split; [exact E|]. split; [|exact U].
  apply upgradeOf_ids. exact U.
Qed.

(** On the example index, the empty query returns the one page of the
    source, with its content. *)
Lemma searchTopics_empty_query_witness :
  map Entities.topicId
    (fst (Docs.searchTopics "nestjs-github" EmptyString
            (Examples.discovered Examples.steady)))
  = ["topic-caching"].
Proof.
  rewrite (proj1 (proj2 (searchTopics_empty_query
                           (Examples.discovered Examples.steady)
                           "nestjs-github" _ eq_refl))).
  reflexivity.
Defined.




(** The two results of that run. *)
Example getTopicById_regresses :
  let w := Examples.discovered Examples.flaky in
  let first := Docs.getTopicById "nestjs-github" "topic-caching" w in
  let second := Docs.getTopicById "nestjs-github" "topic-caching" (snd first) in
  option_map Entities.topicContent (fst first) = Some Examples.cachingText
  /\ option_map Entities.topicContent (fst second) = Some EmptyString.
Proof. split; vm_compute; reflexivity. Qed.

(* ===================================================================== *)
(** * Further properties of the code *)
(* ===================================================================== *)

(* ===================================================================== *)
(** ** Prefixes, suffixes and occurrences *)
(* ===================================================================== *)

Section OccurrenceFacts.
Import Str.

Lemma startsWith_prefix (s p : string) :
  startsWith s p = true <-> exists t, s = p +++ t.
Proof.
  revert s. induction p as [|a p IH]; intros s; simpl.
  - split; [intros _; exists s; reflexivity|reflexivity].
  - destruct s as [|b s].
    + split; [discriminate|intros [t E]; discriminate E].
    + rewrite Bool.andb_true_iff, Ascii.eqb_eq, IH. split.
      * intros [-> [t ->]]. exists t. reflexivity.
      * intros [t E]. injection E as -> ->. split; [reflexivity|].
        exists t. reflexivity.
Qed.

Lemma includes_infix (s p : string) : includes s p = true <-> infix p s.
Proof.
  induction s as [|b s IH]; simpl.
  - rewrite Bool.orb_false_r, startsWith_prefix. split.
    + intros [t E]. exists EmptyString, t. exact E.
    + intros ([|x a] & t & E); [exists t; exact E|discriminate E].
  - rewrite Bool.orb_true_iff, startsWith_prefix, IH. split.
    + intros [[t E]|(a & t & E)].
      * exists EmptyString, t. exact E.
      * exists (String b a), t. simpl. rewrite E. reflexivity.
    + intros ([|x a] & t & E).
      * left. exists t. exact E.
      * right. simpl in E. injection E as _ E. exists a, t. exact E.
Qed.

Lemma includes_false (s p : string) :
  includes s p = false <-> ~ infix p s.
Proof.
  rewrite <- includes_infix. destruct (includes s p); split; intros H;
    try reflexivity; try discriminate; try (intros E; discriminate E).
  exfalso. apply H. reflexivity.
Qed.

Lemma endsWith_suffix (s p : string) :
  endsWith s p = true <-> exists a, s = a +++ p.
Proof.
  unfold endsWith. rewrite Bool.andb_true_iff, Nat.leb_le, String.eqb_eq.
  split.
  - intros [_ E]. exists (take (String.length s - String.length p) s).
    transitivity
      (take (String.length s - String.length p) s
       +++ drop (String.length s - String.length p) s);
      [symmetry; apply take_drop|f_equal; exact E].
  - intros [a ->]. rewrite length_append. split; [lia|].
    replace (String.length a + String.length p - String.length p)
      with (String.length a) by lia.
    apply drop_append.
Qed.

(** A suffix of a text is a prefix of the text read backwards. *)
Lemma endsWith_rev (s p : string) :
  endsWith s p = true -> startsWith (rev s) (rev p) = true.
Proof.
  rewrite endsWith_suffix, startsWith_prefix. intros [a ->].
  exists (rev a). apply rev_append.
Qed.

End OccurrenceFacts.

(* ===================================================================== *)
(** ** The file classifier: where a kind comes from *)
(* ===================================================================== *)

Section KindFacts.
Import Entities Classifier Str.

(** Takes the rules of a decision table one by one: the hypothesis [H]
    says which kind the table gave. *)
Ltac walk_table H :=
  repeat match type of H with
         | (if ?c then _ else _) = _ =>
             let E := fresh "E" in
             destruct c eqn:E; [try discriminate H|]
         end.

(** Two suffixes of one text agree from the right. *)
Ltac suffixes_clash H1 H2 :=
  apply endsWith_rev in H1; apply endsWith_rev in H2;
  apply startsWith_prefix in H1; apply startsWith_prefix in H2;
  destruct H1 as [? H1]; destruct H2 as [? H2];
  simpl in H1, H2; congruence.

Lemma not_code_suffix (path ext : string) :
  In ext [".html"; ".css"; ".scss"; ".json"; ".yml"; ".yaml"] ->
  endsWith path ext = true ->
  endsWith path ".ts" = false /\ endsWith path ".js" = false.
Proof.
  intros Hin H. simpl in Hin.
  split.
  - destruct (endsWith path ".ts") eqn:T; [exfalso|reflexivity].
    repeat (destruct Hin as [<-|Hin]; [suffixes_clash H T|]). contradiction.
  - destruct (endsWith path ".js") eqn:T; [exfalso|reflexivity].
    repeat (destruct Hin as [<-|Hin]; [suffixes_clash H T|]). contradiction.
Qed.

Lemma detectLanguage_not_code (path ext : string) :
  In ext [".html"; ".css"; ".scss"; ".json"; ".yml"; ".yaml"] ->
  endsWith path ext = true ->
  isCode (detectLanguage path LANG_UNKNOWN) = false.
Proof.
  intros Hin H. destruct (not_code_suffix path ext Hin H) as [T J].
  unfold detectLanguage. rewrite T, J.
  repeat match goal with
         | |- isCode (if ?c then _ else _) = false => destruct c
         end; reflexivity.
Qed.

(** X1.  A file whose language is not given and whose path ends in
    [.html], [.css], [.scss], [.json], [.yml] or [.yaml] is returned with
    its path and content, a language that is not a code language, and the
    unknown kind, whatever its content: the path rules are skipped, so
    [package.json] is never classified as a configuration file. *)
Theorem detectFileType_not_code (path content ext : string) :
  In ext [".html"; ".css"; ".scss"; ".json"; ".yml"; ".yaml"] ->
  Str.endsWith path ext = true ->
  let detected :=
    Classifier.detectFileType
      (Entities.mkCodeFile path content Entities.LANG_UNKNOWN Entities.UNKNOWN) in
  Entities.getPath detected = path
  /\ Entities.getContent detected = content
  /\ Classifier.isCode (Entities.getLanguage detected) = false
  /\ Entities.getFileType detected = Entities.UNKNOWN.
Proof.
  intros Hin H detected. unfold detected.
  rewrite detectFileType_unknown.
  cbn [getPath getContent getLanguage getFileType].
  pose proof (detectLanguage_not_code path ext Hin H) as L.
  repeat split; [exact L|].
  unfold detectedKind. rewrite L. reflexivity.
Qed.

Lemma detectFileType_not_code_witness :
  let detected :=
    Classifier.detectFileType
      (Entities.mkCodeFile "package.json" "@Controller" Entities.LANG_UNKNOWN
         Entities.UNKNOWN) in
  Entities.getLanguage detected = Entities.JSON
  /\ Entities.getFileType detected = Entities.UNKNOWN.
Proof.
  split; [reflexivity|].
  apply (detectFileType_not_code "package.json" "@Controller" ".json");
    [simpl; tauto|reflexivity].
Defined.

Lemma classifyByPath_angular (path : string) :
  (classifyByPath path = ANGULAR_SERVICE -> endsWith path ".service" = true)
  /\ (classifyByPath path = ANGULAR_MODULE -> endsWith path ".module" = true)
  /\ (classifyByPath path = ANGULAR_PIPE -> endsWith path ".pipe" = true).
Proof.
  unfold classifyByPath.
  repeat split; intros H; walk_table H; try discriminate H;
    repeat match goal with
           | E : _ || _ = false |- _ =>
               apply Bool.orb_false_elim in E; destruct E
           end;
    try match goal with
        | E : includes ?x ?p || _ = true, F : includes ?x ?p = false |- _ =>
            rewrite F in E
        end;
    assumption.
Qed.

Lemma code_suffix (path : string) :
  isCode (detectLanguage path LANG_UNKNOWN) = true ->
  endsWith path ".ts" = true \/ endsWith path ".js" = true.
Proof.
  unfold detectLanguage.
  destruct (endsWith path ".ts"); [left; reflexivity|].
  destruct (endsWith path ".js"); [right; reflexivity|].
  intros H.
  repeat match type of H with
         | isCode (if ?c then _ else _) = true => destruct c
         end; discriminate H.
Qed.

Lemma code_suffix_clash (path ext : string) :
  In ext [".service"; ".module"; ".pipe"] ->
  endsWith path ".ts" = true \/ endsWith path ".js" = true ->
  endsWith path ext = true -> False.
Proof.
  intros Hin [T|T] H; simpl in Hin;
    repeat (destruct Hin as [<-|Hin]; [suffixes_clash H T|]); contradiction.
Qed.

(** X2.  For a file whose language is read off its path, the kinds
    Angular service, Angular module and Angular pipe never come from the
    path: the rows of the path table that name them are shadowed by the
    NestJS rows above them, and a path that ends in [.ts] or [.js] does not
    end in [.service], [.module] or [.pipe].  Such a kind is the answer of
    the content table. *)
Theorem angular_kinds_from_content (path content : string) :
  let kind :=
    Entities.getFileType
      (Classifier.detectFileType
         (Entities.mkCodeFile path content Entities.LANG_UNKNOWN
            Entities.UNKNOWN)) in
  In kind [Entities.ANGULAR_SERVICE; Entities.ANGULAR_MODULE;
           Entities.ANGULAR_PIPE] ->
  Classifier.classifyByPath path = Entities.UNKNOWN
  /\ kind = Classifier.classifyByContent content.
Proof.
  intros kind. unfold kind. rewrite detectFileType_unknown.
  cbn [getPath getContent getLanguage getFileType].
  unfold detectedKind.
  destruct (isCode (detectLanguage path LANG_UNKNOWN)) eqn:L.
  - pose proof (code_suffix path L) as S.
    destruct (classifyByPath_angular path) as (A & B & C).
    destruct (classifyByPath path) eqn:K; simpl; intros Hin;
      try (split; reflexivity);
      try (exfalso; intuition discriminate).
    + exfalso. apply (code_suffix_clash path ".service"); simpl; auto.
    + exfalso. apply (code_suffix_clash path ".module"); simpl; auto.
    + exfalso. apply (code_suffix_clash path ".pipe"); simpl; auto.
  - simpl. intros Hin. exfalso. intuition discriminate.
Qed.

Lemma angular_kinds_from_content_witness :
  Classifier.classifyByPath "hero.service.ts" = Entities.NESTJS_SERVICE
  /\ Classifier.classifyByPath "store.ts" = Entities.UNKNOWN
  /\ Entities.getFileType
       (Classifier.detectFileType
          (Entities.mkCodeFile "store.ts" "@Injectable() export class Store {}"
             Entities.LANG_UNKNOWN Entities.UNKNOWN))
     = Classifier.classifyByContent "@Injectable() export class Store {}".
Proof.
  split; [reflexivity|].
  apply (angular_kinds_from_content "store.ts"
           "@Injectable() export class Store {}").
  simpl. left. reflexivity.
Defined.

Lemma classifyByContent_kinds (content : string) :
  classifyByContent content <> NESTJS_MIDDLEWARE
  /\ classifyByContent content <> TEST
  /\ classifyByContent content <> CONFIGURATION.
Proof.
  unfold classifyByContent.
  repeat split; intros H; walk_table H; discriminate H.
Qed.

(** X3.  Three kinds are given by the path only: no content makes a file
    a NestJS middleware, a test or a configuration file.  A file of
    unknown kind that is returned with one of them has a path with the
    fragment of that kind. *)
Theorem kinds_by_path_only (path content : string)
  (language : Entities.CodeLanguage) :
  let kind :=
    Entities.getFileType
      (Classifier.detectFileType
         (Entities.mkCodeFile path content language Entities.UNKNOWN)) in
  (kind = Entities.NESTJS_MIDDLEWARE ->
   Str.includes path ".middleware." = true)
  /\ (kind = Entities.TEST ->
      Str.includes path ".spec." || Str.includes path ".test." = true)
  /\ (kind = Entities.CONFIGURATION ->
      Str.includes path "package.json" || Str.includes path "tsconfig.json"
      || Str.includes path "angular.json" || Str.includes path "nest-cli.json"
      = true).
Proof.
  intros kind. unfold kind. rewrite detectFileType_unknown.
  cbn [getPath getContent getLanguage getFileType].
  unfold detectedKind.
  destruct (classifyByContent_kinds content) as (M & T & C).
  destruct (isCode (detectLanguage path language));
    [|simpl; repeat split; discriminate].
  assert (P : forall k, In k [NESTJS_MIDDLEWARE; TEST; CONFIGURATION] ->
              (if CodeFileType_eqb (classifyByPath path) UNKNOWN && true
               then classifyByContent content else classifyByPath path) = k ->
              classifyByPath path = k).
  { intros k Hk. destruct (classifyByPath path) eqn:K; simpl; intros E;
      try exact E.
    simpl in Hk. exfalso. intuition congruence. }
  repeat split; intros H; apply P in H; simpl; auto;
    unfold classifyByPath in H; walk_table H; try discriminate H;
    first [reflexivity|assumption].
Qed.

End KindFacts.

Lemma kinds_by_path_only_witness :
  Entities.getFileType
    (Classifier.detectFileType
       (Entities.mkCodeFile "auth.middleware.ts" "export class Auth {}"
          Entities.LANG_UNKNOWN Entities.UNKNOWN))
  = Entities.NESTJS_MIDDLEWARE
  /\ Str.includes "auth.middleware.ts" ".middleware." = true.
Proof.
  split; [reflexivity|].
  apply (proj1 (kinds_by_path_only "auth.middleware.ts" "export class Auth {}"
                  Entities.LANG_UNKNOWN)).
  reflexivity.
Defined.

(* ===================================================================== *)
(** ** The analyzer: what runs for which file *)
(* ===================================================================== *)

Section TraverseFacts.
Import StateMonad.

Context {W A B : Type}.
Variable f : A -> State W B.

(** What holds of every answer of [f] holds, element by element, of the
    answers of a loop over a list. *)
Lemma traverse_Forall2 (R : A -> B -> Prop) :
  (forall x w, R x (fst (f x w))) ->
  forall xs w, Forall2 R xs (fst (traverse f xs w)).
Proof.
  intros H xs. induction xs as [|x xs IH]; intros w; simpl.
  - constructor.
  - unfold bind, ret. specialize (H x w). destruct (f x w) as [y w1].
    specialize (IH w1). destruct (traverse f xs w1) as [ys w2]. simpl in *.
    constructor; assumption.
Qed.

Lemma traverse_map {C} (g : B -> C) (h : A -> C) :
  (forall x w, g (fst (f x w)) = h x) ->
  forall xs w, map g (fst (traverse f xs w)) = map h xs.
Proof.
  intros H xs w.
  pose proof (traverse_Forall2 (fun x y => g y = h x) H xs w) as F.
  induction F as [|x y xs ys E F IH]; simpl; [reflexivity|].
  rewrite E, IH. reflexivity.
Qed.

End TraverseFacts.

Section AnalyzerCoverage.
Import Str Entities Tree StateMonad Classifier Rules Ports Analyzer Tools.

Context {W : Type} {documentationRepository : DocumentationRepository W}.
Variable createSourceFile : Parser.

(** X4.  For a NestJS middleware, a test or a configuration file only the
    common pass runs: the issues of the file are the ones that pass
    pushes (unused imports, commented-out code), and none of them is an
    error. *)
Theorem findIssues_common_only (file : Entities.CodeFile)
  (bestPractices : list Entities.BestPractice) (framework : string)
  (sourceFile : Tree.SourceFile) :
  Classifier.isCode (Entities.getLanguage file) = true ->
  In (Entities.getFileType file)
     [Entities.NESTJS_MIDDLEWARE; Entities.TEST; Entities.CONFIGURATION] ->
  createSourceFile (Entities.getPath file) (Entities.getContent file)
  = Some sourceFile ->
  Walk.pushes (Rules.analyzeCommonTypeScriptPatterns sourceFile framework)
    (Analyzer.findIssues createSourceFile file bestPractices framework)
  /\ Forall Walk.notError
       (Analyzer.findIssues createSourceFile file bestPractices framework).
Proof.
  intros Hcode Hkind Hparse.
  change (findIssues createSourceFile file bestPractices framework)
    with (findIssues createSourceFile file [] framework).
  assert (K : getFileType file <> UNKNOWN).
  { intros E. rewrite E in Hkind. simpl in Hkind. intuition discriminate. }
  destruct (findIssues_walk createSourceFile file framework sourceFile
              Hcode K Hparse) as (common & Hp & Hn & E).
  rewrite E. simpl in Hkind.
  destruct Hkind as [<-|[<-|[<-|[]]]]; simpl; split; assumption.
Qed.

End AnalyzerCoverage.

Lemma findIssues_common_only_witness :
  Forall Walk.notError
    (Analyzer.findIssues Examples.exampleParser
       (Entities.mkCodeFile "ping.middleware.ts" Examples.pingContent
          Entities.TYPESCRIPT Entities.NESTJS_MIDDLEWARE)
       [] "nestjs").
Proof.
  apply (findIssues_common_only Examples.exampleParser
           (Entities.mkCodeFile "ping.middleware.ts" Examples.pingContent
              Entities.TYPESCRIPT Entities.NESTJS_MIDDLEWARE)
           [] "nestjs" Examples.pingTree);
    [reflexivity|simpl; tauto|reflexivity].
Defined.

(* ===================================================================== *)
(** ** The analyzer: frameworks, suggestions, best practices *)
(* ===================================================================== *)

Section FrameworkFacts.
Import Str Entities Classifier Analyzer Tools.

(** X5.  The framework of a kind is never found: the values of the kinds
    are written in lower case and the two prefixes looked for in upper
    case.  [getFrameworkFromFileType] answers the empty string for every
    kind, and the [detectFrameworkAndFileType] tool reports an empty
    framework for every file. *)
Theorem framework_never_detected :
  (forall fileType : Entities.CodeFileType,
      Analyzer.getFrameworkFromFileType fileType = EmptyString)
  /\ (forall filePath fileContent : string,
        snd (Tools.detectFrameworkAndFileType filePath fileContent)
        = EmptyString).
Proof.
  assert (H : forall fileType, getFrameworkFromFileType fileType = EmptyString)
    by (intros []; reflexivity).
  split; [exact H|]. intros filePath fileContent.
  unfold detectFrameworkAndFileType. apply H.
Qed.

End FrameworkFacts.

Section SuggestionFacts.
Import Str Entities StateMonad Docs Analyzer Expected.

Lemma lookup_absent {A} (key : string) (record : list (string * A)) :
  ~ In key (map fst record) -> lookup key record = None.
Proof.
  induction record as [|[k v] record IH]; simpl; intros H; [reflexivity|].
  destruct (String.eqb k key) eqn:E.
  - apply String.eqb_eq in E. exfalso. apply H. left. exact E.
  - apply IH. intros I. apply H. right. exact I.
Qed.

(** The two frameworks are the only keys of a well-formed index. *)
Lemma wellFormed_lookup (w : World) (key : string) :
  wellFormed w -> key <> "nestjs" -> key <> "angular" ->
  lookup key (frameworkSources w) = None.
Proof.
  intros [K _] N A. apply lookup_absent. rewrite K. simpl.
  intros [E|[E|[]]]; [apply N|apply A]; symmetry; exact E.
Qed.

Lemma getBestPractices_no_framework (component : string) (w : World) :
  wellFormed w -> getBestPractices EmptyString component w = ([], w).
Proof.
  intros H. unfold getBestPractices, bind.
  rewrite getDocumentationSources_unknown; [reflexivity|].
  apply wellFormed_lookup; [exact H|discriminate|discriminate].
Qed.

Lemma suggestionFor_plain (file : CodeFile) (issue : CodeIssue) (w : World) :
  wellFormed w -> suggestionFor file issue w = (plainSuggestion issue, w).
Proof.
  intros H. unfold suggestionFor, bind.
  rewrite (proj1 framework_never_detected).
  change (Ports.getBestPractices EmptyString (getDescription issue) w)
    with (getBestPractices EmptyString (getDescription issue) w).
  rewrite (getBestPractices_no_framework _ _ H).
  cbv zeta. change (0 <? List.length (@nil string)) with false. cbv iota.
  unfold ret, plainSuggestion. f_equal.
  rewrite !append_assoc. reflexivity.
Qed.

(** X6.  With the documentation index as the repository,
    [generateFixSuggestions] never asks the content service and never
    adds related best practices: the framework it passes to
    [getBestPractices] is the empty string, which is no framework of the
    index.  Each suggestion is the description, the severity, the lines
    and the suggested fix of its issue, then the reference when the issue
    has one; the index is left as it was. *)
Theorem generateFixSuggestions_plain (analysisResult : Entities.CodeAnalysisResult)
  (w : Docs.World) :
  Docs.wellFormed w ->
  Analyzer.generateFixSuggestions analysisResult w
  = (map Expected.plainSuggestion (Entities.getIssues analysisResult), w).
Proof.
  intros H. unfold generateFixSuggestions.
  generalize (getIssues analysisResult) as issues. intros issues.
  induction issues as [|issue issues IH]; simpl; [reflexivity|].
  unfold bind, ret in *. rewrite (suggestionFor_plain _ _ _ H), IH.
  reflexivity.
Qed.

End SuggestionFacts.

Lemma generateFixSuggestions_plain_witness :
  let result :=
    fst (Analyzer.analyzeFile Examples.exampleParser
           (Entities.mkCodeFile "widget.controller.ts" Examples.widgetContent
              Entities.LANG_UNKNOWN Entities.UNKNOWN)
           "nestjs" (Docs.newRepository Examples.steady)) in
  let w := Docs.newRepository Examples.steady in
  List.length (Entities.getIssues result) = 2
  /\ Analyzer.generateFixSuggestions result w
     = (map Expected.plainSuggestion (Entities.getIssues result), w).
Proof.
  split; [reflexivity|].
  apply generateFixSuggestions_plain.
  split; [reflexivity|]. repeat constructor; simpl; discriminate.
Defined.

Section LookupFacts.
Import Str Entities Tree StateMonad Classifier Ports Analyzer Tools.

Context {W : Type} {documentationRepository : DocumentationRepository W}.
Variable createSourceFile : Parser.

(** X7.  For a file whose detected kind is unknown, test or
    configuration, [analyzeFile] never calls the documentation
    repository: the state of the repository is left as it was and the
    result carries no best practice. *)
Theorem analyzeFile_without_lookup (file : Entities.CodeFile)
  (framework : string) (w : W) :
  In (Entities.getFileType (Classifier.detectFileType file))
     [Entities.UNKNOWN; Entities.TEST; Entities.CONFIGURATION] ->
  snd (Analyzer.analyzeFile createSourceFile file framework w) = w
  /\ Entities.resultBestPractices
       (fst (Analyzer.analyzeFile createSourceFile file framework w)) = [].
Proof.
  intros H. unfold analyzeFile, fetchRelevantBestPractices, bind.
  assert (E : getComponentNameFromFileType (getFileType (detectFileType file))
              = EmptyString).
  { simpl in H. destruct H as [<-|[<-|[<-|[]]]]; reflexivity. }
  rewrite E. simpl. split; reflexivity.
Qed.

Lemma mapWithIndex_map {X Y Z} (f : nat -> X -> Y) (g : Y -> Z)
  (h : nat -> X -> Z) (xs : list X) :
  (forall i x, g (f i x) = h i x) ->
  forall from, map g (mapWithIndex f from xs) = mapWithIndex h from xs.
Proof.
  intros H. induction xs as [|x xs IH]; intros from; simpl; [reflexivity|].
  rewrite H, IH. reflexivity.
Qed.

Lemma mapWithIndex_values {X} (xs : list X) (from : nat) :
  mapWithIndex (fun _ x => x) from xs = xs.
Proof.
  revert from. induction xs as [|x xs IH]; intros from; simpl; [reflexivity|].
  rewrite IH. reflexivity.
Qed.

Lemma mapWithIndex_indices {X Z} (h : nat -> Z) (xs : list X) (from : nat) :
  mapWithIndex (fun i _ => h i) from xs = map h (seq from (List.length xs)).
Proof.
  revert from. induction xs as [|x xs IH]; intros from; simpl; [reflexivity|].
  rewrite IH. reflexivity.
Qed.

(** X8.  The best practices of a result are the passages the repository
    returned for the file, in their order: the description of each is the
    passage as it was returned, and the identifiers number them from
    [bp-1]. *)
Theorem analyzeFile_best_practices (file : Entities.CodeFile)
  (framework : string) (w : W) :
  let result := fst (Analyzer.analyzeFile createSourceFile file framework w) in
  let passages :=
    fst (Analyzer.fetchRelevantBestPractices (Classifier.detectFileType file)
           framework w) in
  map Entities.practiceDescription (Entities.resultBestPractices result)
  = passages
  /\ map Entities.practiceId (Entities.resultBestPractices result)
     = map (fun index => "bp-" +++ Str.ofNat (index + 1))
         (seq 0 (List.length passages)).
Proof.
  intros result passages. unfold result, passages, analyzeFile, bind.
  destruct (fetchRelevantBestPractices (detectFileType file) framework w)
    as [found w1]. simpl. split.
  - rewrite (mapWithIndex_map toBestPractice practiceDescription
               (fun _ x => x)); [|reflexivity].
    apply mapWithIndex_values.
  - rewrite (mapWithIndex_map toBestPractice practiceId
               (fun i _ => "bp-" +++ ofNat (i + 1))); [|reflexivity].
    apply mapWithIndex_indices.
Qed.

Lemma suggestionsOf_length (result : CodeAnalysisResult) (w : W) :
  List.length (fst (suggestionsOf result w)) = List.length (getIssues result).
Proof.
  unfold suggestionsOf, hasIssues.
  destruct (getIssues result) as [|issue issues] eqn:E; simpl; [reflexivity|].
  unfold generateFixSuggestions. rewrite traverse_length, E. reflexivity.
Qed.

(** X9.  The tools give one fix suggestion per issue: in the report of
    [analyzeCodeFile] and in every entry of [analyzeProject] the list of
    suggestions has the length of the list of issues. *)
Theorem fixSuggestions_per_issue :
  (forall (filePath fileContent framework : string) (w : W),
      let report :=
        fst (Tools.analyzeCodeFile createSourceFile filePath fileContent
               framework w) in
      List.length (Tools.fixSuggestions report)
      = List.length (Tools.issues report))
  /\ (forall (files : list (string * string)) (framework : string) (w : W),
        Forall
          (fun entry =>
             List.length (Tools.entryFixSuggestions entry)
             = List.length (Tools.entryIssues entry))
          (snd (fst (Tools.analyzeProjectTool createSourceFile files
                       framework w)))).
Proof.
  split.
  - intros filePath fileContent framework w. unfold analyzeCodeFile, bind.
    destruct (analyzeFile createSourceFile _ framework w) as [result w1].
    pose proof (suggestionsOf_length result w1) as L.
    destruct (suggestionsOf result w1) as [suggestions w2]. simpl in *.
    rewrite length_map. exact L.
  - intros files framework w. unfold analyzeProjectTool, bind.
    destruct (analyzeProject createSourceFile _ framework w) as [results w1].
    assert (F : Forall2
                  (fun (_ : CodeAnalysisResult) entry =>
                     List.length (entryFixSuggestions entry)
                     = List.length (entryIssues entry))
                  results (fst (traverse projectEntry results w1))).
    { apply traverse_Forall2. intros result w'. unfold projectEntry, bind.
      pose proof (suggestionsOf_length result w') as L.
      destruct (suggestionsOf result w') as [suggestions w2]. simpl in *.
      rewrite length_map. exact L. }
    destruct (traverse projectEntry results w1) as [entries w2]. simpl in *.
    clear - F. induction F; constructor; assumption.
Qed.

(** X10.  The entries of [analyzeProject] follow the files: the paths of
    the entries are the paths of the files, in the order they were
    given. *)
Theorem analyzeProject_in_order (files : list (string * string))
  (framework : string) (w : W) :
  map (fun entry => Tools.infoPath (Tools.entryFileInfo entry))
    (snd (fst (Tools.analyzeProjectTool createSourceFile files framework w)))
  = map fst files.
Proof.
  unfold analyzeProjectTool, bind, analyzeProject.
  pose proof
    (traverse_map (fun file => analyzeFile createSourceFile file framework)
       (fun result => getPath (getFile result)) getPath) as P.
  assert (HP : forall file w',
             getPath (getFile (fst (analyzeFile createSourceFile file
                                      framework w')))
             = getPath file).
  { intros file w'.
    rewrite (proj1 (analyzeFile_result createSourceFile file framework w')).
    unfold detectFileType.
    destruct (negb (CodeFileType_eqb (getFileType file) UNKNOWN));
      reflexivity. }
  specialize (P HP).
  pose proof
    (P (map (fun file => mkCodeFile (fst file) (snd file) LANG_UNKNOWN UNKNOWN)
          files) w) as P'.
  clear P.
  destruct (traverse _ _ w) as [results w1]. simpl in P'.
  pose proof
    (traverse_map projectEntry
       (fun entry => infoPath (entryFileInfo entry))
       (fun result => getPath (getFile result))) as Q.
  assert (HQ : forall result w',
             infoPath (entryFileInfo (fst (projectEntry result w')))
             = getPath (getFile result)).
  { intros result w'. unfold projectEntry, bind.
    destruct (suggestionsOf result w'). reflexivity. }
  specialize (Q HQ results w1).
  destruct (traverse projectEntry results w1) as [entries w2]. simpl in *.
  rewrite Q, P', map_map. reflexivity.
Qed.

End LookupFacts.

Lemma analyzeFile_without_lookup_witness :
  let w := Docs.newRepository Examples.steady in
  snd (Analyzer.analyzeFile Examples.exampleParser
         (Entities.mkCodeFile "cats.spec.ts" EmptyString Entities.LANG_UNKNOWN
            Entities.UNKNOWN)
         "nestjs" w) = w.
Proof.
  apply (analyzeFile_without_lookup Examples.exampleParser
           (Entities.mkCodeFile "cats.spec.ts" EmptyString Entities.LANG_UNKNOWN
              Entities.UNKNOWN)
           "nestjs" (Docs.newRepository Examples.steady)).
  simpl. right. left. reflexivity.
Defined.

Section ToolFacts.
Import Str Entities Tree StateMonad Classifier Ports Analyzer Tools.

Context {W : Type} {documentationRepository : DocumentationRepository W}.
Variable createSourceFile : Parser.

(** X11.  The [generateFixSuggestions] tool agrees with [analyzeCodeFile]
    on the same file in the same state: it answers that there is no issue
    exactly when the report has none, and otherwise gives the file
    information and the suggestions of the report, with an issue count
    that is the number of issues and of suggestions. *)
Theorem generateFixSuggestions_agrees (filePath fileContent framework : string)
  (w : W) :
  let report :=
    fst (Tools.analyzeCodeFile createSourceFile filePath fileContent framework
           w) in
  match
    fst (CodeTools.generateFixSuggestions createSourceFile filePath
           fileContent framework w)
  with
  | CodeTools.NoIssues =>
      Tools.issues report = [] /\ Tools.fixSuggestions report = []
  | CodeTools.Suggestions info issueCount suggestions =>
      info = Tools.fileInfo report
      /\ suggestions = Tools.fixSuggestions report
      /\ issueCount = List.length (Tools.issues report)
      /\ issueCount = List.length suggestions
      /\ 0 < issueCount
  end.
Proof.
  intros report. unfold report, CodeTools.generateFixSuggestions,
    analyzeCodeFile, bind.
  destruct (analyzeFile createSourceFile _ framework w) as [result w1].
  pose proof (suggestionsOf_length result w1) as L. revert L.
  unfold suggestionsOf, hasIssues.
  destruct (getIssues result) as [|issue issues]; simpl.
  - intros _. split; reflexivity.
  - destruct (generateFixSuggestions result w1) as [suggestions w2]. simpl.
    intros L. rewrite length_map. repeat split; lia.
Qed.

Lemma length_take_le (n : nat) (s : string) : String.length (take n s) <= n.
Proof.
  revert s. induction n as [|n IH]; intros [|a s]; simpl; try lia.
  specialize (IH s). lia.
Qed.

Lemma take_all (n : nat) (s : string) : String.length s <= n -> take n s = s.
Proof.
  revert s. induction n as [|n IH]; intros [|a s]; simpl; intros H;
    try reflexivity; try lia.
  rewrite IH; [reflexivity|lia].
Qed.

Lemma substring_from_start (n : nat) (s : string) : substring 0 n s = take n s.
Proof.
  unfold substring. rewrite Nat.min_0_l, Nat.max_0_l, Nat.sub_0_r.
  destruct s; reflexivity.
Qed.

(** X12.  The description of a best practice is shown cut to 200 code
    units and followed by three dots, whether or not something was cut:
    every description in the report of [analyzeCodeFile] ends with the
    dots and has at most 203 code units, and a description of at most 200
    code units is shown whole, with the dots after it. *)
Theorem practiceView_bounded :
  (forall (filePath fileContent framework : string) (w : W),
      Forall
        (fun view =>
           String.length (Tools.viewText view) <= 203
           /\ Str.endsWith (Tools.viewText view) "..." = true)
        (Tools.bestPractices
           (fst (Tools.analyzeCodeFile createSourceFile filePath fileContent
                   framework w))))
  /\ (forall bp : Entities.BestPractice,
        String.length (Entities.practiceDescription bp) <= 200 ->
        Tools.viewText (Tools.practiceView bp)
        = Entities.practiceDescription bp +++ "...").
Proof.
  split.
  - intros filePath fileContent framework w. unfold analyzeCodeFile, bind.
    destruct (analyzeFile createSourceFile _ framework w) as [result w1].
    destruct (suggestionsOf result w1) as [suggestions w2]. simpl.
    apply Forall_map. apply Forall_forall. intros bp _.
    cbn [practiceView viewText]. rewrite substring_from_start. split.
    + rewrite length_append.
      pose proof (length_take_le 200 (practiceDescription bp)) as L.
      change (String.length "...") with 3. lia.
    + apply endsWith_suffix. eexists. reflexivity.
  - intros bp H. cbn [practiceView viewText].
    rewrite substring_from_start, (take_all 200 _ H). reflexivity.
Qed.

End ToolFacts.

Lemma practiceView_bounded_witness :
  Tools.viewText
    (Tools.practiceView
       (Entities.mkBestPractice "bp-1" "Caching" "Cache reads." EmptyString
          EmptyString))
  = "Cache reads....".
Proof.
  apply (proj2 (practiceView_bounded (W := Docs.World) Examples.exampleParser)).
  simpl. lia.
Defined.

(* ===================================================================== *)
(** ** The documentation index: frameworks, discovery, requests *)
(* ===================================================================== *)

Section IndexFacts.
Import Str Entities StateMonad Docs Markdown Expected.

Lemma update_same {A} (key : string) (v : A) (record : list (string * A)) :
  lookup key record = Some v -> update key (fun _ => v) record = record.
Proof.
  induction record as [|[k x] record IH]; simpl; [reflexivity|].
  destruct (String.eqb k key).
  - intros E. injection E as ->. reflexivity.
  - intros E. rewrite (IH E). reflexivity.
Qed.

Lemma world_eta (w : World) :
  mkWorld (frameworkSources w) (remote w) (requests w) = w.
Proof. destruct w. reflexivity. Qed.

(** X13.  A framework that is neither NestJS nor Angular, in whatever
    case it is written, has no source and no best practice, and asking
    for them makes no request and leaves the index as it was.  (The two
    names every object inherits are set apart: the embedding does not
    follow the lookup there.) *)
Theorem unsupported_framework (w : Docs.World) (framework component : string) :
  Docs.wellFormed w ->
  ~ Docs.supported framework ->
  ~ In (Str.toLowerCase framework) Expected.inheritedKeys ->
  Docs.getDocumentationSources framework w = ([], w)
  /\ Docs.getBestPractices framework component w = ([], w).
Proof.
  intros Hw Hs _.
  assert (L : lookup (toLowerCase framework) (frameworkSources w) = None).
  { apply wellFormed_lookup; [exact Hw| |]; intros E; apply Hs;
      [left|right]; exact E. }
  split.
  - apply getDocumentationSources_unknown. exact L.
  - unfold getBestPractices, bind.
    rewrite getDocumentationSources_unknown; [reflexivity|].
    rewrite toLowerCase_idempotent. exact L.
Qed.

Lemma unsupported_framework_witness :
  let w := Docs.newRepository Examples.steady in
  Docs.getDocumentationSources "React" w = ([], w)
  /\ Docs.getBestPractices "React" "component" w = ([], w).
Proof.
  apply unsupported_framework.
  - split; [reflexivity|]. repeat constructor; simpl; discriminate.
  - intros [E|E]; discriminate E.
  - simpl. intros [E|[E|[]]]; discriminate E.
Defined.

Lemma traverse_pure_on {W A} (f : A -> State W A) (xs : list A) (w : W) :
  Forall (fun x => forall w', f x w' = (x, w')) xs ->
  traverse f xs w = (xs, w).
Proof.
  intros H. revert w. induction H as [|x xs Hx H IH]; intros w; simpl;
    [reflexivity|].
  unfold bind, ret. rewrite Hx, IH. reflexivity.
Qed.

(** X14.  Discovery is done once: when every source of a framework has
    sections, [getDocumentationSources] returns the sources as the index
    holds them, makes no request, and leaves the index as it was. *)
Theorem discovery_cached (w : Docs.World) (framework : string)
  (sources : list Entities.DocumentationSource) :
  Docs.lookup (Str.toLowerCase framework) (Docs.frameworkSources w)
  = Some sources ->
  Forall (fun source => Entities.getSections source <> []) sources ->
  Docs.getDocumentationSources framework w = (sources, w).
Proof.
  intros L H. unfold getDocumentationSources. rewrite L. unfold bind.
  rewrite traverse_pure_on.
  - unfold storeSources, ret. rewrite (update_same _ _ _ L), world_eta.
    reflexivity.
  - apply (Forall_impl _ (P := fun source => getSections source <> []));
      [|exact H].
    intros source N w'. unfold loadSource.
    destruct (getSections source); [contradiction|reflexivity].
Qed.

Lemma discovery_cached_witness :
  let w := Examples.discovered Examples.steady in
  exists sources,
    Docs.getDocumentationSources "nestjs" w = (sources, w)
    /\ List.length (Docs.requests w) = 2.
Proof.
  eexists. split; [|reflexivity].
  apply discovery_cached; [reflexivity|].
  repeat constructor; simpl; discriminate.
Defined.

(** What is not a listing: a failed request, or a data that is not an
    array. *)
Lemma fetchSections_no_listing (source : DocumentationSource) (w : World) :
  (forall items,
      remote w (List.length (requests w)) (contentsUrl source)
      <> Some (DArray items)) ->
  includes (sourceId source) "nestjs" || includes (sourceId source) "angular"
  = true ->
  fetchSections source w
  = (source,
     mkWorld (frameworkSources w) (remote w)
       (requests w ++ [contentsUrl source])).
Proof.
  intros N I. unfold fetchSections.
  assert (E : forall (k : list Item -> Repo DocumentationSource),
             (response <- axiosGet (contentsUrl source) ;;
              match response with
              | Some (DArray items) => k items
              | _ => ret source
              end) w
             = (source,
                mkWorld (frameworkSources w) (remote w)
                  (requests w ++ [contentsUrl source]))).
  { intros k. unfold bind, axiosGet.
    destruct (remote w (List.length (requests w)) (contentsUrl source))
      as [[items|text|]|] eqn:R; try reflexivity.
    exfalso. apply (N items). reflexivity. }
  destruct (includes (sourceId source) "nestjs").
  - unfold fetchNestJSGitHubSections. apply E.
  - simpl in I. rewrite I. unfold fetchAngularGitHubSections. apply E.
Qed.

(** X15.  A discovery that fails is not remembered.  When the request
    for the listing of a source without sections fails, or answers
    something that is not a listing, [getDocumentationSources] returns
    the source as it was, logs that one request and leaves the index as
    it was: the source still has no section, so the next call asks
    again. *)
Theorem discovery_retried (w : Docs.World) (framework : string)
  (source : Entities.DocumentationSource) :
  Docs.lookup (Str.toLowerCase framework) (Docs.frameworkSources w)
  = Some [source] ->
  Entities.getSections source = [] ->
  Str.includes (Entities.sourceId source) "nestjs"
  || Str.includes (Entities.sourceId source) "angular" = true ->
  (forall items,
      Docs.remote w (List.length (Docs.requests w)) (Docs.contentsUrl source)
      <> Some (Docs.DArray items)) ->
  let r := Docs.getDocumentationSources framework w in
  fst r = [source]
  /\ Docs.frameworkSources (snd r) = Docs.frameworkSources w
  /\ Docs.requests (snd r) = Docs.requests w ++ [Docs.contentsUrl source].
Proof.
  intros L S I N r. unfold r, getDocumentationSources. rewrite L.
  unfold bind. simpl. unfold bind, loadSource. rewrite S. simpl.
  rewrite (fetchSections_no_listing source w N I). simpl.
  rewrite (update_same _ _ _ L). repeat split.
Qed.

Lemma discovery_retried_witness :
  let w := Docs.newRepository Docs.offline in
  let w1 := snd (Docs.getDocumentationSources "nestjs" w) in
  let w2 := snd (Docs.getDocumentationSources "nestjs" w1) in
  Docs.requests w1 = [Examples.nestRoot]
  /\ Docs.requests w2 = [Examples.nestRoot; Examples.nestRoot].
Proof.
  pose (source :=
          Entities.mkSource "nestjs-github" "NestJS Documentation (GitHub)"
            "https://github.com/nestjs/docs.nestjs.com/tree/master/content"
            "master" []).
  split.
  - destruct (discovery_retried (Docs.newRepository Docs.offline) "nestjs"
                source eq_refl eq_refl eq_refl) as (_ & _ & R);
      [intros items; discriminate|exact R].
  - destruct (discovery_retried
                (snd (Docs.getDocumentationSources "nestjs"
                        (Docs.newRepository Docs.offline)))
                "nestjs" source eq_refl eq_refl eq_refl) as (_ & _ & R);
      [intros items; discriminate|exact R].
Defined.

End IndexFacts.

Section NestFacts.
Import Str Entities StateMonad Docs Markdown Expected.

Lemma addTopics_unloaded (items : list Item) (section : DocumentationSection) :
  let section' :=
    fold_left
      (fun section item =>
         if isMarkdownFile item then addTopic section (lazyTopic item)
         else section)
      items section in
  exists added,
    getTopics section' = getTopics section ++ added /\ Forall unloaded added.
Proof.
  revert section. induction items as [|item items IH]; intros section; simpl.
  - exists []. rewrite app_nil_r. split; [reflexivity|constructor].
  - destruct (isMarkdownFile item).
    + destruct (IH (addTopic section (lazyTopic item))) as (added & E & F).
      exists (lazyTopic item :: added). simpl in E. rewrite E, <- app_assoc.
      split; [reflexivity|]. constructor; [split; reflexivity|exact F].
    + apply IH.
Qed.

(** One run of [fetchNestJSGitHubTopics]: one request, and topics that
    are all still to be loaded. *)
Lemma fetchNestJSGitHubTopics_run (section : DocumentationSection)
  (url : string) (w : World) :
  snd (fetchNestJSGitHubTopics section url w)
  = mkWorld (frameworkSources w) (remote w) (requests w ++ [url])
  /\ exists added,
       getTopics (fst (fetchNestJSGitHubTopics section url w))
       = getTopics section ++ added
       /\ Forall unloaded added.
Proof.
  unfold fetchNestJSGitHubTopics, bind, axiosGet, ret. simpl.
  split; [reflexivity|].
  destruct (remote w (List.length (requests w)) url) as [[items|text|]|];
    try (exists []; rewrite app_nil_r; split; [reflexivity|constructor]).
  apply addTopics_unloaded.
Qed.

(** The loop of [fetchNestJSGitHubSections] over a listing. *)
Lemma nestjs_sections_loop (items : list Item) (source : DocumentationSource)
  (w : World) :
  let run :=
    forEach
      (fun source item =>
         if String.eqb (itemType item) "dir" then
           section <- fetchNestJSGitHubTopics (newSection item)
                        (itemUrl item) ;;
           ret (if nonEmpty section then addSection source section
                else source)
         else ret source)
      items source w in
  snd run
  = mkWorld (frameworkSources w) (remote w)
      (requests w
       ++ map itemUrl
            (filter (fun item => String.eqb (itemType item) "dir") items))
  /\ exists added,
       getSections (fst run) = getSections source ++ added
       /\ Forall (fun section => Forall unloaded (getTopics section)) added.
Proof.
  revert source w. induction items as [|item items IH]; intros source w.
  - simpl. rewrite app_nil_r, world_eta. split; [reflexivity|].
    exists []. rewrite app_nil_r. split; [reflexivity|constructor].
  - cbn [forEach filter map]. rewrite bind_run.
    destruct (String.eqb (itemType item) "dir").
    + rewrite bind_run.
      destruct (fetchNestJSGitHubTopics_run (newSection item) (itemUrl item) w)
        as (Ew & topics & Et & Ft).
      rewrite Ew, !ret_run. cbn [fst snd].
      match goal with
      | |- context [forEach ?body items ?s ?w'] =>
          destruct (IH s w') as (Es & added & Ea & Fa)
      end.
      cbv zeta in Es, Ea. cbv zeta. split.
      * rewrite Es. simpl. rewrite <- app_assoc. reflexivity.
      * rewrite Ea.
        destruct (nonEmpty (fst (fetchNestJSGitHubTopics (newSection item)
                                   (itemUrl item) w))).
        -- eexists (_ :: added). split.
           ++ cbn [addSection getSections]. rewrite <- app_assoc. reflexivity.
           ++ constructor; [|exact Fa]. rewrite Et. exact Ft.
        -- exists added. split; [reflexivity|exact Fa].
    + rewrite !ret_run. cbn [fst snd]. apply IH.
Qed.

(** X16.  The discovery of the NestJS documentation asks for the listing
    of the source and then for the listing of each directory of it, in
    the order of the listing, and for nothing else: files at the top are
    skipped and no page is read. *)
Theorem nestjs_discovery_requests (source : Entities.DocumentationSource)
  (w : Docs.World) (items : list Docs.Item) :
  Docs.remote w (List.length (Docs.requests w)) (Docs.contentsUrl source)
  = Some (Docs.DArray items) ->
  Docs.requests (snd (Docs.fetchNestJSGitHubSections source w))
  = Docs.requests w
    ++ Docs.contentsUrl source
       :: map Docs.itemUrl
            (filter (fun item => String.eqb (Docs.itemType item) "dir") items).
Proof.
  intros R. unfold fetchNestJSGitHubSections, bind at 1, axiosGet.
  rewrite R.
  match goal with
  | |- context [forEach ?body items source ?w'] =>
      destruct (nestjs_sections_loop items source w') as [E _]
  end.
  rewrite E. simpl. rewrite <- app_assoc. reflexivity.
Qed.

Lemma nestjs_discovery_requests_witness :
  Docs.requests
    (snd (Docs.fetchNestJSGitHubSections
            (Entities.mkSource "nestjs-github" "NestJS Documentation (GitHub)"
               "https://github.com/nestjs/docs.nestjs.com/tree/master/content"
               "master" [])
            (Docs.newRepository Examples.steady)))
  = [Examples.nestRoot; Examples.techniquesUrl].
Proof.
  exact (nestjs_discovery_requests
           (Entities.mkSource "nestjs-github" "NestJS Documentation (GitHub)"
              "https://github.com/nestjs/docs.nestjs.com/tree/master/content"
              "master" [])
           (Docs.newRepository Examples.steady)
           [Docs.mkItem "dir" "techniques" Examples.techniquesUrl
              "https://github.com/nestjs/docs.nestjs.com/tree/master/content/techniques"
              EmptyString]
           eq_refl).
Defined.

(** X17.  The topics of the NestJS documentation are discovered without
    their pages: every section the discovery adds to a source holds
    topics with an empty content and no code example, to be loaded when
    a topic is asked for. *)
Theorem nestjs_topics_unloaded (source : Entities.DocumentationSource)
  (w : Docs.World) :
  exists added,
    Entities.getSections (fst (Docs.fetchNestJSGitHubSections source w))
    = Entities.getSections source ++ added
    /\ Forall
         (fun section => Forall Expected.unloaded (Entities.getTopics section))
         added.
Proof.
  unfold fetchNestJSGitHubSections, bind at 1, axiosGet.
  destruct (remote w (List.length (requests w)) (contentsUrl source))
    as [[items|text|]|];
    try (exists []; rewrite app_nil_r; split; [reflexivity|constructor]).
  match goal with
  | |- context [forEach ?body items source ?w'] =>
      destruct (nestjs_sections_loop items source w') as [_ H]
  end.
  exact H.
Qed.

End NestFacts.

(* ===================================================================== *)
(** ** The documentation index: finding and searching *)
(* ===================================================================== *)

Section FindFacts.
Import Str Entities StateMonad Docs Markdown.

(** What [getTopicById] returns: the topic found, its content ensured. *)
Lemma getTopicById_answer (sourceId' topicId' : string) (w : World) :
  fst (getTopicById sourceId' topicId' w)
  = option_map (fun topic => fst (ensureContent topic w))
      (findTopic sourceId' topicId' (allSources w)).
Proof.
  unfold getTopicById, ensureContent.
  destruct (findTopic sourceId' topicId' (allSources w)) as [topic|];
    [|reflexivity].
  simpl. destruct (negb (truthy (topicContent topic))); [|reflexivity].
  rewrite bind_run. reflexivity.
Qed.

(** X18.  A topic returned by [getTopicById] is the topic asked for: its
    identifier is the one given, and it is a topic stored in a source
    with the identifier given, with the same identifier, title and URL,
    and equal to the stored one when that one has its content. *)
Theorem getTopicById_identity (w : Docs.World) (sourceId' topicId' : string)
  (topic : Entities.DocumentationTopic) :
  fst (Docs.getTopicById sourceId' topicId' w) = Some topic ->
  Entities.topicId topic = topicId'
  /\ exists source stored,
       In source (Docs.allSources w)
       /\ Entities.sourceId source = sourceId'
       /\ In stored (Docs.allTopics source)
       /\ Docs.upgradeOf stored topic.
Proof.
  rewrite getTopicById_answer. unfold findTopic.
  destruct (find _ _) as [stored|] eqn:F; [|discriminate].
  simpl. intros E. injection E as <-.
  apply find_some in F. destruct F as [I Hid].
  apply String.eqb_eq in Hid.
  apply in_flat_map in I. destruct I as (source & Hs & Ht).
  destruct (String.eqb (sourceId source) sourceId') eqn:S; [|destruct Ht].
  apply String.eqb_eq in S.
  pose proof (ensureContent_upgradeOf stored w) as U.
  split.
  - destruct U as (Uid & _). rewrite Uid. exact Hid.
  - exists source, stored.
    split; [exact Hs|]. split; [exact S|]. split; [exact Ht|exact U].
Qed.

Lemma getTopicById_identity_witness :
  exists topic,
    fst (Docs.getTopicById "nestjs-github" "topic-caching"
           (Examples.discovered Examples.steady)) = Some topic
    /\ Entities.topicId topic = "topic-caching".
Proof.
  eexists. split; [reflexivity|].
  apply (getTopicById_identity (Examples.discovered Examples.steady)
           "nestjs-github" "topic-caching").
  reflexivity.
Defined.

(** The inner loop of [searchTopics]: the topics of a section that
    mention the query, content ensured, are appended in order. *)
Lemma search_section (normalized : string) (topics : list DocumentationTopic)
  (results : list DocumentationTopic) (w : World) :
  forEach
    (fun results topic =>
       topicWithContent <- ensureContent topic ;;
       ret (if mentions normalized topicWithContent
            then results ++ [topicWithContent] else results))
    topics results w
  = (results
     ++ filter (mentions normalized) (fst (traverse ensureContent topics w)),
     snd (traverse ensureContent topics w)).
Proof.
  revert results w. induction topics as [|topic topics IH];
    intros results w; cbn [forEach traverse].
  - rewrite !ret_run. simpl. rewrite app_nil_r. reflexivity.
  - rewrite !bind_run, !ret_run. cbn [fst snd]. rewrite IH. cbn [filter].
    destruct (mentions normalized (fst (ensureContent topic w)));
      [rewrite <- app_assoc|]; reflexivity.
Qed.

Lemma search_source (normalized : string) (sections : list DocumentationSection)
  (results : list DocumentationTopic) (w : World) :
  forEach
    (fun results section =>
       forEach
         (fun results topic =>
            topicWithContent <- ensureContent topic ;;
            ret (if mentions normalized topicWithContent
                 then results ++ [topicWithContent] else results))
         (getTopics section) results)
    sections results w
  = (results
     ++ filter (mentions normalized)
          (fst (traverse ensureContent (flat_map getTopics sections) w)),
     snd (traverse ensureContent (flat_map getTopics sections) w)).
Proof.
  revert results w. induction sections as [|section sections IH];
    intros results w; cbn [forEach flat_map].
  - rewrite ret_run. simpl. rewrite app_nil_r. reflexivity.
  - rewrite bind_run, search_section. cbn [fst snd]. rewrite IH, traverse_app.
    destruct (traverse ensureContent (getTopics section) w) as [a w1].
    cbn [fst snd].
    destruct (traverse ensureContent (flat_map getTopics sections) w1)
      as [b w2].
    cbn [fst snd]. rewrite filter_app, app_assoc. reflexivity.
Qed.

(** X19.  [searchTopics] loads and filters: for a source of the index, it
    ensures the content of every topic of the source, in the order of
    the sections and of the topics, and returns the loaded topics that
    mention the query in lower case, in their title or their content, in
    that order; the state after the search is the state after the
    loading.  Every topic returned mentions the query.  For a source the
    index does not hold, it returns nothing and asks nothing. *)
Theorem searchTopics_filters (w : Docs.World) (sourceId' query : string) :
  (Docs.findSource sourceId' (Docs.allSources w) = None ->
   Docs.searchTopics sourceId' query w = ([], w))
  /\ (forall source,
        Docs.findSource sourceId' (Docs.allSources w) = Some source ->
        let loaded :=
          StateMonad.traverse Docs.ensureContent (Docs.allTopics source) w in
        Docs.searchTopics sourceId' query w
        = (filter (Docs.mentions (Str.toLowerCase query)) (fst loaded),
           snd loaded)
        /\ Forall
             (fun topic =>
                Docs.mentions (Str.toLowerCase query) topic = true)
             (fst (Docs.searchTopics sourceId' query w))).
Proof.
  unfold searchTopics. split.
  - intros E. rewrite E. reflexivity.
  - intros source E. cbv zeta. rewrite E.
    rewrite search_source. fold (allTopics source).
    cbn [app fst]. split; [reflexivity|].
    apply Forall_forall. intros topic I. apply filter_In in I. apply I.
Qed.

Lemma searchTopics_filters_witness :
  map Entities.topicId
    (fst (Docs.searchTopics "nestjs-github" "TECHNIQUE"
            (Examples.discovered Examples.steady)))
  = ["topic-caching"]
  /\ Forall
       (fun topic => Docs.mentions (Str.toLowerCase "TECHNIQUE") topic = true)
       (fst (Docs.searchTopics "nestjs-github" "TECHNIQUE"
               (Examples.discovered Examples.steady))).
Proof.
  split; [reflexivity|].
  eapply (proj2 (searchTopics_filters (Examples.discovered Examples.steady)
                   "nestjs-github" "TECHNIQUE")).
  reflexivity.
Defined.

End FindFacts.

(* ===================================================================== *)
(** ** Region extraction: what is returned *)
(* ===================================================================== *)

Section RegionCoverage.
Import Str Regex Region.

(** X20.  For a region name free of pattern syntax, what
    [extractVisibleRegion] returns is a part of the file content: a run
    of consecutive code units of it, nothing added and nothing changed.
    When the content holds a start marker of the region, the part
    returned is strictly shorter than the content. *)
Theorem extractVisibleRegion_part (fileContent regionName : string) :
  Region.plainName regionName = true ->
  Str.infix (Region.extractVisibleRegion fileContent regionName) fileContent
  /\ (Str.truthy fileContent = true ->
      Str.truthy regionName = true ->
      Region.hasStartMarker fileContent regionName = true ->
      String.length (Region.extractVisibleRegion fileContent regionName)
      < String.length fileContent).
Proof.
  intros _. split.
  - destruct (truthy fileContent) eqn:C;
      [|unfold extractVisibleRegion; rewrite C; apply infix_refl].
    destruct (truthy regionName) eqn:N;
      [|unfold extractVisibleRegion; rewrite C, N; apply infix_refl].
    destruct (earliest (regionStartPatterns regionName) fileContent)
      as [[i p]|] eqn:E.
    + apply (infix_trans _ (drop (S i) fileContent)); [|apply infix_drop].
      apply (extractVisibleRegion_infix _ _ i p C N E).
    + unfold extractVisibleRegion. rewrite C, N, E. apply infix_refl.
  - intros C N H. destruct (hasStartMarker_earliest _ _ H) as (i & p & E).
    pose proof (extractVisibleRegion_infix _ _ i p C N E) as I.
    apply infix_length in I. pose proof (length_drop_S i fileContent C). lia.
Qed.

Lemma extractVisibleRegion_part_witness :
  let page :=
    "<p>" +++ Markdown.LF +++ "// #docregion a" +++ Markdown.LF +++ "x = 1;"
    +++ Markdown.LF +++ "// #enddocregion a" +++ Markdown.LF in
  Region.extractVisibleRegion page "a" = "x = 1;"
  /\ String.length (Region.extractVisibleRegion page "a") < String.length page.
Proof.
  split; [reflexivity|].
  apply (extractVisibleRegion_part _ "a"); reflexivity.
Defined.

Lemma afterOpener_infix (s k : string) : afterOpener s = Some k -> infix k s.
Proof.
  unfold afterOpener.
  destruct (startsWith s "//");
    [intros E; injection E as <-;
     exact (infix_trans _ _ _ (infix_trimStart _) (infix_drop 2 s))|].
  destruct (startsWith s "<!--");
    [intros E; injection E as <-;
     exact (infix_trans _ _ _ (infix_trimStart _) (infix_drop 4 s))|].
  destruct (startsWith s "/*"); [|discriminate].
  intros E; injection E as <-.
  exact (infix_trans _ _ _ (infix_trimStart _) (infix_drop 2 s)).
Qed.

(** A start marker holds the keyword of start markers. *)
Lemma start_marker_keyword (regionName : string) (pattern : regex)
  (u : string) :
  In pattern (regionStartPatterns regionName) -> lang pattern u ->
  infix "#docregion" u.
Proof.
  intros I L.
  destruct (marker_head "#docregion" regionName pattern u EmptyString
              startKeyword I L) as [x E].
  rewrite append_nil_r in E. apply afterOpener_infix in E.
  apply (infix_trans _ ("#docregion" +++ x)); [|exact E].
  exists EmptyString, x. reflexivity.
Qed.

(** X21.  A file content in which the keyword of start markers,
    [#docregion], does not occur holds no region: for a region name free
    of pattern syntax, [extractVisibleRegion] returns the content
    unchanged. *)
Theorem extractVisibleRegion_without_keyword (fileContent regionName : string) :
  Region.plainName regionName = true ->
  Str.includes fileContent "#docregion" = false ->
  Region.extractVisibleRegion fileContent regionName = fileContent.
Proof.
  intros _ H. apply extractVisibleRegion_no_marker.
  destruct (hasStartMarker fileContent regionName) eqn:M; [|reflexivity].
  exfalso. unfold hasStartMarker in M. apply existsb_exists in M.
  destruct M as (pattern & I & T).
  apply (test_true pattern fileContent (marker_simple _ _ _ I)) in T.
  destruct T as (u & L & U).
  apply includes_false in H. apply H.
  apply (infix_trans _ u); [|exact U].
  apply (start_marker_keyword regionName pattern u I L).
Qed.

Lemma extractVisibleRegion_without_keyword_witness :
  Region.extractVisibleRegion "const answer = 42; // #region answer" "answer"
  = "const answer = 42; // #region answer".
Proof.
  apply extractVisibleRegion_without_keyword; reflexivity.
Defined.

End RegionCoverage.

(* ===================================================================== *)
(** ** Code examples of a page *)
(* ===================================================================== *)

Section ExampleFacts.
Import Str Regex Markdown.

Lemma markModernSyntax_truthy (example : string) :
  truthy example = true -> truthy (markModernSyntax example) = true.
Proof.
  intros H. unfold markModernSyntax.
  destruct (includes example "@if" || includes example "@for"
            || includes example "@switch"); [reflexivity|exact H].
Qed.

(** X22.  No code example of a page is empty: every text
    [extractCodeExamples] returns for a content has at least one code
    unit, whichever of its four sources it comes from (fenced blocks,
    bodies of [docs-code] elements, header and path references, region
    references). *)
Theorem extractCodeExamples_nonempty (content : string) :
  Forall (fun example => Str.truthy example = true)
    (Markdown.extractCodeExamples content).
Proof.
  unfold extractCodeExamples. cbv zeta.
  apply Forall_map. apply Forall_forall. intros example I.
  apply markModernSyntax_truthy.
  repeat (apply in_app_or in I; destruct I as [I|I]).
  - apply filter_In in I. apply I.
  - apply in_map_iff in I. destruct I as (m & <- & I).
    apply filter_In in I. destruct I as [_ T].
    apply Bool.andb_true_iff in T. apply T.
  - apply in_map_iff in I. destruct I as (m & <- & _). reflexivity.
  - apply in_map_iff in I. destruct I as (m & <- & _). reflexivity.
Qed.

Lemma matchAll_none (r : regex) (s : string) :
  exec r s = None -> matchAll r s = [].
Proof.
  unfold matchAll, exec. intros E. simpl. rewrite E. reflexivity.
Qed.

(** A pattern all of whose matches hold a text does not match where the
    text does not occur. *)
Lemma no_occurrence (r : regex) (p s : string) :
  simple r = true ->
  (forall u, lang r u -> infix p u) ->
  includes s p = false -> exec r s = None.
Proof.
  intros S L H. destruct (exec r s) as [m|] eqn:E; [exfalso|reflexivity].
  destruct (exec_sound r s m S E) as (Lm & post & D).
  apply includes_false in H. apply H.
  apply (infix_trans _ (text m)); [apply L; exact Lm|].
  apply (infix_trans _ (drop (index m) s)); [|apply infix_drop].
  exists EmptyString, post. exact D.
Qed.

Lemma lang_lit_prefix (p v : string) :
  lang (lit p) v -> exists t, v = p +++ t.
Proof.
  intros L. apply lang_lit in L. subst v. exists EmptyString.
  symmetry. apply append_nil_r.
Qed.

Lemma lang_seq_prefix (r1 r2 : regex) (p u : string) :
  (forall v, lang r1 v -> exists t, v = p +++ t) ->
  lang (Seq r1 r2) u -> exists t, u = p +++ t.
Proof.
  intros H L. apply lang_seq_inv in L. destruct L as (u1 & u2 & -> & L1 & _).
  destruct (H u1 L1) as [t ->]. exists (t +++ u2). apply append_assoc.
Qed.

Lemma prefix_infix (p u : string) : (exists t, u = p +++ t) -> infix p u.
Proof. intros [t ->]. exists EmptyString, t. reflexivity. Qed.

(** X23.  A content that holds no fence of three backquotes, no
    [<docs-code] and no [visibleRegion=] has no code example:
    [extractCodeExamples] returns the empty list for it. *)
Theorem extractCodeExamples_plain (content : string) :
  Str.includes content "```" = false ->
  Str.includes content "<docs-code" = false ->
  Str.includes content "visibleRegion=" = false ->
  Markdown.extractCodeExamples content = [].
Proof.
  intros F D V. unfold extractCodeExamples, matchTexts. cbv zeta.
  rewrite (matchAll_none (codeBlock docsLanguages) content).
  2:{ apply (no_occurrence _ "```"); [reflexivity| |exact F].
      intros u L. apply prefix_infix. revert L.
      apply lang_seq_prefix. intros v. apply lang_seq_prefix.
      apply lang_lit_prefix. }
  repeat match goal with
         | |- context [matchAll ?r content] =>
             rewrite (matchAll_none r content)
               by first
                    [ apply (no_occurrence _ "<docs-code");
                      [reflexivity
                      |intros u L; apply prefix_infix; revert L;
                       apply lang_seq_prefix; apply lang_lit_prefix
                      |exact D]
                    | apply (no_occurrence _ "visibleRegion=");
                      [reflexivity
                      |intros u L; apply prefix_infix; revert L;
                       apply lang_seq_prefix; apply lang_lit_prefix
                      |exact V] ]
         end.
  reflexivity.
Qed.

Lemma extractCodeExamples_plain_witness :
  Markdown.extractCodeExamples "# Caching" = [].
Proof.
  apply extractCodeExamples_plain; reflexivity.
Defined.

End ExampleFacts.

(* ===================================================================== *)
(** ** Locating an example file *)
(* ===================================================================== *)

Section LocatorFacts.
Import Str Docs Locator.

Lemma replaceFirst_prefix (p x r : string) :
  replaceFirst (p +++ x) p r = r +++ x.
Proof.
  assert (S : startsWith (p +++ x) p = true)
    by (apply startsWith_prefix; exists x; reflexivity).
  assert (E : replaceFirst (p +++ x) p r
              = r +++ drop (String.length p) (p +++ x)).
  { destruct (p +++ x) as [|a s]; simpl replaceFirst; rewrite S; reflexivity. }
  rewrite E, drop_append. reflexivity.
Qed.

Lemma split_nonempty (sep : ascii) (s : string) : split sep s <> [].
Proof.
  destruct s as [|c s]; simpl; [discriminate|].
  destruct (Ascii.eqb c sep); [discriminate|].
  destruct (split sep s); discriminate.
Qed.

(** Cutting at the separator and joining again gives the text back. *)
Lemma join_split (s : string) : join "/" (split "/" s) = s.
Proof.
  induction s as [|c s IH]; [reflexivity|]. cbn [split].
  pose proof (split_nonempty "/" s) as N.
  destruct (Ascii.eqb c "/") eqn:E.
  - apply Ascii.eqb_eq in E. subst c.
    destruct (split "/" s) as [|w ws]; [contradiction|].
    change (join "/" (EmptyString :: w :: ws))
      with ("/" +++ join "/" (w :: ws)).
    rewrite IH. reflexivity.
  - destruct (split "/" s) as [|w ws]; [contradiction|].
    destruct ws as [|w' ws].
    + simpl in *. rewrite IH. reflexivity.
    + change (join "/" (String c w :: w' :: ws))
        with (String c (w +++ "/" +++ join "/" (w' :: ws))).
      change (join "/" (w :: w' :: ws))
        with (w +++ "/" +++ join "/" (w' :: ws)) in IH.
      rewrite IH. reflexivity.
Qed.

(** A text without separator is the first part of what follows it. *)
Lemma split_segment (a b : string) :
  segment a = true -> split "/" (a +++ "/" +++ b) = a :: split "/" b.
Proof.
  unfold segment. induction a as [|c a IH]; intros H.
  - reflexivity.
  - cbn [includes startsWith] in H. apply Bool.negb_true_iff in H.
    apply Bool.orb_false_elim in H. destruct H as [C I].
    rewrite Bool.andb_true_r in C.
    change ((String c a) +++ "/" +++ b) with (String c (a +++ "/" +++ b)).
    cbn [split]. rewrite Ascii.eqb_sym, C.
    rewrite IH; [reflexivity|]. rewrite I. reflexivity.
Qed.

(** X24.  The address of a file on GitHub is read back part by part: for
    an owner, a repository and a branch without [/], the URL
    [https://github.com/owner/repo/blob/branch/path] (or [tree] for
    [blob]) is located at that owner, repository, branch and path,
    whatever the path and whether or not the URL mentions NestJS, so the
    metadata is asked for at
    [.../repos/owner/repo/contents/path?ref=branch] and the content is
    read at [https://raw.githubusercontent.com/owner/repo/branch/path]. *)
Theorem locate_github_url (owner repo branch path kind : string) :
  Locator.segment owner = true ->
  Locator.segment repo = true ->
  Locator.segment branch = true ->
  kind = "blob" \/ kind = "tree" ->
  let location :=
    Locator.locate
      ("https://github.com/" +++ owner +++ "/" +++ repo +++ "/" +++ kind
       +++ "/" +++ branch +++ "/" +++ path) in
  location = Locator.mkLocation owner repo branch path
  /\ Locator.apiUrl location
     = "https://api.github.com/repos/" +++ owner +++ "/" +++ repo
       +++ "/contents/" +++ path +++ "?ref=" +++ branch
  /\ Locator.rawUrl location
     = "https://raw.githubusercontent.com/" +++ owner +++ "/" +++ repo
       +++ "/" +++ branch +++ "/" +++ path.
Proof.
  intros So Sr Sb K location.
  assert (Sk : segment kind = true) by (destruct K; subst kind; reflexivity).
  assert (E : location = mkLocation owner repo branch path).
  { unfold location, locate.
    assert (P : startsWith
                  ("https://github.com/" +++ owner +++ "/" +++ repo +++ "/"
                   +++ kind +++ "/" +++ branch +++ "/" +++ path)
                  "https://github.com/" = true).
    { apply startsWith_prefix. eexists. reflexivity. }
    rewrite P, replaceFirst_prefix.
    change (EmptyString +++ ?x) with x.
    rewrite (split_segment owner _ So), (split_segment repo _ Sr),
      (split_segment kind _ Sk), (split_segment branch _ Sb).
    rewrite join_split.
    destruct K; subst kind; reflexivity. }
  rewrite E. unfold apiUrl, rawUrl, GITHUB_API_BASE, GITHUB_RAW_CONTENT_BASE.
  cbn [Locator.owner Locator.repo Locator.branch Locator.cleanPath].
  repeat split.
Qed.

Lemma locate_github_url_witness :
  Locator.rawUrl
    (Locator.locate
       "https://github.com/nestjs/docs.nestjs.com/blob/master/content/pipes.md")
  = "https://raw.githubusercontent.com/nestjs/docs.nestjs.com/master/content/pipes.md".
Proof.
  apply (locate_github_url "nestjs" "docs.nestjs.com" "master"
           "content/pipes.md" "blob");
    try reflexivity. left. reflexivity.
Defined.

End LocatorFacts.

(* ===================================================================== *)
(** ** Code snippets of [docs-code] elements *)
(* ===================================================================== *)

Section SnippetFacts.
Import Str Regex StateMonad Markdown Snippets.

Context {W : Type}.
Variable extractCodeFromDocumentationPath :
  string -> option string -> State W string.

(** An element in which the name of an attribute, followed by [=], does
    not occur has no value for it. *)
Lemma attributeValue_absent (element : string) :
  includes element "path=" = false ->
  attributeValue "path" element = EmptyString.
Proof.
  intros H. unfold attributeValue.
  rewrite (no_occurrence (attribute "path") "path=" element);
    [reflexivity|reflexivity| |exact H].
  intros u L. apply prefix_infix. revert L.
  change (attribute "path")
    with (Seq (lit "path=")
            (seqs [anyQuote; Group 1 (plus true notQuote); anyQuote])).
  apply lang_seq_prefix. apply lang_lit_prefix.
Qed.

(** X25.  A [docs-code] element in which [path=] does not occur names no
    file: [extractDocsCodeExample] fetches nothing for it, leaves the
    state as it was, and answers with a comment that repeats the element
    (with the empty text for the empty element). *)
Theorem extractDocsCodeExample_without_path (docsCodeElement : string) (w : W) :
  Str.includes docsCodeElement "path=" = false ->
  Snippets.extractDocsCodeExample extractCodeFromDocumentationPath
    docsCodeElement w
  = (if Str.truthy docsCodeElement
     then "// No path found in docs-code element: " +++ docsCodeElement
     else EmptyString,
     w).
Proof.
  intros H. unfold extractDocsCodeExample.
  destruct (truthy docsCodeElement); [|reflexivity].
  cbv zeta. rewrite (attributeValue_absent _ H). reflexivity.
Qed.

End SnippetFacts.

Lemma extractDocsCodeExample_without_path_witness :
  fst (Snippets.extractDocsCodeExample
         (fun _ _ => StateMonad.ret "never fetched")
         "<docs-code header='Actors'/>" tt)
  = "// No path found in docs-code element: <docs-code header='Actors'/>".
Proof.
  rewrite (extractDocsCodeExample_without_path
             (fun _ _ => StateMonad.ret "never fetched")
             "<docs-code header='Actors'/>" tt);
    reflexivity.
Defined.

(* ===================================================================== *)
(** ** The documentation tools *)
(* ===================================================================== *)

Section DocToolFacts.
Import Str Entities StateMonad Docs Markdown DocTools.

(** The two frameworks the tools accept. *)
Lemma accepted_supported (framework : string) :
  framework = "angular" \/ framework = "nestjs" -> supported framework.
Proof. intros [->| ->]; [right|left]; reflexivity. Qed.

(** For a supported framework the index answers with at least one
    source, and no section of a source is empty. *)
Lemma sources_of_supported (w : World) (framework : string) :
  wellFormed w -> supported framework ->
  fst (getDocumentationSources framework w) <> []
  /\ Forall sectionsNonEmpty (fst (getDocumentationSources framework w)).
Proof.
  intros Hw Hs.
  destruct (wellFormed_supported w framework Hw Hs) as (sources & L & N & S).
  destruct (getDocumentationSources_known framework w sources L)
    as (_ & _ & R).
  split.
  - apply (Forall2_length_nonempty _ _ _ R N).
  - apply (Forall2_Forall _ _ _ _ _ R S).
Qed.

Lemma preview_bounded (content : string) :
  String.length (preview content) <= 503.
Proof.
  unfold preview. destruct (truthy content); [|simpl; lia].
  destruct (500 <? String.length content) eqn:E.
  - rewrite length_append, substring_from_start.
    pose proof (length_take_le 500 content).
    change (String.length "...") with 3. lia.
  - apply Nat.ltb_ge in E. lia.
Qed.

(** X26.  What [searchDocumentation] answers for one of the two
    frameworks it accepts, on a well-formed index: never that no source
    was found; that nothing was found exactly when the search in the
    first source of the framework returns no topic; and otherwise the
    name, identifier and URL of that source with one result per topic
    found, in order, a result count that is their number, and a content
    of at most 503 code units in each result. *)
Theorem searchDocumentation_answers (w : Docs.World) (framework query : string) :
  Docs.wellFormed w ->
  framework = "angular" \/ framework = "nestjs" ->
  exists source others,
    fst (Docs.getDocumentationSources framework w) = source :: others
    /\ let found :=
         fst (Docs.searchTopics (Entities.sourceId source) query
                (snd (Docs.getDocumentationSources framework w))) in
       match fst (DocTools.searchDocumentation framework query w) with
       | DocTools.NoSources => False
       | DocTools.NoResults => found = []
       | DocTools.Found name id url results resultCount =>
           name = Entities.sourceName source
           /\ id = Entities.sourceId source
           /\ url = Entities.getBaseUrl source
           /\ results = map DocTools.topicView found
           /\ resultCount = List.length found
           /\ 0 < resultCount
           /\ Forall
                (fun view => String.length (DocTools.viewContent view) <= 503)
                results
       end.
Proof.
  intros Hw Hf.
  destruct (sources_of_supported w framework Hw (accepted_supported _ Hf))
    as [N _].
  unfold searchDocumentation. rewrite bind_run.
  destruct (fst (getDocumentationSources framework w)) as [|source others];
    [contradiction|].
  exists source, others. split; [reflexivity|]. cbv zeta.
  rewrite bind_run.
  destruct (fst (searchTopics (sourceId source) query
                   (snd (getDocumentationSources framework w))))
    as [|topic topics] eqn:E.
  - reflexivity.
  - cbn [List.length Nat.eqb]. rewrite ret_run. cbn [fst].
    repeat split; try reflexivity; try lia.
    apply Forall_map. apply Forall_forall. intros t _.
    apply preview_bounded.
Qed.

Lemma searchDocumentation_answers_witness :
  fst (DocTools.searchDocumentation "nestjs" "no such words"
         (Docs.newRepository Examples.steady))
  = DocTools.NoResults
  /\ fst (DocTools.searchDocumentation "nestjs" "great technique"
            (Docs.newRepository Examples.steady))
     <> DocTools.NoSources.
Proof.
  split; [reflexivity|].
  destruct (searchDocumentation_answers (Docs.newRepository Examples.steady)
              "nestjs" "great technique") as (source & others & E & H).
  - split; [reflexivity|]. repeat constructor; simpl; discriminate.
  - right. reflexivity.
  - intros C. rewrite C in H. exact H.
Defined.

(** X27.  What [browseDocumentation] answers for one of the two
    frameworks it accepts, on a well-formed index: at least one source,
    and for every section of every source a topic count of at least 1
    and a preview made of the first topics of the section, five of them
    or all when the section has fewer. *)
Theorem browseDocumentation_previews (w : Docs.World) (framework : string) :
  Docs.wellFormed w ->
  framework = "angular" \/ framework = "nestjs" ->
  exists views,
    fst (DocTools.browseDocumentation framework w) = Some views
    /\ views
       = map DocTools.sourceView (fst (Docs.getDocumentationSources framework w))
    /\ views <> []
    /\ Forall
         (fun source =>
            Forall
              (fun section =>
                 1 <= DocTools.topicCount section
                 /\ List.length (DocTools.topicPreview section)
                    = Nat.min 5 (DocTools.topicCount section))
              (DocTools.viewSections source))
         views.
Proof.
  intros Hw Hf.
  destruct (sources_of_supported w framework Hw (accepted_supported _ Hf))
    as [N S].
  unfold browseDocumentation. rewrite bind_run.
  destruct (fst (getDocumentationSources framework w)) as [|source others];
    [contradiction|].
  cbn [List.length Nat.eqb]. rewrite ret_run. cbn [fst].
  eexists. split; [reflexivity|]. split; [reflexivity|].
  split; [discriminate|].
  apply Forall_map. apply (Forall_impl _ (P := sectionsNonEmpty)); [|exact S].
  intros src H. unfold sourceView. cbn [viewSections].
  apply Forall_map. apply (Forall_impl _ (P := fun s => nonEmpty s = true));
    [|exact H].
  intros section E. unfold sectionView. cbn [topicCount topicPreview].
  unfold nonEmpty in E. apply Nat.ltb_lt in E.
  rewrite length_map, length_firstn. split; lia.
Qed.

Lemma browseDocumentation_previews_witness :
  exists views,
    fst (DocTools.browseDocumentation "nestjs"
           (Docs.newRepository Examples.steady)) = Some views
    /\ map (fun source => map DocTools.topicCount (DocTools.viewSections source))
         views = [[1]].
Proof.
  destruct (browseDocumentation_previews (Docs.newRepository Examples.steady)
              "nestjs") as (views & E & V & _).
  - split; [reflexivity|]. repeat constructor; simpl; discriminate.
  - right. reflexivity.
  - exists views. split; [exact E|]. rewrite V. reflexivity.
Defined.

End DocToolFacts.

Section BatchFacts.
Import Str Entities StateMonad Markdown DocTools.

Context {W : Type}.
Variable extractCodeFromDocumentationPath :
  string -> option string -> State W string.

(** The loop over the batches does what one pass over the selectors
    does, from the selector it stands at. *)
Lemma batches_run (selectors : list SelectorInfo) (batchSize : nat) :
  1 <= batchSize ->
  forall (fuel i : nat) (results : list Snippet) (w : W),
    List.length selectors - i < fuel ->
    batches extractCodeFromDocumentationPath fuel selectors batchSize i
      results w
    = (Some (results ++ fst (traverse (extractOne extractCodeFromDocumentationPath) (skipn i selectors) w)),
       snd (traverse (extractOne extractCodeFromDocumentationPath) (skipn i selectors) w)).
Proof.
  intros B fuel. induction fuel as [|fuel IH]; intros i results w F; [lia|].
  cbn [batches]. destruct (i <? List.length selectors) eqn:C.
  - apply Nat.ltb_lt in C. rewrite bind_run, IH by lia.
    rewrite (Nat.add_comm i batchSize), <- skipn_skipn.
    set (rest := skipn i selectors).
    assert (T : traverse (extractOne extractCodeFromDocumentationPath) rest w
                = let (a, w1) :=
                    traverse (extractOne extractCodeFromDocumentationPath)
                      (firstn batchSize rest) w in
                  let (b, w2) :=
                    traverse (extractOne extractCodeFromDocumentationPath)
                      (skipn batchSize rest) w1 in
                  (a ++ b, w2)).
    { rewrite <- (firstn_skipn batchSize rest) at 1. apply traverse_app. }
    rewrite T.
    destruct (traverse (extractOne extractCodeFromDocumentationPath)
                (firstn batchSize rest) w) as [a w1].
    cbn [fst snd].
    destruct (traverse (extractOne extractCodeFromDocumentationPath)
                (skipn batchSize rest) w1) as [b w2].
    cbn [fst snd]. rewrite app_assoc. reflexivity.
  - apply Nat.ltb_ge in C. rewrite (skipn_all2 selectors C).
    cbn [traverse]. rewrite !ret_run. cbn [fst snd]. rewrite app_nil_r.
    reflexivity.
Qed.

Lemma extractOne_resultOf (info : SelectorInfo) (w : W) :
  resultOf info (fst (extractOne extractCodeFromDocumentationPath info w)).
Proof.
  unfold resultOf, DocTools.extractOne.
  destruct (namesElement info); cbn [orb].
  - rewrite bind_run, ret_run. eexists. reflexivity.
  - destruct (given (selectorPath info)).
    + rewrite bind_run, ret_run. eexists. reflexivity.
    + reflexivity.
Qed.

Lemma filter_split_length {A} (p : A -> bool) (xs : list A) :
  List.length (filter (fun x => negb (p x)) xs) + List.length (filter p xs)
  = List.length xs.
Proof.
  induction xs as [|x xs IH]; simpl; [reflexivity|].
  destruct (p x); simpl; lia.
Qed.

(** An extraction falls in exactly one group, a selector that names
    nothing in none. *)
Lemma groups_of_result (info : SelectorInfo) (r : Snippet) :
  resultOf info r ->
  (if ofType ["html"] r then 1 else 0)
  + (if ofType ["typescript"; "javascript"] r then 1 else 0)
  + (if ofType ["css"; "scss"] r then 1 else 0)
  + (if otherType r then 1 else 0)
  = if namesElement info || given (selectorPath info) then 1 else 0.
Proof.
  unfold resultOf.
  destruct (namesElement info || given (selectorPath info)).
  - intros [code ->]. unfold extracted, codeTypeOf.
    repeat match goal with
           | |- context [if ?c then _ else _] =>
               match c with
               | given _ => destruct c
               | endsWith _ _ => destruct c
               | _ && _ => destruct c
               | _ || _ => destruct c
               end
           end; reflexivity.
  - intros ->. reflexivity.
Qed.

Lemma filter_length_cons {A} (p : A -> bool) (x : A) (xs : list A) :
  List.length (filter p (x :: xs))
  = (if p x then 1 else 0) + List.length (filter p xs).
Proof. simpl. destruct (p x); reflexivity. Qed.

(** X28.  [extractMultipleCodeSnippets] answers every selector once,
    whatever the size of the batches: for a fetch that answers with
    texts, a batch size of at least 1 and a list of selectors that is
    not empty, the loop ends and the results
    are one per selector, in the order of the selectors: an extraction
    described by its selector when the selector names a [docs-code]
    element or a path, the notice of an incomplete selector otherwise.
    The summary counts the selectors, the successes and the failures add
    up to that count, and the four groups together hold exactly the
    results of the selectors that name an element or a path. *)
Theorem extractMultipleCodeSnippets_results (selectors : list DocTools.SelectorInfo)
  (batchSize fuel : nat) (w : W) :
  selectors <> [] ->
  1 <= batchSize ->
  List.length selectors < fuel ->
  exists summary grouped results,
    fst (DocTools.extractMultipleCodeSnippets extractCodeFromDocumentationPath
           fuel selectors batchSize w)
    = Some (DocTools.Snippets summary grouped results)
    /\ Forall2 DocTools.resultOf selectors results
    /\ DocTools.totalRequested summary = List.length selectors
    /\ DocTools.successful summary + DocTools.failed summary
       = DocTools.totalRequested summary
    /\ List.length (DocTools.html grouped)
       + List.length (DocTools.typescript grouped)
       + List.length (DocTools.css grouped)
       + List.length (DocTools.other grouped)
       = List.length
           (filter
              (fun info =>
                 DocTools.namesElement info
                 || DocTools.given (DocTools.selectorPath info))
              selectors).
Proof.
  intros N B F. unfold extractMultipleCodeSnippets.
  destruct selectors as [|info selectors'] eqn:S; [contradiction|].
  rewrite <- S in *. clear N.
  replace (List.length selectors =? 0) with false
    by (rewrite S; reflexivity).
  rewrite bind_run, (batches_run selectors batchSize B) by lia.
  cbn [skipn fst snd app]. rewrite ret_run. cbn [fst option_map].
  pose proof (traverse_Forall2 (extractOne extractCodeFromDocumentationPath) resultOf
                extractOne_resultOf
                selectors w) as R.
  set (results := fst (traverse (extractOne extractCodeFromDocumentationPath) selectors w)) in *.
  unfold answer. do 3 eexists. split; [reflexivity|].
  split; [exact R|]. split; [reflexivity|].
  cbn [totalRequested successful failed html typescript css other].
  split.
  - rewrite filter_split_length. symmetry. apply (Forall2_length R).
  - clear S F. induction R as [|x r xs rs H R IH]; [reflexivity|].
    rewrite !filter_length_cons. rewrite <- IH, <- (groups_of_result x r H).
    lia.
Qed.

(** X29.  With a batch size of zero the loop of
    [extractMultipleCodeSnippets] never ends: for a list of selectors
    that is not empty it is still running after any number of turns,
    and it fetches nothing on the way. *)
Theorem extractMultipleCodeSnippets_zero_batch
  (selectors : list DocTools.SelectorInfo) (fuel : nat) (w : W) :
  selectors <> [] ->
  DocTools.extractMultipleCodeSnippets extractCodeFromDocumentationPath fuel
    selectors 0 w
  = (None, w).
Proof.
  intros N. unfold extractMultipleCodeSnippets.
  destruct selectors as [|info selectors'] eqn:S; [contradiction|].
  rewrite <- S. replace (List.length selectors =? 0) with false
    by (rewrite S; reflexivity).
  assert (L : forall results,
             batches extractCodeFromDocumentationPath fuel selectors 0 0
               results w = (None, w)).
  { induction fuel as [|fuel' IH]; intros results; [reflexivity|].
    cbn [batches]. replace (0 <? List.length selectors) with true
      by (rewrite S; reflexivity).
    rewrite bind_run. cbn [firstn traverse]. rewrite !ret_run.
    cbn [fst snd]. apply IH. }
  rewrite bind_run, L. reflexivity.
Qed.

End BatchFacts.

Lemma extractMultipleCodeSnippets_results_witness :
  exists summary grouped results,
    fst (DocTools.extractMultipleCodeSnippets
           (fun path _ => StateMonad.ret ("<p>" +++ path +++ "</p>"))
           3
           [DocTools.mkSelectorInfo None (Some "a.html") None None;
            DocTools.mkSelectorInfo None None None (Some "nothing")]
           1 tt)
    = Some (DocTools.Snippets summary grouped results)
    /\ DocTools.successful summary + DocTools.failed summary = 2.
Proof.
  destruct (extractMultipleCodeSnippets_results
              (fun path _ => StateMonad.ret ("<p>" +++ path +++ "</p>"))
              [DocTools.mkSelectorInfo None (Some "a.html") None None;
               DocTools.mkSelectorInfo None None None (Some "nothing")]
              1 3 tt)
    as (summary & grouped & results & E & _ & T & C & _).
  - discriminate.
  - lia.
  - simpl. lia.
  - exists summary, grouped, results. split; [exact E|].
    rewrite C, T. reflexivity.
Defined.

Lemma extractMultipleCodeSnippets_zero_batch_witness :
  fst (DocTools.extractMultipleCodeSnippets
         (fun path _ => StateMonad.ret path) 1000
         [DocTools.mkSelectorInfo None (Some "a.html") None None] 0 tt)
  = None.
Proof.
  rewrite (extractMultipleCodeSnippets_zero_batch
             (fun path _ => StateMonad.ret path)
             [DocTools.mkSelectorInfo None (Some "a.html") None None] 1000 tt);
    [reflexivity|discriminate].
Defined.

(* ===================================================================== *)
(** ** The controller rules: when nothing is reported *)
(* ===================================================================== *)

Section ControllerFacts.
Import Str Entities Tree Walk Rules Expected.

Lemma when_nil (b : bool) (issue : CodeIssue) :
  (if b then [issue] else []) = [] <-> b = false.
Proof. destruct b; split; intros H; try reflexivity; discriminate H. Qed.

(** What the check of a method pushes. *)
Lemma checkHandlerMethod_readable (m : Method) :
  readable (methodDecorators m) = true ->
  exists out,
    pushes (checkHandlerMethod m) out
    /\ (out = [] <-> acceptedMethod m = true).
Proof.
  intros R. unfold checkHandlerMethod.
  rewrite (someDecorator_readable _ _ R).
  eexists. split.
  - apply pushes_orThrow. apply pushes_when.
  - rewrite when_nil. unfold acceptedMethod, isHttpMethod.
    destruct (carries _ (methodDecorators m)), (methodIsPrivate m),
      (methodIsProtected m); simpl; split; intros H;
      try reflexivity; discriminate H.
Qed.

Lemma checkInjectedParameter_accepts (param : ParameterDeclaration) :
  exists out,
    pushes (checkInjectedParameter param) out
    /\ (out = [] <-> acceptedParameter param = true).
Proof.
  unfold checkInjectedParameter. eexists. split; [apply pushes_when|].
  rewrite when_nil. unfold acceptedParameter.
  destruct (parameterIsPrivate param), (parameterIsProtected param),
    (parameterIsPublic param); simpl; split; intros H;
    try reflexivity; discriminate H.
Qed.

(** A loop whose turns push nothing exactly when they accept their
    element pushes nothing exactly when every element is accepted. *)
Lemma pushes_forEach_accepts {A} (body : A -> Walk unit) (accepted : A -> bool)
  (xs : list A) :
  (forall x, In x xs ->
     exists out, pushes (body x) out /\ (out = [] <-> accepted x = true)) ->
  exists out,
    pushes (forEach body xs) out /\ (out = [] <-> forallb accepted xs = true).
Proof.
  induction xs as [|x xs IH]; intros H; simpl.
  - exists []. split; [apply pushes_ret|]. split; reflexivity.
  - destruct (H x (or_introl eq_refl)) as (a & Pa & Ea).
    destruct IH as (b & Pb & Eb); [intros y I; apply H; right; exact I|].
    exists (a ++ b). split; [apply pushes_then; assumption|].
    rewrite Bool.andb_true_iff, <- Ea, <- Eb. split.
    + intros E. apply app_eq_nil in E. exact E.
    + intros [-> ->]. reflexivity.
Qed.

Lemma checkControllerClass_readable (c : ClassDeclaration) :
  readableClass c = true ->
  exists out,
    pushes (checkControllerClass c) out
    /\ (out = [] <-> conformingController c = true).
Proof.
  intros R. unfold readableClass in R. apply Bool.andb_true_iff in R.
  destruct R as [Rc Rm]. rewrite forallb_forall in Rm.
  unfold checkControllerClass. rewrite (someDecorator_readable _ _ Rc).
  destruct (pushes_forEach_accepts checkHandlerMethod acceptedMethod
              (classMethods c)) as (methods & Pm & Em).
  { intros m I. apply checkHandlerMethod_readable. apply Rm. exact I. }
  assert (Hp : exists out,
             pushes
               match classConstructors c with
               | parameters :: _ => forEach checkInjectedParameter parameters
               | [] => ret tt
               end out
             /\ (out = []
                 <-> match classConstructors c with
                     | parameters :: _ => forallb acceptedParameter parameters
                     | [] => true
                     end = true)).
  { destruct (classConstructors c) as [|parameters others].
    - exists []. split; [apply pushes_ret|]. split; reflexivity.
    - apply pushes_forEach_accepts. intros p _.
      apply checkInjectedParameter_accepts. }
  destruct Hp as (parameters & Pp & Ep).
  eexists. split.
  - apply pushes_orThrow. apply pushes_then; [apply pushes_when|].
    apply pushes_then; [exact Pm|exact Pp].
  - unfold conformingController.
    rewrite !Bool.andb_true_iff, <- Em, <- Ep. split.
    + intros E. apply app_eq_nil in E. destruct E as [E1 E2].
      apply app_eq_nil in E2. apply when_nil in E1.
      apply Bool.negb_false_iff in E1. repeat split; tauto.
    + intros [[E1 ->] ->]. rewrite E1. reflexivity.
Qed.

(** X30.  The controller rules report nothing exactly for the
    controllers that follow them.  In a tree whose decorators can all be
    read, [analyzeNestJSController] throws nothing, and it pushes no
    issue if and only if every class carries [@Controller], each of its
    methods carries one of the seven HTTP method decorators or is
    private or protected, and each parameter of its first constructor
    has an access modifier. *)
Theorem analyzeNestJSController_conforming (sourceFile : Tree.SourceFile) :
  forallb Expected.readableClass (Tree.getClasses sourceFile) = true ->
  exists out,
    Walk.pushes (Rules.analyzeNestJSController sourceFile) out
    /\ (out = []
        <-> forallb Expected.conformingController (Tree.getClasses sourceFile)
            = true).
Proof.
  intros R. rewrite forallb_forall in R. unfold analyzeNestJSController.
  apply pushes_forEach_accepts. intros c I.
  apply checkControllerClass_readable. apply R. exact I.
Qed.

Lemma analyzeNestJSController_conforming_witness :
  Walk.pushes
    (Rules.analyzeNestJSController
       (Tree.mkSourceFile [] [] []
          [Tree.mkClass (Some "CatsController") "class CatsController {}"
             [Tree.mkDecorator (Some "Controller") [] 1 1]
             [Tree.mkMethod "list" "list() {}"
                [Tree.mkDecorator (Some "Get") [] 2 2] false false 2 2]
             [] [] 1 3]))
    [].
Proof.
  destruct (analyzeNestJSController_conforming
              (Tree.mkSourceFile [] [] []
                 [Tree.mkClass (Some "CatsController") "class CatsController {}"
                    [Tree.mkDecorator (Some "Controller") [] 1 1]
                    [Tree.mkMethod "list" "list() {}"
                       [Tree.mkDecorator (Some "Get") [] 2 2] false false 2 2]
                    [] [] 1 3]))
    as (out & P & E); [reflexivity|].
  assert (N : out = []) by (apply E; reflexivity).
  rewrite N in P. exact P.
Defined.

End ControllerFacts.
